(** * AI-Engineer: template knowledge base, blueprint generator and n8n
      workflow builder -- a shallow embedding and its verified properties.

    The development follows the TypeScript sources of four classes:
    - [WorkflowKnowledgeBase] (module [workflow-knowledge]),
    - [AIEngineerAgent] and the shared types (module [ai-agent]),
    - [BlueprintGenerator], the advanced blueprint generator,
    - [N8nWorkflowBuilder], the n8n workflow JSON builder.

    Conventions of the embedding.
    - JavaScript strings are [string]s over 8-bit characters; [toLowerCase]
      folds the letters A-Z.
    - JavaScript numbers are exact: counters are [nat], integer-valued
      fields are [Z], and the cost/ROI arithmetic is done in [Q].
    - [Array.prototype.sort] is stable (ECMAScript 2019); it is modelled by a
      stable insertion sort, and it sorts the receiver in place.
    - Mutable objects of a class are threaded explicitly: a method of the
      knowledge base returns its result together with the new store, the
      builder runs in a state monad over its counters, and [Math.random] is
      an explicit source of draws.
    - The message loop of the agent (module [Conversation]) threads the
      conversation context, the knowledge base and the source of draws as
      one record; a reply is given by its template and the values put into
      it.
    - A plain object used as a dictionary is the finite map of its own
      properties; a key that names a property inherited from
      [Object.prototype] is outside the model (see [connectNodes]). *)

From Stdlib Require Import ZArith QArith Qround Lia Ascii.
From Stdlib Require Import DecimalString DecimalNat.
From Stdlib Require Import Permutation Sorted.
From stdpp Require Import base option list gmap strings.

Local Open Scope Z_scope.

(** ** JavaScript primitives *)

Module JS.

(** [String.prototype.toLowerCase], on one character. *)
Definition toLowerCase_char (c : ascii) : ascii :=
  let n := Ascii.N_of_ascii c in
  if ((65 <=? n) && (n <=? 90))%N then Ascii.ascii_of_N (n + 32) else c.

Fixpoint toLowerCase (s : string) : string :=
  match s with
  | EmptyString => EmptyString
  | String c s' => String (toLowerCase_char c) (toLowerCase s')
  end.

(** [String.prototype.toUpperCase], on one character. *)
Definition toUpperCase_char (c : ascii) : ascii :=
  let n := Ascii.N_of_ascii c in
  if ((97 <=? n) && (n <=? 122))%N then Ascii.ascii_of_N (n - 32) else c.

(** [s.charAt(0).toUpperCase() + s.slice(1)]. *)
Definition capitalize (s : string) : string :=
  match s with
  | EmptyString => EmptyString
  | String c s' => String (toUpperCase_char c) s'
  end.

(** [s.startsWith(p)]. *)
Fixpoint startsWith (s p : string) : bool :=
  match p, s with
  | EmptyString, _ => true
  | String _ _, EmptyString => false
  | String a p', String b s' => if Ascii.eqb a b then startsWith s' p' else false
  end.

(** [s.includes(sub)]: [sub] occurs in [s] as a contiguous substring. *)
Fixpoint includes (s sub : string) : bool :=
  if startsWith s sub then true
  else match s with
       | EmptyString => false
       | String _ s' => includes s' sub
       end.

(** [s.split(sep)] for a one-character separator: the pieces between the
    occurrences of [sep], empty pieces included; [''.split(' ')] is ['']. *)
Fixpoint split (sep : ascii) (s : string) : list string :=
  match s with
  | EmptyString => [EmptyString]
  | String c s' =>
      if Ascii.eqb c sep then EmptyString :: split sep s'
      else match split sep s' with
           | h :: t => String c h :: t
           | [] => [String c EmptyString]
           end
  end.

(** [arr.join(sep)]. *)
Fixpoint join (sep : string) (l : list string) : string :=
  match l with
  | [] => EmptyString
  | [x] => x
  | x :: l' => x +:+ sep +:+ join sep l'
  end.

(** Truthiness of a string: the empty string is falsy. *)
Definition truthy (s : string) : bool :=
  match s with EmptyString => false | _ => true end.

(** [arr.includes(x)] on an array of strings. *)
Definition arr_includes (l : list string) (x : string) : bool :=
  existsb (String.eqb x) l.

(** [arr.slice(0, e)] for an integer [e]: a negative [e] counts from the
    end of the array. *)
Definition slice0 {A} (e : Z) (l : list A) : list A :=
  if e <? 0 then take (Z.to_nat (Z.of_nat (length l) + e)) l
  else take (Z.to_nat e) l.

(** [arr.sort(cmp)]: a stable sort; [cmp a b > 0] puts [a] after [b]. *)
Fixpoint sort_insert {A} (cmp : A -> A -> Z) (x : A) (l : list A) : list A :=
  match l with
  | [] => [x]
  | y :: l' => if 0 <? cmp x y then y :: sort_insert cmp x l' else x :: y :: l'
  end.

Definition sort {A} (cmp : A -> A -> Z) (l : list A) : list A :=
  foldr (sort_insert cmp) [] l.

(** [Math.floor], [Math.ceil], [Math.round] on exact rationals. *)
Definition Math_floor (x : Q) : Q := inject_Z (Qfloor x).
Definition Math_ceil (x : Q) : Q := inject_Z (Qceiling x).
Definition Math_round (x : Q) : Q := inject_Z (Qfloor (x + (1 # 2))).

(** An insertion-ordered [Map], as an association list. *)
Section Map.
Context {K V : Type} `{EqDecision K}.

Fixpoint map_get (k : K) (m : list (K * V)) : option V :=
  match m with
  | [] => None
  | (k', v) :: m' => if decide (k = k') then Some v else map_get k m'
  end.

Definition map_has (k : K) (m : list (K * V)) : bool :=
  match map_get k m with Some _ => true | None => false end.

Fixpoint map_set (k : K) (v : V) (m : list (K * V)) : list (K * V) :=
  match m with
  | [] => [(k, v)]
  | (k', v') :: m' =>
      if decide (k = k') then (k, v) :: m' else (k', v') :: map_set k v m'
  end.
End Map.

End JS.

(** ** The workflow knowledge base ([WorkflowKnowledgeBase]) *)

Module WorkflowKnowledge.

Inductive WorkflowCategory :=
| e_commerce | crm_sales | marketing_automation | data_processing
| customer_support | finance_accounting | hr_recruiting | social_media
| content_management | analytics_reporting | communication
| project_management | security_monitoring | ai_ml_automation
| api_webhooks | data_transformation.

#[global] Instance WorkflowCategory_eq_dec : EqDecision WorkflowCategory.
Proof. solve_decision. Defined.

Inductive Difficulty := beginner | intermediate | advanced | expert.

(** The string a difficulty literal is at run time. *)
Definition difficulty_str (d : Difficulty) : string :=
  match d with
  | beginner => "beginner" | intermediate => "intermediate"
  | advanced => "advanced" | expert => "expert"
  end.

(** [Integration]: only [service] is read by the queries. *)
Record Integration := { service : string }.

(** [WorkflowTemplate]; the node lists, variables and free texts of a
    template are not read by any query and are left out. *)
Record WorkflowTemplate := {
  id : string;
  name : string;
  description : string;
  category : WorkflowCategory;
  tags : list string;
  difficulty : Difficulty;
  integrations : list Integration;
  popularity : Z
}.

(** The object of class [WorkflowKnowledgeBase]. *)
Record KnowledgeBase := {
  workflows : list WorkflowTemplate;
  categories : list (WorkflowCategory * list WorkflowTemplate);
  tagIndex : list (string * list WorkflowTemplate);
  integrationIndex : list (string * list WorkflowTemplate)
}.

(** One step of an index loop: create the entry if missing, then push. *)
Definition index_push {K} `{EqDecision K} (k : K) (w : WorkflowTemplate)
    (m : list (K * list WorkflowTemplate)) : list (K * list WorkflowTemplate) :=
  let m1 := if JS.map_has k m then m else JS.map_set k [] m in
  match JS.map_get k m1 with
  | Some l => JS.map_set k (l ++ [w]) m1
  | None => m1
  end.

(** The constructor: [ws] are the templates that [initializeWorkflows]
    pushes, in that order; [buildIndexes] then fills the three indexes. *)
Definition buildIndexes (ws : list WorkflowTemplate) : KnowledgeBase :=
  {| workflows := ws;
     categories :=
       foldl (fun m w => index_push (category w) w m) [] ws;
     tagIndex :=
       foldl (fun m w => foldl (fun m tag => index_push tag w m) m (tags w)) [] ws;
     integrationIndex :=
       foldl (fun m w =>
                foldl (fun m i => index_push (service i) w m) m (integrations w))
             [] ws |}.

(** The store after its array [this.workflows] has been sorted in place. *)
Definition set_workflows (kb : KnowledgeBase) (ws : list WorkflowTemplate) :=
  {| workflows := ws;
     categories := categories kb;
     tagIndex := tagIndex kb;
     integrationIndex := integrationIndex kb |}.

(** The optional [filters] argument of [searchWorkflows]. *)
Record SearchFilters := {
  f_category : option WorkflowCategory;
  f_difficulty : option string;
  f_tags : option (list string);
  f_integration : option string
}.

(** The test of one search term against one template. *)
Definition term_matches (w : WorkflowTemplate) (term : string) : bool :=
  JS.includes (JS.toLowerCase (name w)) term
  || JS.includes (JS.toLowerCase (description w)) term
  || existsb (fun tag => JS.includes (JS.toLowerCase tag) term) (tags w).

Definition by_popularity (a b : WorkflowTemplate) : Z :=
  popularity b - popularity a.

(** The four [if (filters?.x)] blocks, each a [filter] when it fires.
    The boolean tells whether [results] is a fresh array or still
    [this.workflows] itself. *)
Definition step_filter (fire : bool) (p : WorkflowTemplate -> bool)
    (st : list WorkflowTemplate * bool) : list WorkflowTemplate * bool :=
  if fire then (List.filter p (fst st), true) else st.

Definition category_fires (filters : option SearchFilters) : option WorkflowCategory :=
  match filters with Some f => f_category f | None => None end.

Definition difficulty_fires (filters : option SearchFilters) : option string :=
  match filters with
  | Some f => match f_difficulty f with
              | Some d => if JS.truthy d then Some d else None
              | None => None
              end
  | None => None
  end.

Definition tags_fires (filters : option SearchFilters) : option (list string) :=
  match filters with
  | Some f => match f_tags f with
              | Some (t :: ts) => Some (t :: ts)
              | _ => None
              end
  | None => None
  end.

Definition integration_fires (filters : option SearchFilters) : option string :=
  match filters with
  | Some f => match f_integration f with
              | Some i => if JS.truthy i then Some i else None
              | None => None
              end
  | None => None
  end.

Definition searchWorkflows (query : string) (filters : option SearchFilters)
    (kb : KnowledgeBase) : list WorkflowTemplate * KnowledgeBase :=
  let st0 := (workflows kb, false) in
  let st1 :=
    step_filter (JS.truthy query)
      (fun w => forallb (term_matches w) (JS.split " " (JS.toLowerCase query)))
      st0 in
  let st2 :=
    match category_fires filters with
    | Some c => step_filter true (fun w => bool_decide (category w = c)) st1
    | None => st1
    end in
  let st3 :=
    match difficulty_fires filters with
    | Some d => step_filter true (fun w => String.eqb (difficulty_str (difficulty w)) d) st2
    | None => st2
    end in
  let st4 :=
    match tags_fires filters with
    | Some ts => step_filter true (fun w => existsb (JS.arr_includes (tags w)) ts) st3
    | None => st3
    end in
  let st5 :=
    match integration_fires filters with
    | Some i =>
        step_filter true
          (fun w => existsb (fun x => String.eqb (JS.toLowerCase (service x))
                                                 (JS.toLowerCase i))
                            (integrations w)) st4
    | None => st4
    end in
  let sorted := JS.sort by_popularity (fst st5) in
  (sorted, if snd st5 then kb else set_workflows kb sorted).

Definition getWorkflowById (i : string) (kb : KnowledgeBase)
    : option WorkflowTemplate * KnowledgeBase :=
  (List.find (fun w => String.eqb (id w) i) (workflows kb), kb).

Definition getWorkflowsByCategory (c : WorkflowCategory) (kb : KnowledgeBase)
    : list WorkflowTemplate * KnowledgeBase :=
  (default [] (JS.map_get c (categories kb)), kb).

(** [this.workflows.sort(...)] sorts the field itself. *)
Definition getPopularWorkflows (limit : Z) (kb : KnowledgeBase)
    : list WorkflowTemplate * KnowledgeBase :=
  let sorted := JS.sort by_popularity (workflows kb) in
  (JS.slice0 limit sorted, set_workflows kb sorted).

(** The body of the [reduce] callback of [getRecommendedWorkflows]. *)
Definition score_step (w : WorkflowTemplate) (score : Z) (keyword : string) : Z :=
  let score := if JS.includes (JS.toLowerCase (name w)) keyword then score + 3 else score in
  let score := if JS.includes (JS.toLowerCase (description w)) keyword then score + 2 else score in
  let score := if existsb (fun tag => JS.includes (JS.toLowerCase tag) keyword) (tags w)
               then score + 1 else score in
  score.

Definition score (keywords : list string) (w : WorkflowTemplate) : Z :=
  foldl (score_step w) 0 keywords.

Definition by_score (a b : WorkflowTemplate * Z) : Z := snd b - snd a.

Definition getRecommendedWorkflows (requirements : list string) (kb : KnowledgeBase)
    : list WorkflowTemplate * KnowledgeBase :=
  let keywords := map JS.toLowerCase requirements in
  (map fst
     (JS.slice0 10
        (JS.sort by_score
           (List.filter (fun item => 0 <? snd item)
              (map (fun w => (w, score keywords w)) (workflows kb))))),
   kb).

(** [Array.from(this.categories.keys())]: the keys in insertion order. *)
Definition getAllCategories (kb : KnowledgeBase)
    : list WorkflowCategory * KnowledgeBase :=
  (map fst (categories kb), kb).

(** The result of [getWorkflowStats]. *)
Record WorkflowStats := {
  total : Z;
  stat_categories : Z;      (* field [categories] *)
  stat_tags : Z;            (* field [tags] *)
  stat_integrations : Z;    (* field [integrations] *)
  avgPopularity : Q
}.

(** [getWorkflowStats]; on an empty store the average is [0 / 0], which is
    [NaN] in JavaScript and 0 in [Q]. *)
Definition getWorkflowStats (kb : KnowledgeBase) : WorkflowStats * KnowledgeBase :=
  ({| total := Z.of_nat (length (workflows kb));
      stat_categories := Z.of_nat (length (categories kb));
      stat_tags := Z.of_nat (length (tagIndex kb));
      stat_integrations := Z.of_nat (length (integrationIndex kb));
      avgPopularity :=
        Qdiv (inject_Z (foldl (fun sum w => sum + popularity w) 0 (workflows kb)))
             (inject_Z (Z.of_nat (length (workflows kb)))) |},
   kb).

End WorkflowKnowledge.

(** ** The agent ([AIEngineerAgent]) and the shared types *)

Module AiAgent.

Inductive RequirementCategory :=
| business_process | technical_specs | integrations | scale_volume
| security_compliance | user_experience | budget_timeline | success_metrics.

#[global] Instance RequirementCategory_eq_dec : EqDecision RequirementCategory.
Proof. solve_decision. Defined.

#[global] Instance RequirementCategory_countable : Countable RequirementCategory.
Proof.
  refine (inj_countable'
    (fun c => match c with
              | business_process => 0 | technical_specs => 1
              | integrations => 2 | scale_volume => 3
              | security_compliance => 4 | user_experience => 5
              | budget_timeline => 6 | success_metrics => 7
              end%nat)
    (fun n => match n with
              | 0 => business_process | 1 => technical_specs
              | 2 => integrations | 3 => scale_volume
              | 4 => security_compliance | 5 => user_experience
              | 6 => budget_timeline | _ => success_metrics
              end%nat) _).
  intros []; reflexivity.
Defined.

Inductive Priority := critical | high | medium | low.

Record ProjectRequirement := {
  id : string;
  category : RequirementCategory;
  question : string;
  answer : string;
  priority : Priority;
  confidence : Q;
  followUpNeeded : bool;
  tags : list string
}.

Inductive Phase := discovery | requirements_phase | blueprint_phase
                 | implementation | optimization.

(** [ConversationContext]; preferences and the chat history are not read
    by the functions below. *)
Record ConversationContext := {
  phase : Phase;
  requirements : list ProjectRequirement
}.

Inductive ComponentType := trigger | processor | integrator | storage | notifier.

#[global] Instance ComponentType_eq_dec : EqDecision ComponentType.
Proof. solve_decision. Defined.

Record TechnicalComponent := {
  name : string;
  type : ComponentType;
  n8nNodes : list string
}.

(** [IntegrationSpec]; the builder reads [service] through [?.], so the
    field may be missing. *)
Record IntegrationSpec := {
  service : option string;
  rateLimit : option Z
}.

Record TechnicalArchitecture := {
  components : list TechnicalComponent;
  integrationSpecs : list IntegrationSpec   (* field [integrations] *)
}.

Record Task := { estimatedHours : Q }.

Record ImplementationPhase := { tasks : list Task }.

Record ImplementationPlan := { phases : list ImplementationPhase }.

(** [ProjectBlueprint].  The random [id], [createdAt] and the descriptive
    texts (overview, business case, risks, metrics) are left out; the
    builder guards [technicalArchitecture] with [?.], so it may be
    missing. *)
Record ProjectBlueprint := {
  title : string;
  technicalArchitecture : option TechnicalArchitecture;
  implementationPlan : ImplementationPlan;
  estimatedROI : Q
}.

Definition criticalCategories : list RequirementCategory :=
  [business_process; technical_specs; integrations; scale_volume].

Definition assessRequirementsCompleteness (context : ConversationContext) : Q :=
  let coveredCategories : gset RequirementCategory :=
    list_to_set (map category (requirements context)) in
  let completeness :=
    (inject_Z (Z.of_nat (length
       (List.filter (fun cat => bool_decide (cat ∈ coveredCategories))
                    criticalCategories)))
     / inject_Z (Z.of_nat (length criticalCategories)))%Q in
  completeness.

(** [this.context.requirements.push(...requirements)]. *)
Definition push_requirements (context : ConversationContext)
    (rs : list ProjectRequirement) : ConversationContext :=
  {| phase := phase context; requirements := requirements context ++ rs |}.

Definition createProjectBlueprint (context : ConversationContext) : ProjectBlueprint :=
  {| title := "Custom AI Automation System";
     technicalArchitecture := Some
       {| components :=
            [ {| name := "Data Collector"; type := trigger;
                 n8nNodes := ["webhook"; "cron"; "http-request"] |};
              {| name := "Process Engine"; type := processor;
                 n8nNodes := ["function"; "if"; "switch"; "openai"] |} ];
          integrationSpecs := [] |};
     implementationPlan :=
       {| phases := [ {| tasks := [ {| estimatedHours := 8 |} ] |} ] |};
     estimatedROI := 250 |}.

End AiAgent.

(** ** The blueprint generator ([BlueprintGenerator]) *)

Module BlueprintGen.
Import AiAgent.

Inductive ProjectType := automation | integration | transformation | analytics | hybrid.
Inductive Complexity := simple | moderate | complex | enterprise.
Inductive Timeline := urgent | normal | extended.
Inductive Budget := minimal | standard | premium | budget_enterprise.
Inductive RiskTolerance := risk_low | risk_medium | risk_high.

Record BlueprintConfig := {
  projectType : ProjectType;
  complexity : Complexity;
  timeline : Timeline;
  budget : Budget;
  riskTolerance : RiskTolerance
}.

Definition complexity_str (c : Complexity) : string :=
  match c with
  | simple => "simple" | moderate => "moderate"
  | complex => "complex" | enterprise => "enterprise"
  end.

Record CostEstimation := {
  development_hours : Q;
  development_rate : Q;
  development_total : Q;
  infrastructure_monthly : Q;
  infrastructure_annually : Q;
  maintenance_monthly : Q;
  maintenance_annually : Q;
  total_initial : Q;
  total_firstYear : Q
}.

Record ROIProjection := {
  timeSavingsHoursPerWeek : Q;
  costSavingsPerMonth : Q;
  productivityGainPercentage : Q;
  errorReductionPercentage : Q;
  paybackPeriodMonths : Q;
  threeYearROI : Q
}.

(** The source of [Math.random] draws: the values it will return, and how
    many have been consumed. *)
Record RandomSource := { draws : nat -> Q; cursor : nat }.

Definition Rand (A : Type) : Type := RandomSource -> A * RandomSource.

Definition Math_random : Rand Q :=
  fun rs => (draws rs (cursor rs),
             {| draws := draws rs; cursor := S (cursor rs) |}).

(** [Math.random] returns a number in the interval [0, 1). *)
Definition valid_source (rs : RandomSource) : Prop :=
  forall n, (0 <= draws rs n)%Q /\ (draws rs n < 1)%Q.

(** [requirements.map(r => r.answer.toLowerCase()).join(' ')]. *)
Definition content (requirements : list ProjectRequirement) : string :=
  JS.join " " (map (fun r => JS.toLowerCase (answer r)) requirements).

Definition countIntegrations (requirements : list ProjectRequirement) : Z :=
  let content := content requirements in
  let integrationKeywords :=
    ["api"; "integration"; "connect"; "sync"; "webhook"; "database"] in
  Z.of_nat (length (List.filter (fun keyword => JS.includes content keyword)
                                integrationKeywords)).

Definition requiresDataProcessing (requirements : list ProjectRequirement) : bool :=
  let content := content requirements in
  JS.includes content "transform" || JS.includes content "validate"
  || JS.includes content "process data".

Definition requiresAI (requirements : list ProjectRequirement) : bool :=
  let content := content requirements in
  JS.includes content "ai" || JS.includes content "intelligent"
  || JS.includes content "smart" || JS.includes content "learning".

Definition requiresStorage (requirements : list ProjectRequirement) : bool :=
  let content := content requirements in
  JS.includes content "store" || JS.includes content "database"
  || JS.includes content "save" || JS.includes content "history".

Definition hasComplexBusinessLogic (requirements : list ProjectRequirement) : bool :=
  let content := content requirements in
  JS.includes content "complex" || JS.includes content "multiple conditions"
  || JS.includes content "decision tree".

Definition hasComplianceRequirements (requirements : list ProjectRequirement) : bool :=
  let content := content requirements in
  JS.includes content "compliance" || JS.includes content "regulation"
  || JS.includes content "audit".

Definition complexity_score (requirements : list ProjectRequirement) : Z :=
  let integrationCount := countIntegrations requirements in
  let score := 0 in
  let score := if 5 <? integrationCount then score + 2
               else if 2 <? integrationCount then score + 1 else score in
  let score := if requiresAI requirements then score + 1 else score in
  let score := if hasComplexBusinessLogic requirements then score + 1 else score in
  let score := if hasComplianceRequirements requirements then score + 2 else score in
  score.

Definition assessComplexity (requirements : list ProjectRequirement) : Complexity :=
  let score := complexity_score requirements in
  if 5 <=? score then enterprise
  else if 3 <=? score then complex
  else if 2 <=? score then moderate
  else simple.

Definition identifyDomain (requirements : list ProjectRequirement) : string :=
  let content := content requirements in
  if JS.includes content "ecommerce" || JS.includes content "e-commerce"
     || JS.includes content "shop" || JS.includes content "orders"
  then "ecommerce"
  else if JS.includes content "crm" || JS.includes content "sales"
          || JS.includes content "leads"
  then "sales"
  else if JS.includes content "data" || JS.includes content "analytics"
          || JS.includes content "reporting"
  then "data"
  else if JS.includes content "support" || JS.includes content "customer service"
          || JS.includes content "tickets"
  then "support"
  else if JS.includes content "marketing" || JS.includes content "email"
          || JS.includes content "campaigns"
  then "marketing"
  else "general".

Inductive DataVolume := vol_low | vol_medium | vol_high | vol_very_high.

Definition estimateDataVolume (requirements : list ProjectRequirement) : DataVolume :=
  let content := content requirements in
  if JS.includes content "million" || JS.includes content "thousands per hour"
     || JS.includes content "big data"
  then vol_very_high
  else if JS.includes content "thousands" || JS.includes content "hundreds per hour"
  then vol_high
  else if JS.includes content "hundreds" || JS.includes content "dozens per hour"
  then vol_medium
  else vol_low.

(** The result of [analyzeRequirements] (the grouping by category and the
    constant [primaryFocus] are not read downstream). *)
Record Analysis := {
  an_complexity : Complexity;
  an_domain : string;
  an_integrationCount : Z;
  an_dataVolume : DataVolume
}.

Definition analyzeRequirements (requirements : list ProjectRequirement) : Analysis :=
  {| an_complexity := assessComplexity requirements;
     an_domain := identifyDomain requirements;
     an_integrationCount := countIntegrations requirements;
     an_dataVolume := estimateDataVolume requirements |}.

Definition getIntegrationNodes (requirements : list ProjectRequirement) : list string :=
  let content := content requirements in
  let nodes := ["http-request"] in
  let nodes := if JS.includes content "google" then nodes ++ ["google-sheets"; "gmail"] else nodes in
  let nodes := if JS.includes content "slack" then nodes ++ ["slack"] else nodes in
  let nodes := if JS.includes content "hubspot" then nodes ++ ["hubspot"] else nodes in
  let nodes := if JS.includes content "salesforce" then nodes ++ ["salesforce"] else nodes in
  let nodes := if JS.includes content "stripe" then nodes ++ ["stripe"] else nodes in
  let nodes := if JS.includes content "email" then nodes ++ ["email-send"; "imap-email"] else nodes in
  nodes.

Definition generateComponents (requirements : list ProjectRequirement)
    (analysis : Analysis) : list TechnicalComponent :=
  let components :=
    [ {| name := "Trigger System"; type := trigger;
         n8nNodes := ["webhook"; "cron"; "manual-trigger"; "email-trigger"] |} ] in
  let components :=
    if requiresDataProcessing requirements
    then components ++
         [ {| name := "Data Processing Engine"; type := processor;
              n8nNodes := ["function"; "json"; "xml"; "set"; "merge"; "item-lists"] |} ]
    else components in
  let components :=
    if requiresAI requirements
    then components ++
         [ {| name := "AI Decision Engine"; type := processor;
              n8nNodes := ["openai"; "anthropic"; "google-ai"; "hugging-face"] |} ]
    else components in
  let components :=
    components ++
    [ {| name := "Integration Layer"; type := integrator;
         n8nNodes := getIntegrationNodes requirements |} ] in
  let components :=
    if requiresStorage requirements
    then components ++
         [ {| name := "Data Storage"; type := storage;
              n8nNodes := ["postgres"; "mysql"; "mongodb"; "redis"; "google-sheets"] |} ]
    else components in
  components ++
  [ {| name := "Notification System"; type := notifier;
       n8nNodes := ["email-send"; "slack"; "discord"; "sms"; "push-notifications"] |} ].

Definition serviceMap : list (string * string) :=
  [ ("hubspot", "HubSpot"); ("salesforce", "Salesforce"); ("stripe", "Stripe");
    ("paypal", "PayPal"); ("shopify", "Shopify"); ("woocommerce", "WooCommerce");
    ("gmail", "Gmail"); ("outlook", "Outlook"); ("slack", "Slack");
    ("discord", "Discord"); ("trello", "Trello"); ("asana", "Asana");
    ("jira", "Jira") ].

Definition extractMentionedServices (requirements : list ProjectRequirement)
    : list string :=
  let content := content requirements in
  map snd (List.filter (fun kv => JS.includes content (fst kv)) serviceMap).

Definition getServiceIntegrationSpec (service : string) : option IntegrationSpec :=
  JS.map_get service
    [ ("HubSpot", {| service := Some "HubSpot CRM"; rateLimit := Some 100 |});
      ("Stripe", {| service := Some "Stripe Payments"; rateLimit := Some 100 |}) ].

Definition generateIntegrationSpecs (requirements : list ProjectRequirement)
    : list IntegrationSpec :=
  let integrations :=
    omap getServiceIntegrationSpec (extractMentionedServices requirements) in
  match integrations with
  | [] => [ {| service := Some "Database"; rateLimit := None |} ]
  | _ => integrations
  end.

Definition generateTechnicalArchitecture (requirements : list ProjectRequirement)
    (analysis : Analysis) : TechnicalArchitecture :=
  {| components := generateComponents requirements analysis;
     integrationSpecs := generateIntegrationSpecs requirements |}.

Local Open Scope Q_scope.

Definition estimateWorkflowHours (complexity : string) : Q :=
  if String.eqb complexity "simple" then 16
  else if String.eqb complexity "moderate" then 32
  else if String.eqb complexity "complex" then 64
  else if String.eqb complexity "enterprise" then 120
  else 24.

Definition task (h : Q) : Task := {| estimatedHours := h |}.

(** The four phases and the hour estimates of their tasks. *)
Definition generateImplementationPhases (architecture : TechnicalArchitecture)
    (config : BlueprintConfig) : list ImplementationPhase :=
  [ {| tasks := [ task (match timeline config with urgent => 6 | _ => 8 end);
                  task 4; task 3 ] |};
    {| tasks := [ task (estimateWorkflowHours (complexity_str (complexity config)));
                  task 8; task 6 ] |};
    {| tasks := [ task 16; task 8; task 12 ] |};
    {| tasks := [ task 6; task 8; task 6 ] |} ].

Definition generateImplementationPlan (architecture : TechnicalArchitecture)
    (config : BlueprintConfig) : ImplementationPlan :=
  {| phases := generateImplementationPhases architecture config |}.

Definition calculateCosts (implementationPlan : ImplementationPlan)
    (architecture : option TechnicalArchitecture) : CostEstimation :=
  let developerRate : Q := 100 in
  let totalHours : Q :=
    foldl (fun total phase =>
             total + foldl (fun phaseTotal task => phaseTotal + estimatedHours task)
                           0 (tasks phase))%Q
          0%Q (phases implementationPlan) in
  {| development_hours := totalHours;
     development_rate := developerRate;
     development_total := totalHours * developerRate;
     infrastructure_monthly := 200;
     infrastructure_annually := 2400;
     maintenance_monthly := 500;
     maintenance_annually := 6000;
     total_initial := totalHours * developerRate;
     total_firstYear := (totalHours * developerRate) + 2400 + 6000 |}%Q.

(** [calculateROI]: the requirement list is not read; the time savings
    are drawn from [Math.random].  A division by zero, which JavaScript
    answers with [Infinity] or [NaN], is answered with 0 in [Q]; it arises
    only for a cost estimate whose three-year costs are 0. *)
Definition calculateROI (requirements : list ProjectRequirement)
    (costs : CostEstimation) : Rand ROIProjection :=
  fun rs =>
  let '(r, rs) := Math_random rs in
  let timeSavingsHoursPerWeek := (JS.Math_floor (r * 20) + 10)%Q in
  let hourlyRate : Q := 50 in
  let costSavingsPerMonth := (timeSavingsHoursPerWeek * 4 * hourlyRate)%Q in
  let annualSavings := (costSavingsPerMonth * 12)%Q in
  let threeYearSavings := (annualSavings * 3)%Q in
  let threeYearCosts :=
    (total_initial costs + (infrastructure_annually costs * 3)
     + (maintenance_annually costs * 3))%Q in
  let threeYearROI := (((threeYearSavings - threeYearCosts) / threeYearCosts) * 100)%Q in
  ({| timeSavingsHoursPerWeek := timeSavingsHoursPerWeek;
      costSavingsPerMonth := costSavingsPerMonth;
      productivityGainPercentage := 45;
      errorReductionPercentage := 85;
      paybackPeriodMonths := JS.Math_ceil (total_initial costs / costSavingsPerMonth);
      threeYearROI := JS.Math_round threeYearROI |}, rs).

Definition generateProjectTitle (requirements : list ProjectRequirement)
    (analysis : Analysis) : string :=
  let domain := JS.capitalize (an_domain analysis) in
  let complexity := JS.capitalize (complexity_str (an_complexity analysis)) in
  domain +:+ " Automation System - " +:+ complexity +:+ " Implementation".

Definition generateComprehensiveBlueprint (requirements : list ProjectRequirement)
    (config : BlueprintConfig) : Rand ProjectBlueprint :=
  fun rs =>
  let analysis := analyzeRequirements requirements in
  let architecture := generateTechnicalArchitecture requirements analysis in
  let implementationPlan := generateImplementationPlan architecture config in
  let costEstimation := calculateCosts implementationPlan (Some architecture) in
  let '(roiProjection, rs) := calculateROI requirements costEstimation rs in
  ({| title := generateProjectTitle requirements analysis;
      technicalArchitecture := Some architecture;
      implementationPlan := implementationPlan;
      estimatedROI := threeYearROI roiProjection |}, rs).

(** *** Data flow and risks *)

Local Open Scope Z_scope.

Record DataFlowStep := {
  step : Z;
  description : string;
  inputSource : string;
  processing : string;
  outputDestination : string;
  errorHandling : string
}.

(** [generateDataFlow]: every [push] numbers its step with [step++]; the
    [components] argument is not read. *)
Definition generateDataFlow (components : list TechnicalComponent)
    (requirements : list ProjectRequirement) : list DataFlowStep :=
  let dataFlow := [] in
  let step := 1 in
  let '(dataFlow, step) :=
    (dataFlow ++
       [ {| step := step;
            description := "Initial trigger receives data or event";
            inputSource := "External trigger (webhook, schedule, manual)";
            processing := "Validate trigger data and extract relevant information";
            outputDestination := "Processing engine";
            errorHandling := "Log error and send notification to administrators" |} ],
     step + 1) in
  let '(dataFlow, step) :=
    if requiresDataProcessing requirements then
      (dataFlow ++
         [ {| step := step;
              description := "Data transformation and enrichment";
              inputSource := "Raw trigger data";
              processing := "Apply business rules, validate, transform, and enrich data";
              outputDestination := "Integration layer or AI engine";
              errorHandling := "Retry with exponential backoff, fallback to manual review" |} ],
       step + 1)
    else (dataFlow, step) in
  let '(dataFlow, step) :=
    if requiresAI requirements then
      (dataFlow ++
         [ {| step := step;
              description := "AI-powered analysis and decision making";
              inputSource := "Processed data";
              processing := "AI analysis, classification, or content generation";
              outputDestination := "Decision routing system";
              errorHandling := "Use fallback rules if AI service is unavailable" |} ],
       step + 1)
    else (dataFlow, step) in
  let '(dataFlow, step) :=
    (dataFlow ++
       [ {| step := step;
            description := "External system integration";
            inputSource := "Processed and analyzed data";
            processing := "Format data for external systems and execute API calls";
            outputDestination := "Target systems (CRM, database, etc.)";
            errorHandling := "Queue for retry, notify on persistent failures" |} ],
     step + 1) in
  let '(dataFlow, step) :=
    (dataFlow ++
       [ {| step := step;
            description := "Result notification and logging";
            inputSource := "Integration results";
            processing := "Generate status reports and user notifications";
            outputDestination := "Users, dashboards, logs";
            errorHandling := "Ensure notifications are delivered despite failures" |} ],
     step + 1) in
  dataFlow.

Inductive Impact := impact_low | impact_medium | impact_high | impact_critical.
Inductive Probability := prob_low | prob_medium | prob_high.
Inductive RiskCategory := technical | business | operational | security.
Inductive RiskLevel := level_low | level_medium | level_high | level_critical.

(** [Risk]; the free texts (description, mitigation, contingency) are left
    out. *)
Record Risk := {
  risk_id : string;         (* field [id] *)
  impact : Impact;
  probability : Probability;
  risk_category : RiskCategory   (* field [category] *)
}.

Record RiskAssessment := {
  risks : list Risk;
  overallRiskLevel : RiskLevel
}.

(** [calculateOverallRisk]: the mean of impact score times probability
    score.  For an empty list the mean is [0 / 0], [NaN] in JavaScript and
    0 in [Q]; every comparison with it fails, and the answer is 'low' in
    both. *)
Definition calculateOverallRisk (risks : list Risk) : RiskLevel :=
  let riskScores :=
    map (fun risk =>
           let impactScore :=
             match impact risk with
             | impact_low => 1 | impact_medium => 2
             | impact_high => 3 | impact_critical => 4
             end in
           let probScore :=
             match probability risk with
             | prob_low => 1 | prob_medium => 2 | prob_high => 3
             end in
           impactScore * probScore) risks in
  let avgScore :=
    Qdiv (inject_Z (foldl (fun sum score => sum + score) 0 riskScores))
         (inject_Z (Z.of_nat (length riskScores))) in
  if Qle_bool 9 avgScore then level_critical
  else if Qle_bool 6 avgScore then level_high
  else if Qle_bool 3 avgScore then level_medium
  else level_low.

(** [generateRiskAssessment]; the risk profile it looks up is not used. *)
Definition generateRiskAssessment (requirements : list ProjectRequirement)
    (config : BlueprintConfig) : RiskAssessment :=
  let risks := [] in
  let risks :=
    match complexity config with
    | complex | enterprise =>
        risks ++ [ {| risk_id := "tech-001"; impact := impact_high;
                      probability := prob_medium; risk_category := technical |} ]
    | _ => risks
    end in
  let risks :=
    risks ++ [ {| risk_id := "bus-001"; impact := impact_medium;
                  probability := prob_medium; risk_category := business |} ] in
  let risks :=
    if 3 <? countIntegrations requirements then
      risks ++ [ {| risk_id := "ops-001"; impact := impact_high;
                    probability := prob_low; risk_category := operational |} ]
    else risks in
  let overallRisk := calculateOverallRisk risks in
  {| risks := risks; overallRiskLevel := overallRisk |}.

End BlueprintGen.

(** ** The workflow builder ([N8nWorkflowBuilder]) *)

Module N8nBuilder.

Record N8nWorkflowNode := {
  id : string;
  name : string;
  type : string;
  typeVersion : Z;
  position : Z * Z;
  (** of [parameters], which are constant payloads, only the ids that a
      "Transform Data" node allocates for its three assignments *)
  assignmentIds : list string;
  credentials : option (string * string)
}.

Record N8nWorkflowConnection := {
  node : string;
  conn_type : string;   (* field [type] *)
  index : Z
}.

#[global] Instance N8nWorkflowConnection_eq_dec : EqDecision N8nWorkflowConnection.
Proof. solve_decision. Defined.

(** [Record<string, Record<string, N8nWorkflowConnection[][]>>]. *)
Abbreviation Connections := (gmap string (gmap string (list (list N8nWorkflowConnection)))).

(** [N8nWorkflow]; the random [id], the two timestamps and the constant
    [settings], [meta] and [versionId] are left out. *)
Record N8nWorkflow := {
  wf_name : string;     (* field [name] *)
  nodes : list N8nWorkflowNode;
  connections : Connections;
  active : bool;
  tags : list string
}.

Inductive SecurityLevel := basic | standard | high.
Inductive ScalabilityPattern := simple | distributed | enterprise.

#[global] Instance SecurityLevel_eq_dec : EqDecision SecurityLevel.
Proof. solve_decision. Defined.

Record WorkflowGenerationOptions := {
  includeErrorHandling : bool;
  addMonitoring : bool;
  enableRetries : bool;
  includeLogging : bool;
  securityLevel : SecurityLevel;
  scalabilityPattern : ScalabilityPattern
}.

(** *** The builder object and its monad *)

Record BuilderState := {
  nodeIdCounter : nat;
  nodePositionX : Z;
  nodePositionY : Z
}.

Definition nodeSpacingX : Z := 400.
Definition nodeSpacingY : Z := 200.

Definition M (A : Type) : Type := BuilderState -> A * BuilderState.

Definition ret {A} (a : A) : M A := fun s => (a, s).

Definition bind {A B} (m : M A) (f : A -> M B) : M B :=
  fun s => let (a, s') := m s in f a s'.

Declare Scope builder_scope.
Delimit Scope builder_scope with builder.
Notation "x <- c1 ;; c2" := (bind c1 (fun x => c2))
  (at level 100, c1 at next level, c2 at level 200, right associativity)
  : builder_scope.
Notation "c1 ;; c2" := (bind c1 (fun _ => c2))
  (at level 100, c2 at level 200, right associativity) : builder_scope.
Local Open Scope builder_scope.

(** [list.forEach(x => body)], where the body updates the local
    variables [acc] of the enclosing method. *)
Fixpoint forEach {A S} (l : list A) (body : S -> A -> M S) (acc : S) : M S :=
  match l with
  | [] => ret acc
  | x :: l' => acc' <- body acc x ;; forEach l' body acc'
  end.

Definition resetCounters : M unit :=
  fun _ => (tt, {| nodeIdCounter := 1; nodePositionX := 300; nodePositionY := 300 |}).

(** The state a [new N8nWorkflowBuilder()] starts in. *)
Definition initial : BuilderState := snd (resetCounters
  {| nodeIdCounter := 1; nodePositionX := 300; nodePositionY := 300 |}).

(** The decimal numeral of [n], as a template literal prints it. *)
Definition nat_to_string (n : nat) : string :=
  NilEmpty.string_of_uint (Nat.to_uint n).

Definition generateNodeId : M string :=
  fun s => ("node_" +:+ nat_to_string (nodeIdCounter s),
            {| nodeIdCounter := S (nodeIdCounter s);
               nodePositionX := nodePositionX s;
               nodePositionY := nodePositionY s |}).

Definition advancePosition : M unit :=
  fun s => (tt, {| nodeIdCounter := nodeIdCounter s;
                   nodePositionX := nodePositionX s + nodeSpacingX;
                   nodePositionY := nodePositionY s |}).

Definition getPosition (dy : Z) : M (Z * Z) :=
  fun s => ((nodePositionX s, nodePositionY s + dy), s).

(** A node literal [{ id: this.generateNodeId(), name, type, typeVersion,
    position: [this.nodePositionX, this.nodePositionY + dy], ... }]. *)
Definition node_literal (name type : string) (typeVersion dy : Z)
    (credentials : option (string * string)) : M N8nWorkflowNode :=
  i <- generateNodeId ;;
  pos <- getPosition dy ;;
  ret {| id := i; name := name; type := type; typeVersion := typeVersion;
         position := pos; assignmentIds := []; credentials := credentials |}.

(** *** Keyword predicates over the requirement texts *)

Definition content (requirements : list AiAgent.ProjectRequirement) : string :=
  JS.join " " (map (fun r => JS.toLowerCase (AiAgent.answer r)) requirements).

Definition determineTriggerType (requirements : list AiAgent.ProjectRequirement) : string :=
  let content := content requirements in
  if JS.includes content "webhook" || JS.includes content "api"
     || JS.includes content "real-time"
  then "webhook"
  else if JS.includes content "schedule" || JS.includes content "daily"
          || JS.includes content "hourly"
  then "schedule"
  else if JS.includes content "email" || JS.includes content "imap"
  then "email"
  else "manual".

Definition requiresTextProcessing (requirements : list AiAgent.ProjectRequirement) : bool :=
  let content := content requirements in
  JS.includes content "text" || JS.includes content "content"
  || JS.includes content "message".

Definition requiresClassification (requirements : list AiAgent.ProjectRequirement) : bool :=
  let content := content requirements in
  JS.includes content "classify" || JS.includes content "categorize"
  || JS.includes content "analyze".

(** [blueprint.technicalArchitecture?.components || []]. *)
Definition components_of (blueprint : AiAgent.ProjectBlueprint)
    : list AiAgent.TechnicalComponent :=
  match AiAgent.technicalArchitecture blueprint with
  | Some a => AiAgent.components a
  | None => []
  end.

(** [blueprint.technicalArchitecture?.integrations || []]. *)
Definition integrations_of (blueprint : AiAgent.ProjectBlueprint)
    : list AiAgent.IntegrationSpec :=
  match AiAgent.technicalArchitecture blueprint with
  | Some a => AiAgent.integrationSpecs a
  | None => []
  end.

Definition requiresDataProcessingWorkflow (blueprint : AiAgent.ProjectBlueprint) : bool :=
  match AiAgent.technicalArchitecture blueprint with
  | Some a =>
      existsb (fun c => bool_decide (AiAgent.type c = AiAgent.storage)
                        || JS.includes (AiAgent.name c) "Data")
              (AiAgent.components a)
  | None => false
  end.

Definition requiresMonitoringWorkflow (blueprint : AiAgent.ProjectBlueprint)
    (options : WorkflowGenerationOptions) : bool :=
  addMonitoring options
  || match AiAgent.technicalArchitecture blueprint with
     | Some a => (3 <? length (AiAgent.components a))%nat
     | None => false
     end.

Definition generateWorkflowTags (blueprint : AiAgent.ProjectBlueprint) : list string :=
  let t := JS.toLowerCase (AiAgent.title blueprint) in
  let tags := ["automation"; "ai-engineer"] in
  let tags := if JS.includes t "ecommerce" then tags ++ ["ecommerce"] else tags in
  let tags := if JS.includes t "crm" then tags ++ ["crm"; "sales"] else tags in
  let tags := if JS.includes t "data" then tags ++ ["data-processing"] else tags in
  tags.

Definition getDefaultOptions : WorkflowGenerationOptions :=
  {| includeErrorHandling := true; addMonitoring := true; enableRetries := true;
     includeLogging := true; securityLevel := standard; scalabilityPattern := simple |}.

(** *** Connections *)

(** [connectNodes]: create [connections[fromNode]] and its [main] array
    when missing, then push the one-element port [[{node: toNode, type:
    'main', index: 0}]].  The finite map stands for the own properties of
    the JavaScript object, so the definition describes the method for a
    [fromNode] that is not the name of a property inherited from
    [Object.prototype] ('constructor', 'toString', '__proto__', ...): for
    such a name [connections[fromNode]] is the inherited value, no own
    entry is created and the port is pushed elsewhere.  The builder calls
    the method with the names of its nodes only, none of which is such a
    name. *)
Definition connectNodes (connections : Connections) (fromNode toNode : string)
    : Connections :=
  let entry := default ∅ (connections !! fromNode) in
  let main := default [] (entry !! "main") in
  <[fromNode :=
      <["main" := main ++ [[ {| node := toNode; conn_type := "main"; index := 0 |} ]] ]>
        entry]> connections.

Definition addErrorHandlingConnections (connections : Connections)
    (allNodes errorNodes : list N8nWorkflowNode) : Connections :=
  let errorHandler :=
    List.find (fun n => String.eqb (name n) "Error Handler") errorNodes in
  let errorNotification :=
    List.find (fun n => String.eqb (name n) "Error Notification") errorNodes in
  match errorHandler, errorNotification with
  | Some errorHandler, Some errorNotification =>
      connectNodes connections (name errorHandler) (name errorNotification)
  | _, _ => connections
  end.

(** *** Node constructors *)

Definition createTriggerNode (requirements : list AiAgent.ProjectRequirement)
    : M N8nWorkflowNode :=
  let triggerType := determineTriggerType requirements in
  if String.eqb triggerType "webhook" then
    node_literal "Webhook Trigger" "n8n-nodes-base.webhook" 1 0 None
  else if String.eqb triggerType "schedule" then
    node_literal "Schedule Trigger" "n8n-nodes-base.cron" 1 0 None
  else if String.eqb triggerType "email" then
    node_literal "Email Trigger" "n8n-nodes-base.emailReadImap" 2 0
                 (Some ("imap", "email-credentials"))
  else
    node_literal "Manual Trigger" "n8n-nodes-base.manualTrigger" 1 0 None.

Definition createValidationNode : M N8nWorkflowNode :=
  node_literal "Input Validation" "n8n-nodes-base.function" 1 0 None.

Definition createAIProcessingNode (component : AiAgent.TechnicalComponent)
    (requirements : list AiAgent.ProjectRequirement) : M N8nWorkflowNode :=
  node_literal "AI Processing" "n8n-nodes-base.openAi" 1 0
               (Some ("openAiApi", "openai-credentials")).

(** The three assignments of the node draw their ids from the same
    counter, after the node's own id. *)
Definition createDataProcessingNode (component : AiAgent.TechnicalComponent)
    : M N8nWorkflowNode :=
  i <- generateNodeId ;;
  pos <- getPosition 0 ;;
  a1 <- generateNodeId ;;
  a2 <- generateNodeId ;;
  a3 <- generateNodeId ;;
  ret {| id := i; name := "Transform Data"; type := "n8n-nodes-base.set";
         typeVersion := 3; position := pos; assignmentIds := [a1; a2; a3];
         credentials := None |}.

Definition createGenericProcessingNode (component : AiAgent.TechnicalComponent)
    : M N8nWorkflowNode :=
  node_literal "Process Data" "n8n-nodes-base.function" 1 0 None.

Definition createProcessingNodes (blueprint : AiAgent.ProjectBlueprint)
    (requirements : list AiAgent.ProjectRequirement) : M (list N8nWorkflowNode) :=
  let components := components_of blueprint in
  nodes <- forEach components
    (fun nodes component =>
       if bool_decide (AiAgent.type component = AiAgent.processor) then
         if JS.includes (AiAgent.name component) "AI" then
           n <- createAIProcessingNode component requirements ;; ret (nodes ++ [n])
         else if JS.includes (AiAgent.name component) "Data" then
           n <- createDataProcessingNode component ;; ret (nodes ++ [n])
         else
           n <- createGenericProcessingNode component ;; ret (nodes ++ [n])
       else ret nodes) [] ;;
  match nodes with
  | [] =>
      n <- createGenericProcessingNode
             {| AiAgent.name := "Data Processing"; AiAgent.type := AiAgent.processor;
                AiAgent.n8nNodes := [] |} ;;
      ret [n]
  | _ => ret nodes
  end.

Definition createHttpRequestNode : M N8nWorkflowNode :=
  node_literal "API Integration" "n8n-nodes-base.httpRequest" 4 0 None.

Definition createIntegrationNodeForService (integration : AiAgent.IntegrationSpec)
    : M (option N8nWorkflowNode) :=
  let service :=
    match AiAgent.service integration with
    | Some s => JS.toLowerCase s
    | None => EmptyString
    end in
  if JS.includes service "hubspot" then
    n <- node_literal "HubSpot Integration" "n8n-nodes-base.hubspot" 2 0
                      (Some ("hubspotApi", "hubspot-credentials")) ;; ret (Some n)
  else if JS.includes service "salesforce" then
    n <- node_literal "Salesforce Integration" "n8n-nodes-base.salesforce" 2 0
                      (Some ("salesforceOAuth2Api", "salesforce-credentials")) ;;
    ret (Some n)
  else if JS.includes service "stripe" then
    n <- node_literal "Stripe Integration" "n8n-nodes-base.stripe" 1 0
                      (Some ("stripeApi", "stripe-credentials")) ;; ret (Some n)
  else if JS.includes service "database" then
    n <- node_literal "Database Insert" "n8n-nodes-base.postgres" 2 0
                      (Some ("postgres", "database-credentials")) ;; ret (Some n)
  else
    n <- createHttpRequestNode ;; ret (Some n).

Definition createIntegrationNodes (blueprint : AiAgent.ProjectBlueprint)
    : M (list N8nWorkflowNode) :=
  let integrations := integrations_of blueprint in
  nodes <- forEach integrations
    (fun nodes integration =>
       integrationNode <- createIntegrationNodeForService integration ;;
       match integrationNode with
       | Some n => ret (nodes ++ [n])
       | None => ret nodes
       end) [] ;;
  match nodes with
  | [] => n <- createHttpRequestNode ;; ret [n]
  | _ => ret nodes
  end.

Definition createOutputNode (blueprint : AiAgent.ProjectBlueprint) : M N8nWorkflowNode :=
  node_literal "Send Notification" "n8n-nodes-base.emailSend" 2 0
               (Some ("smtp", "email-credentials")).

Definition createErrorHandlingNodes : M (list N8nWorkflowNode) :=
  h <- node_literal "Error Handler" "n8n-nodes-base.function" 1 300 None ;;
  n <- node_literal "Error Notification" "n8n-nodes-base.emailSend" 2 500
                    (Some ("smtp", "email-credentials")) ;;
  ret [h; n].

(** *** The three workflows *)

(** The local variables [nodes], [connections] and [previousNodeName] of
    [buildMainWorkflow]. *)
Record MainLocals := {
  l_nodes : list N8nWorkflowNode;
  l_connections : Connections;
  previousNodeName : string
}.

Definition buildMainWorkflow (blueprint : AiAgent.ProjectBlueprint)
    (requirements : list AiAgent.ProjectRequirement)
    (options : WorkflowGenerationOptions) : M N8nWorkflow :=
  resetCounters ;;
  (* 1. trigger node *)
  triggerNode <- createTriggerNode requirements ;;
  advancePosition ;;
  let loc := {| l_nodes := [triggerNode]; l_connections := ∅;
                previousNodeName := name triggerNode |} in
  (* 2. input validation node *)
  loc <- (if bool_decide (securityLevel options <> basic) then
            validationNode <- createValidationNode ;;
            advancePosition ;;
            ret {| l_nodes := l_nodes loc ++ [validationNode];
                   l_connections :=
                     connectNodes (l_connections loc) (previousNodeName loc)
                                  (name validationNode);
                   previousNodeName := name validationNode |}
          else ret loc) ;;
  (* 3. processing nodes *)
  processsingNodes <- createProcessingNodes blueprint requirements ;;
  loc <- forEach processsingNodes
           (fun loc node =>
              advancePosition ;;
              ret {| l_nodes := l_nodes loc ++ [node];
                     l_connections :=
                       connectNodes (l_connections loc) (previousNodeName loc) (name node);
                     previousNodeName := name node |}) loc ;;
  (* 4. integration nodes: [previousNodeName] is not reassigned *)
  integrationNodes <- createIntegrationNodes blueprint ;;
  loc <- forEach integrationNodes
           (fun loc node =>
              advancePosition ;;
              ret {| l_nodes := l_nodes loc ++ [node];
                     l_connections :=
                       connectNodes (l_connections loc) (previousNodeName loc) (name node);
                     previousNodeName := previousNodeName loc |}) loc ;;
  (* 5. output node *)
  outputNode <- createOutputNode blueprint ;;
  advancePosition ;;
  let loc := {| l_nodes := l_nodes loc ++ [outputNode];
                l_connections :=
                  connectNodes (l_connections loc) (previousNodeName loc)
                               (name outputNode);
                previousNodeName := previousNodeName loc |} in
  (* 6. error handling *)
  loc <- (if includeErrorHandling options then
            errorNodes <- createErrorHandlingNodes ;;
            let nodes := l_nodes loc ++ errorNodes in
            ret {| l_nodes := nodes;
                   l_connections :=
                     addErrorHandlingConnections (l_connections loc) nodes errorNodes;
                   previousNodeName := previousNodeName loc |}
          else ret loc) ;;
  ret {| wf_name := AiAgent.title blueprint +:+ " - Main Workflow";
         nodes := l_nodes loc;
         connections := l_connections loc;
         active := false;
         tags := generateWorkflowTags blueprint |}.

Definition buildDataProcessingWorkflow (blueprint : AiAgent.ProjectBlueprint)
    (requirements : list AiAgent.ProjectRequirement)
    (options : WorkflowGenerationOptions) : M N8nWorkflow :=
  resetCounters ;;
  triggerNode <- node_literal "Data Processing Schedule" "n8n-nodes-base.cron" 1 0 None ;;
  advancePosition ;;
  fetchNode <- node_literal "Fetch Data" "n8n-nodes-base.postgres" 2 0
                            (Some ("postgres", "database-credentials")) ;;
  let connections := connectNodes ∅ (name triggerNode) (name fetchNode) in
  advancePosition ;;
  processNode <- node_literal "Process Data Batch" "n8n-nodes-base.function" 1 0 None ;;
  let connections := connectNodes connections (name fetchNode) (name processNode) in
  advancePosition ;;
  updateNode <- node_literal "Update Status" "n8n-nodes-base.postgres" 2 0
                             (Some ("postgres", "database-credentials")) ;;
  let connections := connectNodes connections (name processNode) (name updateNode) in
  ret {| wf_name := AiAgent.title blueprint +:+ " - Data Processing";
         nodes := [triggerNode; fetchNode; processNode; updateNode];
         connections := connections;
         active := true;
         tags := generateWorkflowTags blueprint ++ ["data-processing"] |}.

Definition buildMonitoringWorkflow (blueprint : AiAgent.ProjectBlueprint)
    (options : WorkflowGenerationOptions) : M N8nWorkflow :=
  resetCounters ;;
  triggerNode <- node_literal "Monitoring Schedule" "n8n-nodes-base.cron" 1 0 None ;;
  advancePosition ;;
  healthCheckNode <- node_literal "System Health Check" "n8n-nodes-base.function" 1 0 None ;;
  let connections := connectNodes ∅ (name triggerNode) (name healthCheckNode) in
  ret {| wf_name := AiAgent.title blueprint +:+ " - Monitoring";
         nodes := [triggerNode; healthCheckNode];
         connections := connections;
         active := true;
         tags := generateWorkflowTags blueprint ++ ["monitoring"] |}.

(** [generateWorkflowFromBlueprint]; a missing [options] argument takes
    the default options. *)
Definition generateWorkflowFromBlueprint (blueprint : AiAgent.ProjectBlueprint)
    (requirements : list AiAgent.ProjectRequirement)
    (options : option WorkflowGenerationOptions) : M (list N8nWorkflow) :=
  let options := default getDefaultOptions options in
  mainWorkflow <- buildMainWorkflow blueprint requirements options ;;
  let workflows := [mainWorkflow] in
  workflows <- (if requiresDataProcessingWorkflow blueprint then
                  dataWorkflow <- buildDataProcessingWorkflow blueprint requirements options ;;
                  ret (workflows ++ [dataWorkflow])
                else ret workflows) ;;
  workflows <- (if requiresMonitoringWorkflow blueprint options then
                  monitoringWorkflow <- buildMonitoringWorkflow blueprint options ;;
                  ret (workflows ++ [monitoringWorkflow])
                else ret workflows) ;;
  ret workflows.

(** [generateWorkflowVariations]: the basic and the advanced variant, one
    after the other. *)
Definition generateWorkflowVariations (blueprint : AiAgent.ProjectBlueprint)
    (requirements : list AiAgent.ProjectRequirement) : M (list N8nWorkflow) :=
  basic <- generateWorkflowFromBlueprint blueprint requirements
             (Some {| includeErrorHandling := false; addMonitoring := false;
                      enableRetries := false; includeLogging := false;
                      securityLevel := basic; scalabilityPattern := simple |}) ;;
  advanced <- generateWorkflowFromBlueprint blueprint requirements
                (Some {| includeErrorHandling := true; addMonitoring := true;
                         enableRetries := true; includeLogging := true;
                         securityLevel := high; scalabilityPattern := enterprise |}) ;;
  ret (basic ++ advanced).

End N8nBuilder.

(** ** The message loop of the agent *)

(** Class [AIEngineerAgent], [processMessage] and what it calls.  The
    agent reads the singleton [workflowKB] and draws from [Math.random];
    both are threaded through, with the conversation context, as the
    [World].  The chat history is written and never read; it is left
    out. *)
Module Conversation.
Import AiAgent.

Definition category_str (c : RequirementCategory) : string :=
  match c with
  | business_process => "business-process"
  | technical_specs => "technical-specs"
  | integrations => "integrations"
  | scale_volume => "scale-volume"
  | security_compliance => "security-compliance"
  | user_experience => "user-experience"
  | budget_timeline => "budget-timeline"
  | success_metrics => "success-metrics"
  end.

(** The [type] of an intent. *)
Inductive IntentType :=
| intent_business_process | technical_requirement | scale_requirement
| general_inquiry.

#[global] Instance IntentType_eq_dec : EqDecision IntentType.
Proof. solve_decision. Defined.

Record Intent := {
  intent_type : IntentType;                       (* field [type] *)
  intent_category : option RequirementCategory;   (* field [category] *)
  intent_confidence : Q;                          (* field [confidence] *)
  keywords : list string
}.

Definition containsKeywords (text : string) (keywords : list string) : bool :=
  existsb (fun keyword => JS.includes text keyword) keywords.

Definition analyzeUserIntent (message : string) : Intent :=
  let lowerMessage := JS.toLowerCase message in
  let keywords :=
    List.filter (fun word => (3 <? String.length word)%nat)
                (JS.split " " lowerMessage) in
  if containsKeywords lowerMessage
       ["ecommerce"; "e-commerce"; "online store"; "shop"; "orders"; "products"]
  then {| intent_type := intent_business_process;
          intent_category := Some business_process;
          intent_confidence := 9 # 10; keywords := ["ecommerce"] |}
  else if containsKeywords lowerMessage
            ["lead"; "leads"; "crm"; "sales"; "prospects"; "customers"]
  then {| intent_type := intent_business_process;
          intent_category := Some business_process;
          intent_confidence := 85 # 100; keywords := ["crm"; "sales"] |}
  else if containsKeywords lowerMessage
            ["marketing"; "email"; "social media"; "content"; "campaigns"]
  then {| intent_type := intent_business_process;
          intent_category := Some business_process;
          intent_confidence := 8 # 10; keywords := ["marketing"] |}
  else if containsKeywords lowerMessage
            ["support"; "tickets"; "customer service"; "helpdesk"]
  then {| intent_type := intent_business_process;
          intent_category := Some business_process;
          intent_confidence := 8 # 10; keywords := ["support"] |}
  else if containsKeywords lowerMessage
            ["api"; "database"; "integration"; "webhook"; "data"]
  then {| intent_type := technical_requirement;
          intent_category := Some technical_specs;
          intent_confidence := 7 # 10; keywords := ["technical"] |}
  else if containsKeywords lowerMessage
            ["scale"; "volume"; "performance"; "load"; "capacity"]
  then {| intent_type := scale_requirement;
          intent_category := Some scale_volume;
          intent_confidence := 7 # 10; keywords := ["scale"] |}
  else {| intent_type := general_inquiry; intent_category := None;
          intent_confidence := 5 # 10; keywords := keywords |}.

(** *** The pattern [/(automate|automation).{0,100}/i] *)

(** A line terminator, which [.] does not match. *)
Definition is_line_terminator (c : ascii) : bool :=
  Ascii.eqb c "010" || Ascii.eqb c "013".

(** [.{0,n}], greedy: the longest prefix of at most [n] characters that
    holds no line terminator. *)
Fixpoint dot_upto (n : nat) (s : string) : string :=
  match n, s with
  | S n', String c s' =>
      if is_line_terminator c then EmptyString else String c (dot_upto n' s')
  | _, _ => EmptyString
  end.

(** The length of the alternative that matches at the head of [s],
    letters compared without regard to case; [automate] is tried first. *)
Definition match_alternative (s : string) : option nat :=
  if JS.startsWith (JS.toLowerCase s) "automate" then Some 8%nat
  else if JS.startsWith (JS.toLowerCase s) "automation" then Some 10%nat
  else None.

(** A match that starts at the head of [s]. *)
Definition match_here (s : string) : option string :=
  match match_alternative s with
  | Some k => Some (String.substring 0 k s +:+ dot_upto 100 (String.substring k (String.length s - k) s))
  | None => None
  end.

(** [s.match(pattern)]: the text [match[0]] of the leftmost match, or
    nothing. *)
Fixpoint regex_match (s : string) : option string :=
  match match_here s with
  | Some m => Some m
  | None =>
      match s with
      | EmptyString => None
      | String _ s' => regex_match s'
      end
  end.

(** *** Requirements from a message *)

Section Ids.

(** [generateId] builds an id from a draw of [Math.random] and from the
    clock; [id_text n] is the id that the call consuming draw number [n]
    returns. *)
Variable id_text : nat -> string.

Definition generateId : BlueprintGen.Rand string :=
  fun rs => (id_text (BlueprintGen.cursor rs), snd (BlueprintGen.Math_random rs)).

Definition extractRequirements (message : string)
    : BlueprintGen.Rand (list ProjectRequirement) :=
  fun rs =>
  let requirements := [] in
  let lowerMessage := JS.toLowerCase message in
  let '(requirements, rs) :=
    if JS.includes lowerMessage "automate" || JS.includes lowerMessage "automation" then
      match regex_match message with
      | Some processMatch =>
          let '(i, rs) := generateId rs in
          (requirements ++
             [ {| id := i; category := business_process;
                  question := "What process needs automation?";
                  answer := processMatch;
                  priority := critical; confidence := 8 # 10;
                  followUpNeeded := true;
                  tags := ["automation"; "process"] |} ], rs)
      | None => (requirements, rs)
      end
    else (requirements, rs) in
  let integrationKeywords := ["integrate"; "connect"; "sync"; "api"; "webhook"] in
  foldl (fun '(requirements, rs) keyword =>
           if JS.includes lowerMessage keyword then
             let '(i, rs) := generateId rs in
             (requirements ++
                [ {| id := i; category := integrations;
                     question := "What integration is needed for " +:+ keyword +:+ "?";
                     answer := message;
                     priority := high; confidence := 7 # 10;
                     followUpNeeded := true;
                     tags := ["integration"; keyword] |} ], rs)
           else (requirements, rs))
        (requirements, rs) integrationKeywords.

(** *** Replies *)

(** [categoryMap[keyword]] for the keywords that [analyzeUserIntent]
    produces. *)
Definition categoryMap : list (string * WorkflowKnowledge.WorkflowCategory) :=
  [ ("ecommerce", WorkflowKnowledge.e_commerce);
    ("crm", WorkflowKnowledge.crm_sales);
    ("sales", WorkflowKnowledge.crm_sales);
    ("marketing", WorkflowKnowledge.marketing_automation);
    ("support", WorkflowKnowledge.customer_support);
    ("technical", WorkflowKnowledge.data_processing) ].

Fixpoint getCategoryFromKeywords (keywords : list string)
    : option WorkflowKnowledge.WorkflowCategory :=
  match keywords with
  | [] => None
  | keyword :: rest =>
      match JS.map_get keyword categoryMap with
      | Some c => Some c
      | None => getCategoryFromKeywords rest
      end
  end.

(** [questionBank.get(category) || []]: eight questions for each of six
    categories, none for the other two. *)
Definition questionBank (c : RequirementCategory) : list string :=
  match c with
  | business_process =>
      [ "What specific business process or workflow would you like to automate?";
        "How is this process currently handled manually?";
        "What are the main pain points with the current process?";
        "Who are the key stakeholders involved in this process?";
        "What triggers the start of this process?";
        "What are the typical decision points in this workflow?";
        "How often does this process occur (daily, weekly, monthly)?";
        "What are the success criteria for this automation?" ]
  | technical_specs =>
      [ "What platforms or systems are currently involved?";
        "Do you have existing APIs or databases that need integration?";
        "What data formats are you working with?";
        "Are there any specific performance requirements?";
        "What level of real-time processing do you need?";
        "Do you need data transformation or validation steps?";
        "Are there any specific compliance or security requirements?";
        "What error handling and monitoring capabilities do you need?" ]
  | integrations =>
      [ "Which third-party services do you currently use?";
        "What CRM, ERP, or other business systems need to connect?";
        "Do you have preferred cloud platforms (AWS, Azure, GCP)?";
        "Are there any legacy systems that need integration?";
        "What authentication methods are supported by your systems?";
        "Do you have webhook capabilities in your current tools?";
        "Are there any rate limiting considerations we should know about?";
        "What data synchronization requirements do you have?" ]
  | scale_volume =>
      [ "What is the current volume of transactions/data you process?";
        "What volume do you expect in 6-12 months?";
        "Are there peak usage periods we should plan for?";
        "Do you need the system to scale automatically?";
        "Are there any geographical distribution requirements?";
        "What are your uptime and availability requirements?";
        "Do you need redundancy and failover capabilities?";
        "What is the acceptable processing time for each workflow?" ]
  | security_compliance =>
      [ "What industry regulations do you need to comply with?";
        "Do you handle sensitive data (PII, financial, health)?";
        "What are your data retention and deletion requirements?";
        "Do you need audit logging and compliance reporting?";
        "What authentication and authorization controls are required?";
        "Are there data residency or sovereignty requirements?";
        "Do you need encryption at rest and in transit?";
        "What are your backup and disaster recovery needs?" ]
  | budget_timeline =>
      [ "What is your budget range for this automation project?";
        "When do you need this system to be operational?";
        "Are there any critical deadlines or business events?";
        "Do you prefer a phased implementation approach?";
        "What ongoing maintenance and support do you expect?";
        "Do you have internal resources to manage the system?";
        "Are you open to SaaS solutions or prefer on-premise?";
        "What is your expected ROI timeline?" ]
  | user_experience | success_metrics => []
  end.

Definition getMissingRequirementCategories (context : ConversationContext)
    : list RequirementCategory :=
  let covered : gset RequirementCategory :=
    list_to_set (map category (requirements context)) in
  let all := [business_process; technical_specs; integrations;
              scale_volume; security_compliance; budget_timeline] in
  List.filter (fun cat => negb (bool_decide (cat ∈ covered))) all.

Definition formatCategoryName (c : RequirementCategory) : string :=
  JS.join " " (map JS.capitalize (JS.split "-" (category_str c))).

(** The array [questions.slice(0, 3)] of [generateNextQuestions]. *)
Definition nextQuestions (context : ConversationContext) : list string :=
  let missingCategories := getMissingRequirementCategories context in
  let questions :=
    foldl (fun questions category =>
             match questionBank category with
             | q :: _ => questions ++ ["**" +:+ formatCategoryName category +:+ "**: " +:+ q]
             | [] => questions
             end) [] missingCategories in
  JS.slice0 3 questions.

Definition generateNextQuestions (context : ConversationContext) : string :=
  JS.join (String "010" (String "010" EmptyString)) (nextQuestions context).

(** [calculateTimeSavings]: [Math.floor(Math.random() * 20) + 10]. *)
Definition calculateTimeSavings : BlueprintGen.Rand Q :=
  fun rs =>
  let '(r, rs) := BlueprintGen.Math_random rs in
  ((JS.Math_floor (r * 20) + 10)%Q, rs).

(** A reply, by the template it is made from and the values put into the
    template. *)
Inductive Response :=
| workflow_patterns (keywords : list string) (found : nat)
                    (topWorkflows : list WorkflowKnowledge.WorkflowTemplate)
| greeting
| blueprint_ready
| more_details (nextQuestions : string)
| blueprint_reply (blueprint : ProjectBlueprint) (timeSavings : Q)
| implementation_mode
| default_reply.

(** What the agent reads and writes: its context, the knowledge base and
    the source of random draws. *)
Record World := {
  context : ConversationContext;
  kb : WorkflowKnowledge.KnowledgeBase;
  random : BlueprintGen.RandomSource
}.

Definition set_phase (p : Phase) (w : World) : World :=
  {| context := {| phase := p; requirements := requirements (context w) |};
     kb := kb w; random := random w |}.

Definition generateDiscoveryResponse (intent : Intent) (userMessage : string)
    (w : World) : Response * World :=
  if bool_decide (intent_type intent = intent_business_process) then
    let w := set_phase requirements_phase w in
    let '(workflows, kb') :=
      WorkflowKnowledge.searchWorkflows userMessage
        (Some {| WorkflowKnowledge.f_category := getCategoryFromKeywords (keywords intent);
                 WorkflowKnowledge.f_difficulty := None;
                 WorkflowKnowledge.f_tags := None;
                 WorkflowKnowledge.f_integration := None |})
        (kb w) in
    let w := {| context := context w; kb := kb'; random := random w |} in
    if (0 <? length workflows)%nat then
      (workflow_patterns (keywords intent) (length workflows) (JS.slice0 3 workflows), w)
    else (greeting, w)
  else (greeting, w).

Definition generateRequirementsResponse (intent : Intent) (userMessage : string)
    (w : World) : Response * World :=
  let completeness := assessRequirementsCompleteness (context w) in
  if negb (Qle_bool completeness (8 # 10)) then
    (blueprint_ready, set_phase blueprint_phase w)
  else (more_details (generateNextQuestions (context w)), w).

Definition generateBlueprintResponse (intent : Intent) (userMessage : string)
    (w : World) : Response * World :=
  let '(_, rs) := generateId (random w) in
  let blueprint := createProjectBlueprint (context w) in
  let '(timeSavings, rs) := calculateTimeSavings rs in
  (blueprint_reply blueprint timeSavings,
   {| context := context w; kb := kb w; random := rs |}).

Definition generateResponse (intent : Intent) (userMessage : string)
    (w : World) : Response * World :=
  match phase (context w) with
  | discovery => generateDiscoveryResponse intent userMessage w
  | requirements_phase => generateRequirementsResponse intent userMessage w
  | blueprint_phase => generateBlueprintResponse intent userMessage w
  | implementation => (implementation_mode, w)
  | optimization => (default_reply, w)
  end.

(** The optional second argument of [processMessage], a
    [Partial<ConversationContext>]: the fields it carries replace those of
    the context. *)
Record ContextOverride := {
  o_phase : option Phase;
  o_requirements : option (list ProjectRequirement)
}.

Definition processMessage (userMessage : string) (override : option ContextOverride)
    (w : World) : Response * World :=
  let w :=
    match override with
    | Some o =>
        {| context := {| phase := default (phase (context w)) (o_phase o);
                         requirements :=
                           default (requirements (context w)) (o_requirements o) |};
           kb := kb w; random := random w |}
    | None => w
    end in
  let intent := analyzeUserIntent userMessage in
  let '(requirements, rs) := extractRequirements userMessage (random w) in
  let w := {| context := push_requirements (context w) requirements;
              kb := kb w; random := rs |} in
  generateResponse intent userMessage w.

Definition resetContext (w : World) : World :=
  {| context := {| phase := discovery; requirements := [] |};
     kb := kb w; random := random w |}.

(** The agent's [getRecommendedWorkflows(limit = 5)]. *)
Definition getRecommendedWorkflows (limit : option Z) (w : World)
    : list WorkflowKnowledge.WorkflowTemplate * World :=
  let limit := default 5%Z limit in
  let requirements := map answer (requirements (context w)) in
  let '(recommended, kb') :=
    WorkflowKnowledge.getRecommendedWorkflows requirements (kb w) in
  (JS.slice0 limit recommended,
   {| context := context w; kb := kb'; random := random w |}).

End Ids.

End Conversation.

(** * The vocabulary of the properties *)

(** ** Descending order by a key *)

Section SortingTerms.
Context {A : Type} (key : A -> Z).

(** The comparator [(a, b) => key(b) - key(a)]. *)
Definition desc_by (a b : A) : Z := key b - key a.

Definition desc_sorted : list A -> Prop :=
  StronglySorted (fun a b => key b <= key a).

End SortingTerms.

(** ** Search *)

Section SearchTerms.
Import WorkflowKnowledge.

(** [term] occurs as a substring of the case-folded text [s]. *)
Definition occurs_in (term s : string) : Prop :=
  exists pre post, JS.toLowerCase s = pre +:+ term +:+ post.

(** [term] occurs in the name, in the description or in some tag. *)
Definition term_hit (w : WorkflowTemplate) (term : string) : Prop :=
  occurs_in term (name w) \/ occurs_in term (description w)
  \/ exists tag, In tag (tags w) /\ occurs_in term tag.

(** The template passes every filter that is supplied, a filter being
    supplied when it is present and not empty. *)
Definition satisfies_filters (filters : option SearchFilters)
    (w : WorkflowTemplate) : Prop :=
  forall f, filters = Some f ->
    (forall c, f_category f = Some c -> category w = c)
    /\ (forall d, f_difficulty f = Some d -> d <> EmptyString ->
                  difficulty_str (difficulty w) = d)
    /\ (forall ts, f_tags f = Some ts -> ts <> [] ->
                   exists t, In t ts /\ In t (tags w))
    /\ (forall i, f_integration f = Some i -> i <> EmptyString ->
                  exists x, In x (integrations w)
                            /\ JS.toLowerCase (service x) = JS.toLowerCase i).

(** The tokens the code cuts the query into. *)
Definition space_tokens (query : string) : list string :=
  JS.split " " (JS.toLowerCase query).

(** The tokens of the query when it is cut at every white-space
    character, as the specification words it. *)
Definition whitespace_tokens (query : string) : list string :=
  String.words (JS.toLowerCase query).

End SearchTerms.

(** ** Recommendation *)

Section RecommendTerms.
Import WorkflowKnowledge.

(** What one keyword adds to the score of a template: 3 for a hit in the
    name, 2 for a hit in the description, 1 for a hit in some tag. *)
Definition hit_points (w : WorkflowTemplate) (keyword : string) : Z :=
  (if JS.includes (JS.toLowerCase (name w)) keyword then 3 else 0)
  + (if JS.includes (JS.toLowerCase (description w)) keyword then 2 else 0)
  + (if existsb (fun tag => JS.includes (JS.toLowerCase tag) keyword) (tags w)
     then 1 else 0).

Definition sum_points (w : WorkflowTemplate) (keywords : list string) : Z :=
  foldr (fun keyword acc => hit_points w keyword + acc) 0 keywords.

(** The ranking before truncation. *)
Definition ranking (keywords : list string) (kb : KnowledgeBase)
    : list WorkflowTemplate :=
  JS.sort (desc_by (score keywords))
          (List.filter (fun w => 0 <? score keywords w) (workflows kb)).

End RecommendTerms.

(** ** Completeness *)

Section CompletenessTerms.
Import AiAgent.

(** Some requirement of the list has category [c]. *)
Definition category_present (reqs : list ProjectRequirement)
    (c : RequirementCategory) : bool :=
  existsb (fun r => bool_decide (category r = c)) reqs.

(** The number of distinct critical categories that occur in the list. *)
Definition critical_categories_present (reqs : list ProjectRequirement) : nat :=
  length (List.filter (category_present reqs) criticalCategories).

End CompletenessTerms.

(** ** Random draws *)

Section ROITerms.
Import AiAgent BlueprintGen.

(** The value [Math.floor(Math.random() * 20)] of the next draw. *)
Definition next_draw20 (rs : RandomSource) : Z :=
  Qfloor (draws rs (cursor rs) * 20).

End ROITerms.

(** ** Node ids *)

Section NodeIdTerms.
Import N8nBuilder.

(** The id the builder issues at counter value [k]. *)
Definition node_id (k : nat) : string := "node_" +:+ nat_to_string k.

(** The nodes [ns] carry pairwise distinct ids, all drawn at counter
    values in [lo, hi). *)
Definition issued (lo hi : nat) (ns : list N8nWorkflowNode) : Prop :=
  NoDup (map id ns)
  /\ Forall (fun n => exists k, (lo <= k < hi)%nat /\ id n = node_id k) ns.

End NodeIdTerms.

(** ** Node constructors *)

Section ConstructorTerms.
Import N8nBuilder.

(** A name of a main-chain node: not one of the two error-node names. *)
Definition not_error_name (s : string) : Prop :=
  s <> "Error Handler" /\ s <> "Error Notification".

(** [m] returns one node, whose id is the current counter value and whose
    name satisfies [ok]; the counter grows. *)
Definition creates_one (ok : string -> Prop) (m : M N8nWorkflowNode) : Prop :=
  forall s,
    id (fst (m s)) = node_id (nodeIdCounter s)
    /\ ok (name (fst (m s)))
    /\ (nodeIdCounter s < nodeIdCounter (snd (m s)))%nat.

(** [m] returns nodes with fresh ids and names satisfying [ok]. *)
Definition creates_many (ok : string -> Prop) (m : M (list N8nWorkflowNode)) : Prop :=
  forall s,
    (nodeIdCounter s <= nodeIdCounter (snd (m s)))%nat
    /\ issued (nodeIdCounter s) (nodeIdCounter (snd (m s))) (fst (m s))
    /\ Forall (fun n => ok (name n)) (fst (m s)).

(** The invariant of the loops that collect freshly created nodes. *)
Definition collected (ok : string -> Prop) (c0 : nat)
    (nodes : list N8nWorkflowNode) (s : BuilderState) : Prop :=
  (c0 <= nodeIdCounter s)%nat
  /\ issued c0 (nodeIdCounter s) nodes
  /\ Forall (fun n => ok (name n)) nodes.

End ConstructorTerms.

(** ** The main workflow *)

Section MainWorkflowTerms.
Import N8nBuilder.
Local Open Scope builder_scope.

(** Steps 1 to 5 of [buildMainWorkflow]: they read [securityLevel] and no
    other option. *)
Definition buildMainChain (blueprint : AiAgent.ProjectBlueprint)
    (requirements : list AiAgent.ProjectRequirement)
    (level : SecurityLevel) : M MainLocals :=
  resetCounters ;;
  triggerNode <- createTriggerNode requirements ;;
  advancePosition ;;
  let loc := {| l_nodes := [triggerNode]; l_connections := ∅;
                previousNodeName := name triggerNode |} in
  loc <- (if bool_decide (level <> basic) then
            validationNode <- createValidationNode ;;
            advancePosition ;;
            ret {| l_nodes := l_nodes loc ++ [validationNode];
                   l_connections :=
                     connectNodes (l_connections loc) (previousNodeName loc)
                                  (name validationNode);
                   previousNodeName := name validationNode |}
          else ret loc) ;;
  processsingNodes <- createProcessingNodes blueprint requirements ;;
  loc <- forEach processsingNodes
           (fun loc node =>
              advancePosition ;;
              ret {| l_nodes := l_nodes loc ++ [node];
                     l_connections :=
                       connectNodes (l_connections loc) (previousNodeName loc) (name node);
                     previousNodeName := name node |}) loc ;;
  integrationNodes <- createIntegrationNodes blueprint ;;
  loc <- forEach integrationNodes
           (fun loc node =>
              advancePosition ;;
              ret {| l_nodes := l_nodes loc ++ [node];
                     l_connections :=
                       connectNodes (l_connections loc) (previousNodeName loc) (name node);
                     previousNodeName := previousNodeName loc |}) loc ;;
  outputNode <- createOutputNode blueprint ;;
  advancePosition ;;
  ret {| l_nodes := l_nodes loc ++ [outputNode];
         l_connections :=
           connectNodes (l_connections loc) (previousNodeName loc) (name outputNode);
         previousNodeName := previousNodeName loc |}.

(** Step 6 of [buildMainWorkflow] and its [return]. *)
Definition finishMainWorkflow (blueprint : AiAgent.ProjectBlueprint)
    (errorHandling : bool) (loc : MainLocals) : M N8nWorkflow :=
  loc <- (if errorHandling then
            errorNodes <- createErrorHandlingNodes ;;
            let nodes := l_nodes loc ++ errorNodes in
            ret {| l_nodes := nodes;
                   l_connections :=
                     addErrorHandlingConnections (l_connections loc) nodes errorNodes;
                   previousNodeName := previousNodeName loc |}
          else ret loc) ;;
  ret {| wf_name := AiAgent.title blueprint +:+ " - Main Workflow";
         nodes := l_nodes loc;
         connections := l_connections loc;
         active := false;
         tags := generateWorkflowTags blueprint |}.

(** No connection of [conns] starts at or leads to an error node. *)
Definition conns_main (conns : Connections) : Prop :=
  forall src entry, conns !! src = Some entry ->
    not_error_name src
    /\ forall key ports, entry !! key = Some ports ->
         Forall (Forall (fun c => not_error_name (node c))) ports.

(** What holds of the local variables after each step of the chain. *)
Definition chain_ok (loc : MainLocals) (s : BuilderState) : Prop :=
  (1 <= nodeIdCounter s)%nat
  /\ issued 1 (nodeIdCounter s) (l_nodes loc)
  /\ Forall (fun n => not_error_name (name n)) (l_nodes loc)
  /\ conns_main (l_connections loc)
  /\ not_error_name (previousNodeName loc).

(** The output node of the main chain. *)
Definition is_output (n : N8nWorkflowNode) : Prop :=
  name n = "Send Notification" /\ type n = "n8n-nodes-base.emailSend".

Definition error_edge : N8nWorkflowConnection :=
  {| node := "Error Notification"; conn_type := "main"; index := 0 |}.

Definition is_error_handler (n : N8nWorkflowNode) : Prop :=
  name n = "Error Handler" /\ type n = "n8n-nodes-base.function".

Definition is_error_notification (n : N8nWorkflowNode) : Prop :=
  name n = "Error Notification" /\ type n = "n8n-nodes-base.emailSend".

(** The options with error handling switched off. *)
Definition without_error_handling (options : WorkflowGenerationOptions)
    : WorkflowGenerationOptions :=
  {| includeErrorHandling := false;
     addMonitoring := addMonitoring options;
     enableRetries := enableRetries options;
     includeLogging := includeLogging options;
     securityLevel := securityLevel options;
     scalabilityPattern := scalabilityPattern options |}.

(** [b] is the target of a connection that starts at [a]. *)
Definition edge (conns : Connections) (a b : string) : Prop :=
  exists entry key ports port c,
    conns !! a = Some entry /\ entry !! key = Some ports
    /\ In port ports /\ In c port /\ node c = b.

(** [b] can be reached from [a] along connections. *)
Definition reachable (conns : Connections) : string -> string -> Prop :=
  rtc (edge conns).

End MainWorkflowTerms.

(** ** Sample conversations *)

Section CompletenessSamples.
Import AiAgent.

Definition requirement_of (c : RequirementCategory) (text : string) : ProjectRequirement :=
  {| id := "r"; category := c; question := ""; answer := text; priority := medium;
     confidence := 1; followUpNeeded := false; tags := [] |}.

Definition two_categories : ConversationContext :=
  {| phase := requirements_phase;
     requirements := [ requirement_of business_process "automate invoices";
                       requirement_of integrations "connect to the ledger" ] |}.

End CompletenessSamples.

(** ** Sample cost estimates *)

Section ROISamples.
Import AiAgent BlueprintGen.

(** A source whose first draw is 0 and whose later draws are 19/20. *)
Definition low_then_high : RandomSource :=
  {| draws := fun n => match n with O => 0%Q | S _ => (19 # 20)%Q end; cursor := 0 |}.

Definition normal_config : BlueprintConfig :=
  {| projectType := automation; complexity := simple; timeline := normal;
     budget := standard; riskTolerance := risk_medium |}.

(** The cost estimate of the generator for no requirements. *)
Definition sample_costs : CostEstimation :=
  let architecture := generateTechnicalArchitecture [] (analyzeRequirements []) in
  calculateCosts (generateImplementationPlan architecture normal_config)
                 (Some architecture).

Definition empty_context : ConversationContext :=
  {| phase := discovery; requirements := [] |}.

(** The cost estimate computed from the plan of the agent's blueprint. *)
Definition agent_costs : CostEstimation :=
  calculateCosts (implementationPlan (createProjectBlueprint empty_context))
                 (technicalArchitecture (createProjectBlueprint empty_context)).

End ROISamples.

(** ** Sample stores *)

Section StoreSamples.
Import WorkflowKnowledge.

Definition template (i nm descr : string) (tgs : list string) (pop : Z)
    : WorkflowTemplate :=
  {| id := i; name := nm; description := descr; category := crm_sales;
     tags := tgs; difficulty := beginner; integrations := []; popularity := pop |}.

Definition order_only : WorkflowTemplate :=
  template "t1" "Order intake" "Collects new orders" ["orders"] 50.

Definition order_and_payment : WorkflowTemplate :=
  template "t2" "Order Processing" "Validates every order" ["payments"] 40.

Definition order_store : KnowledgeBase := buildIndexes [order_only; order_and_payment].

(** A query whose two words are separated by a tab character. *)
Definition tab_query : string := "order" +:+ String "009"%char "payment".

Definition lead_scoring : WorkflowTemplate :=
  template "t3" "Lead Scoring" "Ranks inbound contacts" ["crm"] 10.

Definition tagged_lead : WorkflowTemplate :=
  template "t4" "Contact enrichment" "Adds company data" ["lead"; "crm"] 99.

Definition lead_store : KnowledgeBase := buildIndexes [tagged_lead; lead_scoring].

Definition lead_alpha : WorkflowTemplate :=
  template "a" "lead alpha" "first loaded" [] 1.

Definition lead_beta : WorkflowTemplate :=
  template "b" "lead beta" "second loaded" [] 2.

Definition small_store : KnowledgeBase := buildIndexes [lead_alpha; lead_beta].

End StoreSamples.

(** ** Fallbacks and sample blueprints *)

Section BuilderTerms.
Import N8nBuilder.

Definition no_keyword (text : string) (keywords : list string) : Prop :=
  Forall (fun keyword => JS.includes text keyword = false) keywords.



Definition bare_blueprint : AiAgent.ProjectBlueprint :=
  {| AiAgent.title := "Demo";
     AiAgent.technicalArchitecture := None;
     AiAgent.implementationPlan := {| AiAgent.phases := [] |};
     AiAgent.estimatedROI := 0 |}.

Definition two_integrations : AiAgent.ProjectBlueprint :=
  {| AiAgent.title := "Demo";
     AiAgent.technicalArchitecture := Some
       {| AiAgent.components := [];
          AiAgent.integrationSpecs :=
            [ {| AiAgent.service := Some "HubSpot CRM"; AiAgent.rateLimit := Some 100 |};
              {| AiAgent.service := Some "Stripe Payments"; AiAgent.rateLimit := Some 100 |} ] |};
     AiAgent.implementationPlan := {| AiAgent.phases := [] |};
     AiAgent.estimatedROI := 0 |}.

Definition basic_options : WorkflowGenerationOptions :=
  {| includeErrorHandling := false; addMonitoring := false; enableRetries := false;
     includeLogging := false; securityLevel := basic; scalabilityPattern := simple |}.

Definition edge_to (target : string) : N8nWorkflowConnection :=
  {| node := target; conn_type := "main"; index := 0 |}.

(** The [main] ports of the connections that start at [source]. *)
Definition main_ports (w : N8nWorkflow) (source : string)
    : option (list (list N8nWorkflowConnection)) :=
  connections w !! source ≫= (fun entry => entry !! "main").

End BuilderTerms.

(** ** Indexes, graphs and conversations *)

Section IndexTerms.
Import WorkflowKnowledge.

(** The template belongs to category [c]. *)
Definition of_category (c : WorkflowCategory) (w : WorkflowTemplate) : bool :=
  bool_decide (category w = c).

End IndexTerms.

Section GraphTerms.
Import N8nBuilder.
Local Open Scope builder_scope.

(** The connections after [connectNodes] has linked [names] one after the
    other, starting from [prev]; with the last name linked. *)
Definition wire_chain (st : Connections * string) (names : list string)
    : Connections * string :=
  foldl (fun st n => (connectNodes (fst st) (snd st) n, n)) st names.

(** The connections after [connectNodes] has linked [prev] to each of
    [names]. *)
Definition wire_fan (prev : string) (conns : Connections) (names : list string)
    : Connections :=
  foldl (fun conns n => connectNodes conns prev n) conns names.

(** The pairs of neighbours in [prev :: l]. *)
Fixpoint chain_pairs (prev : string) (l : list string) : list (string * string) :=
  match l with
  | [] => []
  | x :: l' => (prev, x) :: chain_pairs x l'
  end.

(** The state after [n] calls of [advancePosition]. *)
Definition advanced (n : nat) (s : BuilderState) : BuilderState :=
  {| nodeIdCounter := nodeIdCounter s;
     nodePositionX := nodePositionX s + Z.of_nat n * nodeSpacingX;
     nodePositionY := nodePositionY s |}.

End GraphTerms.

Section NameTerms.
Import N8nBuilder.

Definition trigger_name (requirements : list AiAgent.ProjectRequirement) : string :=
  let triggerType := determineTriggerType requirements in
  if String.eqb triggerType "webhook" then "Webhook Trigger"
  else if String.eqb triggerType "schedule" then "Schedule Trigger"
  else if String.eqb triggerType "email" then "Email Trigger"
  else "Manual Trigger".

(** The name of the node built for one component: none unless the
    component is a processor. *)
Definition processing_name (c : AiAgent.TechnicalComponent) : list string :=
  if bool_decide (AiAgent.type c = AiAgent.processor) then
    if JS.includes (AiAgent.name c) "AI" then ["AI Processing"]
    else if JS.includes (AiAgent.name c) "Data" then ["Transform Data"]
    else ["Process Data"]
  else [].

Definition processing_names (blueprint : AiAgent.ProjectBlueprint) : list string :=
  match flat_map processing_name (components_of blueprint) with
  | [] => ["Process Data"]
  | names => names
  end.

(** The name of the node built for one integration. *)
Definition integration_name (integration : AiAgent.IntegrationSpec) : string :=
  let service := JS.toLowerCase (default EmptyString (AiAgent.service integration)) in
  if JS.includes service "hubspot" then "HubSpot Integration"
  else if JS.includes service "salesforce" then "Salesforce Integration"
  else if JS.includes service "stripe" then "Stripe Integration"
  else if JS.includes service "database" then "Database Insert"
  else "API Integration".

Definition integration_names (blueprint : AiAgent.ProjectBlueprint) : list string :=
  match map integration_name (integrations_of blueprint) with
  | [] => ["API Integration"]
  | names => names
  end.

(** The canvas position the builder is at. *)
Definition builder_position (s : BuilderState) : Z * Z := (nodePositionX s, nodePositionY s).

(** [m] returns nodes of the names [names], all placed at the current
    position, and leaves the position where it is. *)
Definition places (names : list string) (m : M (list N8nWorkflowNode)) : Prop :=
  forall s, map name (fst (m s)) = names
            /\ Forall (fun n => position n = builder_position s) (fst (m s))
            /\ builder_position (snd (m s)) = builder_position s.

End NameTerms.

Section ShapeTerms.
Import N8nBuilder.

Definition validation_names (level : SecurityLevel) : list string :=
  if bool_decide (level <> basic) then ["Input Validation"] else [].

(** The names of the nodes that [buildMainWorkflow] links one after the
    other: trigger, validation, processing nodes. *)
Definition main_chain blueprint requirements (level : SecurityLevel) : list string :=
  trigger_name requirements :: validation_names level ++ processing_names blueprint.

(** The names of the nodes built after them: integration nodes, output. *)
Definition main_branches (blueprint : AiAgent.ProjectBlueprint) : list string :=
  integration_names blueprint ++ ["Send Notification"].

Definition error_names (errorHandling : bool) : list string :=
  if errorHandling then ["Error Handler"; "Error Notification"] else [].

(** The connections of the main workflow, as pairs of node names. *)
Definition main_edges blueprint requirements (options : WorkflowGenerationOptions)
    : list (string * string) :=
  let chain := main_chain blueprint requirements (securityLevel options) in
  chain_pairs (trigger_name requirements) (tl chain)
  ++ map (fun b => (List.last chain EmptyString, b)) (main_branches blueprint)
  ++ (if includeErrorHandling options then [("Error Handler", "Error Notification")] else []).

(** The canvas column number [k], on the row of the main chain. *)
Definition column (k : nat) : Z * Z := (300 + Z.of_nat k * 400, 300).

End ShapeTerms.

Section LayoutTerms.
Import N8nBuilder.

(** The positions of the nodes of the main workflow, in the order of its
    node list. *)
Definition main_positions blueprint (options : WorkflowGenerationOptions)
    : list (Z * Z) :=
  let v := length (validation_names (securityLevel options)) in
  let p := length (processing_names blueprint) in
  let i := length (integration_names blueprint) in
  [column 0] ++ repeat (column 1) v
  ++ repeat (column (1 + v)) p
  ++ repeat (column (1 + v + p)) i
  ++ [column (1 + v + p + i)]
  ++ (if includeErrorHandling options
      then [ (fst (column (2 + v + p + i)), 600); (fst (column (2 + v + p + i)), 800) ]
      else []).

End LayoutTerms.

Section LeafTerms.
Import N8nBuilder.

Definition chain_node_names : list string :=
  ["Webhook Trigger"; "Schedule Trigger"; "Email Trigger"; "Manual Trigger";
   "Input Validation"; "AI Processing"; "Transform Data"; "Process Data"].

Definition branch_node_names : list string :=
  ["HubSpot Integration"; "Salesforce Integration"; "Stripe Integration";
   "Database Insert"; "API Integration"; "Send Notification"].

End LeafTerms.

Section VariationTerms.
Import N8nBuilder.

Definition advanced_options : WorkflowGenerationOptions :=
  {| includeErrorHandling := true; addMonitoring := true; enableRetries := true;
     includeLogging := true; securityLevel := high; scalabilityPattern := enterprise |}.

End VariationTerms.

Section ComposeTerms.
Import AiAgent BlueprintGen.

(** The names of the processing nodes that the builder makes for a
    blueprint of the generator. *)
Definition generated_processing_names (requirements : list ProjectRequirement)
    : list string :=
  match (if requiresDataProcessing requirements then ["Transform Data"] else [])
        ++ (if requiresAI requirements then ["AI Processing"] else []) with
  | [] => ["Process Data"]
  | names => names
  end.

(** The names of the integration nodes that the builder makes for it. *)
Definition generated_integration_names (requirements : list ProjectRequirement)
    : list string :=
  match (if JS.includes (content requirements) "hubspot" then ["HubSpot Integration"] else [])
        ++ (if JS.includes (content requirements) "stripe" then ["Stripe Integration"] else []) with
  | [] => ["Database Insert"]
  | names => names
  end.

End ComposeTerms.

Section GeneratorTerms.
Import AiAgent BlueprintGen.

(** The order simple < moderate < complex < enterprise. *)
Definition complexity_rank (c : Complexity) : Z :=
  match c with simple => 0 | moderate => 1 | complex => 2 | enterprise => 3 end.

End GeneratorTerms.

Section ExtractTerms.
Import AiAgent Conversation.

(** An integration requirement extracted from [message]. *)
Definition integration_requirement (message : string) (r : ProjectRequirement) : Prop :=
  category r = integrations /\ answer r = message /\ priority r = high.

(** A business-process requirement extracted from [message]: its answer
    is a part of the message that starts with "automat", letters compared
    without regard to case, and holds at most 110 characters. *)
Definition process_requirement (message : string) (r : ProjectRequirement) : Prop :=
  category r = business_process /\ priority r = critical
  /\ (exists pre post, message = pre +:+ answer r +:+ post)
  /\ (String.length (answer r) <= 110)%nat
  /\ JS.startsWith (JS.toLowerCase (answer r)) "automat" = true.

End ExtractTerms.

Section AgentTerms.
Import AiAgent Conversation.

(** All four critical categories occur among the requirements. *)
Definition all_critical (reqs : list ProjectRequirement) : bool :=
  forallb (category_present reqs) criticalCategories.

(** The agent after the messages have been processed in turn, none with
    a context override. *)
Definition converse (id_text : nat -> string) (messages : list string) (w : World)
    : World :=
  foldl (fun w message => snd (processMessage id_text message None w)) w messages.

(** The requirement carries one of the two categories that
    [extractRequirements] assigns. *)
Definition extracted_category (r : ProjectRequirement) : Prop :=
  category r = business_process \/ category r = integrations.

End AgentTerms.

Section MessageTerms.
Import AiAgent Conversation.

(** The context after the fields of an override have replaced its own. *)
Definition overridden (override : option ContextOverride) (c : ConversationContext)
    : ConversationContext :=
  match override with
  | Some o => {| phase := default (phase c) (o_phase o);
                 requirements := default (requirements c) (o_requirements o) |}
  | None => c
  end.

(** The phase after a message, from the phase before it. *)
Definition next_phase (p : Phase) (business : bool) (complete : bool) : Phase :=
  match p with
  | discovery => if business then requirements_phase else discovery
  | requirements_phase => if complete then blueprint_phase else requirements_phase
  | p => p
  end.

End MessageTerms.

Section QuestionTerms.
Import AiAgent Conversation.

(** The categories that [getMissingRequirementCategories] looks for. *)
Definition asked_categories : list RequirementCategory :=
  [business_process; technical_specs; integrations;
   scale_volume; security_compliance; budget_timeline].

(** The line that [generateNextQuestions] writes for a category. *)
Definition question_line (c : RequirementCategory) : string :=
  "**" +:+ formatCategoryName c +:+ "**: " +:+ hd EmptyString (questionBank c).

(** The filter that the discovery reply passes to the search. *)
Definition category_filter (c : option WorkflowKnowledge.WorkflowCategory)
    : WorkflowKnowledge.SearchFilters :=
  {| WorkflowKnowledge.f_category := c;
     WorkflowKnowledge.f_difficulty := None;
     WorkflowKnowledge.f_tags := None;
     WorkflowKnowledge.f_integration := None |}.

End QuestionTerms.

Section OutlineTerms.
Import N8nBuilder.

(** The node type that goes with a node name. *)
Definition node_type (nm : string) : string :=
  if String.eqb nm "Webhook Trigger" then "n8n-nodes-base.webhook"
  else if String.eqb nm "Schedule Trigger" then "n8n-nodes-base.cron"
  else if String.eqb nm "Email Trigger" then "n8n-nodes-base.emailReadImap"
  else if String.eqb nm "Manual Trigger" then "n8n-nodes-base.manualTrigger"
  else if String.eqb nm "Input Validation" then "n8n-nodes-base.function"
  else if String.eqb nm "AI Processing" then "n8n-nodes-base.openAi"
  else if String.eqb nm "Transform Data" then "n8n-nodes-base.set"
  else if String.eqb nm "Process Data" then "n8n-nodes-base.function"
  else if String.eqb nm "HubSpot Integration" then "n8n-nodes-base.hubspot"
  else if String.eqb nm "Salesforce Integration" then "n8n-nodes-base.salesforce"
  else if String.eqb nm "Stripe Integration" then "n8n-nodes-base.stripe"
  else if String.eqb nm "Database Insert" then "n8n-nodes-base.postgres"
  else if String.eqb nm "API Integration" then "n8n-nodes-base.httpRequest"
  else if String.eqb nm "Send Notification" then "n8n-nodes-base.emailSend"
  else if String.eqb nm "Error Handler" then "n8n-nodes-base.function"
  else if String.eqb nm "Error Notification" then "n8n-nodes-base.emailSend"
  else EmptyString.

(** The node has the type that goes with its name. *)
Definition well_typed (n : N8nWorkflowNode) : Prop := type n = node_type (name n).

(** A workflow, by its name and the names of its nodes. *)
Definition outline (w : N8nWorkflow) : string * list string :=
  (wf_name w, map name (nodes w)).

Definition main_outline blueprint requirements (options : WorkflowGenerationOptions)
    : string * list string :=
  (AiAgent.title blueprint +:+ " - Main Workflow",
   main_chain blueprint requirements (securityLevel options)
   ++ main_branches blueprint ++ error_names (includeErrorHandling options)).

Definition data_outline (blueprint : AiAgent.ProjectBlueprint) : string * list string :=
  (AiAgent.title blueprint +:+ " - Data Processing",
   ["Data Processing Schedule"; "Fetch Data"; "Process Data Batch"; "Update Status"]).

Definition monitoring_outline (blueprint : AiAgent.ProjectBlueprint)
    : string * list string :=
  (AiAgent.title blueprint +:+ " - Monitoring",
   ["Monitoring Schedule"; "System Health Check"]).

(** The workflows that follow the main workflow. *)
Definition supporting_outlines blueprint (options : WorkflowGenerationOptions)
    : list (string * list string) :=
  (if requiresDataProcessingWorkflow blueprint then [data_outline blueprint] else [])
  ++ (if requiresMonitoringWorkflow blueprint options
      then [monitoring_outline blueprint] else []).

(** The property names that every plain object inherits from
    [Object.prototype]. *)
Definition Object_prototype_names : list string :=
  ["constructor"; "__defineGetter__"; "__defineSetter__"; "hasOwnProperty";
   "__lookupGetter__"; "__lookupSetter__"; "isPrototypeOf"; "propertyIsEnumerable";
   "toString"; "valueOf"; "__proto__"; "toLocaleString"].




End OutlineTerms.

(** * Properties *)

(** ** Facts about the JavaScript primitives *)

Section JSFacts.

Lemma app_cons (a : ascii) (p q : string) : String a p +:+ q = String a (p +:+ q).
Proof. reflexivity. Qed.

Lemma app_empty (q : string) : EmptyString +:+ q = q.
Proof. reflexivity. Qed.

Lemma startsWith_spec (s p : string) :
  JS.startsWith s p = true <-> exists post, s = p +:+ post.
Proof.
  revert s; induction p as [|a p IH]; intros s.
  - split; [intros _; exists s; reflexivity | destruct s; reflexivity].
  - destruct s as [|b s]; simpl.
    + split; [discriminate | intros [post H]; discriminate].
    + destruct (Ascii.eqb a b) eqn:E.
      * apply Ascii.eqb_eq in E; subst b. rewrite IH.
        split; intros [post H]; exists post.
        -- rewrite app_cons, H. reflexivity.
        -- rewrite app_cons in H. congruence.
      * apply Ascii.eqb_neq in E.
        split; [discriminate | intros [post H]; rewrite app_cons in H; congruence].
Qed.

Lemma includes_unfold (s sub : string) :
  JS.includes s sub =
  if JS.startsWith s sub then true
  else match s with
       | EmptyString => false
       | String _ s' => JS.includes s' sub
       end.
Proof. destruct s; reflexivity. Qed.

(** [includes] is the substring test. *)
Lemma includes_spec (s sub : string) :
  JS.includes s sub = true <-> exists pre post, s = pre +:+ sub +:+ post.
Proof.
  induction s as [|c s IH]; rewrite includes_unfold.
  - destruct (JS.startsWith "" sub) eqn:E.
    + apply startsWith_spec in E as [post E].
      split; [intros _; exists EmptyString, post; exact E | reflexivity].
    + split; [discriminate|]. intros ([|c pre] & post & H); [|discriminate].
      assert (JS.startsWith "" sub = true) by (apply startsWith_spec; eauto).
      congruence.
  - destruct (JS.startsWith (String c s) sub) eqn:E.
    + apply startsWith_spec in E as [post E].
      split; [intros _; exists EmptyString, post; exact E | reflexivity].
    + rewrite IH. split.
      * intros (pre & post & ->). exists (String c pre), post. reflexivity.
      * intros ([|c' pre] & post & H).
        -- assert (JS.startsWith (String c s) sub = true)
             by (apply startsWith_spec; eauto).
           congruence.
        -- rewrite app_cons in H. injection H as _ H. eauto.
Qed.

Context {A : Type} (key : A -> Z).

Lemma sort_insert_Permutation (x : A) (l : list A) :
  Permutation (JS.sort_insert (desc_by key) x l) (x :: l).
Proof.
  induction l as [|y l IH]; simpl; [reflexivity|].
  destruct (0 <? (desc_by key) x y); [|reflexivity].
  rewrite IH. apply perm_swap.
Qed.

Lemma sort_Permutation (l : list A) : Permutation (JS.sort (desc_by key) l) l.
Proof.
  induction l as [|x l IH]; simpl; [reflexivity|].
  unfold JS.sort in *; simpl. rewrite sort_insert_Permutation. auto.
Qed.

Lemma sort_insert_sorted (x : A) (l : list A) :
  (desc_sorted key) l -> (desc_sorted key) (JS.sort_insert (desc_by key) x l).
Proof.
  unfold desc_sorted.
  induction l as [|y l IH]; intros Hs; simpl.
  - repeat constructor.
  - inversion Hs as [|? ? Hl Hy]; subst.
    destruct (0 <? (desc_by key) x y) eqn:E.
    + apply Z.ltb_lt in E. unfold desc_by in E.
      constructor; [auto|].
      rewrite Forall_forall. intros z Hz.
      rewrite (sort_insert_Permutation x l) in Hz.
      apply elem_of_cons in Hz as [->|Hz]; [lia|].
      rewrite Forall_forall in Hy. auto.
    + apply Z.ltb_ge in E. unfold desc_by in E.
      constructor; [exact Hs|].
      constructor; [lia|].
      rewrite Forall_forall in Hy |- *. intros z Hz.
      specialize (Hy z Hz). lia.
Qed.

Lemma sort_sorted (l : list A) : (desc_sorted key) (JS.sort (desc_by key) l).
Proof.
  induction l as [|x l IH]; [constructor|].
  unfold JS.sort in *; simpl. apply sort_insert_sorted, IH.
Qed.

(** Stability: among the elements of one key the order is kept. *)
Lemma sort_insert_stable (z : Z) (x : A) (l : list A) :
  List.filter (fun a => key a =? z) (JS.sort_insert (desc_by key) x l)
  = List.filter (fun a => key a =? z) (x :: l).
Proof.
  induction l as [|y l IH]; [reflexivity|].
  simpl JS.sort_insert.
  destruct (0 <? (desc_by key) x y) eqn:E; [|reflexivity].
  apply Z.ltb_lt in E. unfold desc_by in E.
  simpl in *. rewrite IH.
  destruct (key x =? z) eqn:Ex; destruct (key y =? z) eqn:Ey; try reflexivity.
  apply Z.eqb_eq in Ex, Ey. lia.
Qed.

Lemma sort_stable (z : Z) (l : list A) :
  List.filter (fun a => key a =? z) (JS.sort (desc_by key) l)
  = List.filter (fun a => key a =? z) l.
Proof.
  induction l as [|x l IH]; [reflexivity|].
  unfold JS.sort in *; simpl foldr. rewrite sort_insert_stable.
  simpl. rewrite IH. reflexivity.
Qed.

(** In a descending list a strictly larger key sits at a smaller index. *)
Lemma desc_sorted_before (l : list A) (x y : A) (j : nat) :
  (desc_sorted key) l -> In x l -> l !! j = Some y -> key y < key x ->
  exists i, (i < j)%nat /\ l !! i = Some x.
Proof.
  intros Hs Hx Hy Hlt.
  apply list_elem_of_In, list_elem_of_lookup in Hx as [i Hi].
  exists i. split; [|exact Hi].
  destruct (decide (i < j)%nat) as [|Hge]; [assumption|exfalso].
  destruct (decide (i = j)) as [->|Hne]; [rewrite Hi in Hy; injection Hy as ->; lia|].
  assert (Hji : (j < i)%nat) by lia.
  unfold desc_sorted in Hs.
  revert i j Hi Hy Hji Hge Hne.
  induction Hs as [|a l Hs IH Ha]; intros i j Hi Hy Hji _ _.
  - rewrite lookup_nil in Hi. discriminate.
  - destruct i as [|i]; [lia|]. destruct j as [|j].
    + simpl in Hy, Hi. injection Hy as ->.
      rewrite Forall_forall in Ha.
      assert (x ∈ l) by (apply list_elem_of_lookup; eauto).
      specialize (Ha x ltac:(assumption)). lia.
    + simpl in Hy, Hi. apply (IH i j); auto; lia.
Qed.

End JSFacts.

(** ** The template store: search *)

Section Search.
Import WorkflowKnowledge.

Lemma term_matches_hit (w : WorkflowTemplate) (term : string) :
  term_matches w term = true <-> term_hit w term.
Proof.
  unfold term_matches, term_hit, occurs_in.
  rewrite !orb_true_iff, !includes_spec, existsb_exists.
  split.
  - intros [[H|H]|(tag & Hin & H)]; auto.
    right; right. exists tag. rewrite <- includes_spec. auto.
  - intros [H|[H|(tag & Hin & H)]]; auto.
    right. exists tag. rewrite includes_spec. auto.
Qed.

Lemma in_step_filter (fire : bool) (p : WorkflowTemplate -> bool)
    (st : list WorkflowTemplate * bool) (w : WorkflowTemplate) :
  In w (fst (step_filter fire p st))
  <-> In w (fst st) /\ (fire = true -> p w = true).
Proof.
  unfold step_filter. destruct fire; simpl.
  - rewrite List.filter_In. intuition.
  - intuition discriminate.
Qed.

Lemma in_opt_filter {B} (o : option B) (p : B -> WorkflowTemplate -> bool)
    (st : list WorkflowTemplate * bool) (w : WorkflowTemplate) :
  In w (fst (match o with
             | Some b => step_filter true (p b) st
             | None => st
             end))
  <-> In w (fst st) /\ (forall b, o = Some b -> p b w = true).
Proof.
  destruct o as [b|].
  - rewrite in_step_filter. split.
    + intros [H1 H2]. split; [exact H1|]. intros b' [= <-]. auto.
    + intros [H1 H2]. split; [exact H1|]. intros _. auto.
  - split; [intros H; split; [exact H | discriminate] | tauto].
Qed.

Lemma in_sort_by_popularity (l : list WorkflowTemplate) (w : WorkflowTemplate) :
  In w (JS.sort by_popularity l) <-> In w l.
Proof.
  change by_popularity with (desc_by popularity).
  rewrite <- !list_elem_of_In, (sort_Permutation popularity l). reflexivity.
Qed.

Lemma truthy_iff (s : string) : JS.truthy s = true <-> s <> EmptyString.
Proof. destruct s; simpl; split; congruence. Qed.

Lemma search_membership (kb : KnowledgeBase) (query : string)
    (filters : option SearchFilters) (w : WorkflowTemplate) :
  query <> EmptyString ->
  (In w (fst (searchWorkflows query filters kb))
   <-> In w (workflows kb)
       /\ (forall term, In term (space_tokens query) -> term_hit w term)
       /\ satisfies_filters filters w).
Proof.
  intros Hq. unfold searchWorkflows. cbv zeta. cbn [fst].
  rewrite in_sort_by_popularity.
  rewrite (in_opt_filter (integration_fires filters)
             (fun i w => existsb (fun x => String.eqb (JS.toLowerCase (service x))
                                                      (JS.toLowerCase i))
                                 (integrations w))).
  rewrite (in_opt_filter (tags_fires filters)
             (fun ts w => existsb (JS.arr_includes (tags w)) ts)).
  rewrite (in_opt_filter (difficulty_fires filters)
             (fun d w => String.eqb (difficulty_str (difficulty w)) d)).
  rewrite (in_opt_filter (category_fires filters)
             (fun c w => bool_decide (category w = c))).
  rewrite in_step_filter. cbn [fst].
  apply truthy_iff in Hq. rewrite Hq.
  unfold satisfies_filters, space_tokens.
  split.
  - intros (((((Hin & Hterms) & Hc) & Hd) & Ht) & Hi).
    split; [exact Hin|]. split.
    + specialize (Hterms eq_refl). rewrite forallb_forall in Hterms.
      intros term Hterm. apply term_matches_hit. auto.
    + intros f ->. repeat split.
      * intros c Hfc. specialize (Hc c Hfc). apply bool_decide_eq_true in Hc. exact Hc.
      * intros d Hfd Hne. apply String.eqb_eq. apply Hd. simpl. rewrite Hfd.
        apply truthy_iff in Hne. rewrite Hne. reflexivity.
      * intros ts Hft Hne. specialize (Ht ts).
        simpl in Ht. rewrite Hft in Ht. destruct ts as [|t ts]; [congruence|].
        specialize (Ht eq_refl). apply existsb_exists in Ht as (t' & Hin' & Ht').
        exists t'. split; [exact Hin'|].
        unfold JS.arr_includes in Ht'. apply existsb_exists in Ht' as (u & Hu & E).
        apply String.eqb_eq in E. subst u. exact Hu.
      * intros i Hfi Hne. specialize (Hi i). simpl in Hi. rewrite Hfi in Hi.
        apply truthy_iff in Hne. rewrite Hne in Hi. specialize (Hi eq_refl).
        apply existsb_exists in Hi as (x & Hx & E). apply String.eqb_eq in E. eauto.
  - intros (Hin & Hterms & Hf).
    repeat split.
    + exact Hin.
    + intros _. apply forallb_forall. intros term Hterm.
      apply term_matches_hit. auto.
    + intros c Hc. apply bool_decide_eq_true.
      destruct filters as [f|]; [|discriminate]. simpl in Hc.
      destruct (Hf f eq_refl) as (H1 & _). auto.
    + intros d Hd. apply String.eqb_eq.
      destruct filters as [f|]; [|discriminate]. simpl in Hd.
      destruct (Hf f eq_refl) as (_ & H2 & _).
      destruct (f_difficulty f) as [d'|]; [|discriminate].
      destruct (JS.truthy d') eqn:E; [|discriminate]. injection Hd as <-.
      apply H2; [reflexivity|]. apply truthy_iff. exact E.
    + intros ts Hts. apply existsb_exists.
      destruct filters as [f|]; [|discriminate]. simpl in Hts.
      destruct (Hf f eq_refl) as (_ & _ & H3 & _).
      destruct (f_tags f) as [[|t0 ts0]|]; try discriminate. injection Hts as <-.
      destruct (H3 _ eq_refl ltac:(discriminate)) as (t & Ht1 & Ht2).
      exists t. split; [exact Ht1|]. unfold JS.arr_includes.
      apply existsb_exists. exists t. split; [exact Ht2 | apply String.eqb_refl].
    + intros i Hi. apply existsb_exists.
      destruct filters as [f|]; [|discriminate]. simpl in Hi.
      destruct (Hf f eq_refl) as (_ & _ & _ & H4).
      destruct (f_integration f) as [i'|]; [|discriminate].
      destruct (JS.truthy i') eqn:E; [|discriminate]. injection Hi as <-.
      destruct (H4 _ eq_refl ltac:(apply truthy_iff; exact E)) as (x & Hx1 & Hx2).
      exists x. split; [exact Hx1|]. apply String.eqb_eq. exact Hx2.
Qed.

Lemma step_filter_fresh (fire : bool) (p : WorkflowTemplate -> bool)
    (st : list WorkflowTemplate * bool) :
  snd st = true -> snd (step_filter fire p st) = true.
Proof. unfold step_filter. destruct fire; auto. Qed.

Lemma opt_filter_fresh {B} (o : option B) (p : B -> WorkflowTemplate -> bool)
    (st : list WorkflowTemplate * bool) :
  snd st = true ->
  snd (match o with
       | Some b => step_filter true (p b) st
       | None => st
       end) = true.
Proof. destruct o; auto. Qed.

(** The queries that leave the store as it is. *)
Lemma queries_that_keep_the_store (kb : KnowledgeBase) (i query : string)
    (filters : option SearchFilters) (requirements : list string)
    (c : WorkflowCategory) :
  snd (getWorkflowById i kb) = kb
  /\ snd (getWorkflowsByCategory c kb) = kb
  /\ snd (getRecommendedWorkflows requirements kb) = kb
  /\ (query <> EmptyString -> snd (searchWorkflows query filters kb) = kb).
Proof.
  repeat split. intros Hq. apply truthy_iff in Hq.
  unfold searchWorkflows. cbv zeta. cbn [snd].
  match goal with
  | |- (if snd ?st then _ else _) = _ => assert (H : snd st = true)
  end.
  { repeat apply opt_filter_fresh. rewrite Hq. reflexivity. }
  rewrite H. reflexivity.
Qed.

(** What [getPopularWorkflows] returns and what it leaves in the store. *)
Lemma getPopularWorkflows_top (kb : KnowledgeBase) (limit : Z) :
  0 <= limit ->
  let sorted := JS.sort (desc_by popularity) (workflows kb) in
  fst (getPopularWorkflows limit kb) = take (Z.to_nat limit) sorted
  /\ workflows (snd (getPopularWorkflows limit kb)) = sorted
  /\ Permutation sorted (workflows kb)
  /\ desc_sorted popularity sorted
  /\ forall z, List.filter (fun w => popularity w =? z) sorted
               = List.filter (fun w => popularity w =? z) (workflows kb).
Proof.
  intros Hl. cbv zeta. unfold getPopularWorkflows. cbv zeta. cbn [fst snd].
  split.
  - unfold JS.slice0. destruct (limit <? 0) eqn:E; [apply Z.ltb_lt in E; lia|]. reflexivity.
  - split; [reflexivity|]. split; [apply sort_Permutation|].
    split; [apply sort_sorted | intros z; apply sort_stable].
Qed.

End Search.

(** ** The template store: recommendation *)

Section Recommend.
Import WorkflowKnowledge.

Lemma score_step_points (w : WorkflowTemplate) (acc : Z) (keyword : string) :
  score_step w acc keyword = acc + hit_points w keyword.
Proof.
  unfold score_step, hit_points.
  destruct (JS.includes (JS.toLowerCase (name w)) keyword);
    destruct (JS.includes (JS.toLowerCase (description w)) keyword);
    destruct (existsb _ (tags w)); lia.
Qed.

Lemma score_sum_points (keywords : list string) (w : WorkflowTemplate) :
  score keywords w = sum_points w keywords.
Proof.
  unfold score.
  enough (H : forall acc, foldl (score_step w) acc keywords = acc + sum_points w keywords)
    by (rewrite H; lia).
  induction keywords as [|k ks IH]; intros acc; simpl; [lia|].
  rewrite IH, score_step_points. lia.
Qed.

Lemma slice0_10 {A} (l : list A) : JS.slice0 10 l = take 10 l.
Proof. reflexivity. Qed.

Section Ranking.
Variable sc : WorkflowTemplate -> Z.

Let scored (w : WorkflowTemplate) : WorkflowTemplate * Z := (w, sc w).

Lemma sort_insert_scored (x : WorkflowTemplate) (l : list WorkflowTemplate) :
  JS.sort_insert by_score (scored x) (map scored l)
  = map scored (JS.sort_insert (desc_by sc) x l).
Proof.
  induction l as [|y l IH]; [reflexivity|].
  simpl. unfold by_score at 1, desc_by at 1. simpl.
  destruct (0 <? sc y - sc x); [|reflexivity].
  simpl. f_equal. exact IH.
Qed.

Lemma sort_scored (l : list WorkflowTemplate) :
  JS.sort by_score (map scored l) = map scored (JS.sort (desc_by sc) l).
Proof.
  induction l as [|x l IH]; [reflexivity|].
  unfold JS.sort in *. simpl. rewrite IH. apply sort_insert_scored.
Qed.

Lemma filter_scored (l : list WorkflowTemplate) :
  List.filter (fun item : WorkflowTemplate * Z => 0 <? snd item) (map scored l)
  = map scored (List.filter (fun w => 0 <? sc w) l).
Proof.
  induction l as [|x l IH]; [reflexivity|].
  simpl. destruct (0 <? sc x); simpl; rewrite IH; reflexivity.
Qed.

Lemma fst_scored (l : list WorkflowTemplate) : map fst (map scored l) = l.
Proof. induction l as [|x l IH]; simpl; [|rewrite IH]; reflexivity. Qed.
End Ranking.

Lemma recommended_is_top_of_ranking (requirements : list string) (kb : KnowledgeBase) :
  fst (getRecommendedWorkflows requirements kb)
  = take 10 (ranking (map JS.toLowerCase requirements) kb).
Proof.
  unfold getRecommendedWorkflows, ranking. cbv zeta. cbn [fst].
  set (kws := map JS.toLowerCase requirements).
  rewrite (filter_scored (score kws)), (sort_scored (score kws)), slice0_10.
  rewrite <- (fst_scored (score kws) (take 10 _)).
  f_equal. apply firstn_map.
Qed.

Lemma ranking_permutation (keywords : list string) (kb : KnowledgeBase) :
  Permutation (ranking keywords kb)
              (List.filter (fun w => 0 <? score keywords w) (workflows kb)).
Proof. apply sort_Permutation. Qed.

Lemma ranking_sorted (keywords : list string) (kb : KnowledgeBase) :
  desc_sorted (score keywords) (ranking keywords kb).
Proof. apply sort_sorted. Qed.

Lemma filter_filter_pos (sc : WorkflowTemplate -> Z) (z : Z) (l : list WorkflowTemplate) :
  0 < z ->
  List.filter (fun w => sc w =? z) (List.filter (fun w => 0 <? sc w) l)
  = List.filter (fun w => sc w =? z) l.
Proof.
  intros Hz. induction l as [|x l IH]; [reflexivity|]. simpl.
  destruct (0 <? sc x) eqn:E1; simpl; destruct (sc x =? z) eqn:E2;
    rewrite ?IH; try reflexivity.
  apply Z.eqb_eq in E2. apply Z.ltb_ge in E1. lia.
Qed.

Lemma ranking_stable (keywords : list string) (kb : KnowledgeBase) (z : Z) :
  0 < z ->
  List.filter (fun w => score keywords w =? z) (ranking keywords kb)
  = List.filter (fun w => score keywords w =? z) (workflows kb).
Proof.
  intros Hz. unfold ranking.
  rewrite (sort_stable (score keywords)). apply filter_filter_pos, Hz.
Qed.

Lemma lookup_take_Some {A} (l : list A) (n j : nat) (x : A) :
  take n l !! j = Some x -> l !! j = Some x /\ (j < n)%nat.
Proof.
  intros H. destruct (decide (j < n)%nat) as [Hlt|Hge].
  - rewrite lookup_take_lt in H by exact Hlt. auto.
  - rewrite lookup_take_ge in H by lia. discriminate.
Qed.

End Recommend.

(** ** The agent: completeness of the requirements *)

Section Completeness.
Import AiAgent.

Lemma category_present_In (reqs : list ProjectRequirement) (c : RequirementCategory) :
  category_present reqs c = true <-> In c (map category reqs).
Proof.
  unfold category_present. rewrite existsb_exists, in_map_iff.
  split; intros (r & H1 & H2).
  - apply bool_decide_eq_true in H2. eauto.
  - exists r. split; [exact H2 | apply bool_decide_eq_true; exact H1].
Qed.

Lemma covered_present (reqs : list ProjectRequirement) (c : RequirementCategory) :
  bool_decide (c ∈ (list_to_set (map category reqs) : gset RequirementCategory))
  = category_present reqs c.
Proof.
  apply Bool.eq_iff_eq_true.
  rewrite bool_decide_eq_true, elem_of_list_to_set, list_elem_of_In.
  symmetry. apply category_present_In.
Qed.

Lemma completeness_count (context : ConversationContext) :
  assessRequirementsCompleteness context
  = (inject_Z (Z.of_nat (critical_categories_present (requirements context))) / 4)%Q.
Proof.
  unfold assessRequirementsCompleteness, critical_categories_present.
  cbv zeta.
  rewrite (List.filter_ext _ _ (covered_present (requirements context))).
  reflexivity.
Qed.

Lemma category_present_ext (reqs reqs' : list ProjectRequirement) :
  (forall c, In c (map category reqs) <-> In c (map category reqs')) ->
  forall c, category_present reqs' c = category_present reqs c.
Proof.
  intros H c. apply Bool.eq_iff_eq_true.
  rewrite !category_present_In. symmetry. apply H.
Qed.

Lemma completeness_same_categories (context context' : ConversationContext) :
  (forall c, In c (map category (requirements context))
             <-> In c (map category (requirements context'))) ->
  assessRequirementsCompleteness context' = assessRequirementsCompleteness context.
Proof.
  intros H. rewrite !completeness_count. unfold critical_categories_present.
  rewrite (List.filter_ext _ _ (category_present_ext _ _ H)). reflexivity.
Qed.

Lemma completeness_push_present (context : ConversationContext) (r : ProjectRequirement) :
  In (category r) (map category (requirements context)) ->
  assessRequirementsCompleteness (push_requirements context [r])
  = assessRequirementsCompleteness context.
Proof.
  intros Hr. apply completeness_same_categories. intros c. simpl.
  rewrite map_app, in_app_iff. simpl. intuition (subst; auto).
Qed.

End Completeness.

(** ** The blueprint generator: costs and return on investment *)

Section ROI.
Import AiAgent BlueprintGen.

Lemma calculateROI_same_draw (requirements requirements' : list ProjectRequirement)
    (costs : CostEstimation) (rs rs' : RandomSource) :
  next_draw20 rs = next_draw20 rs' ->
  fst (calculateROI requirements costs rs) = fst (calculateROI requirements' costs rs').
Proof.
  unfold next_draw20, calculateROI, Math_random, JS.Math_floor. cbn.
  intros ->. reflexivity.
Qed.

Lemma next_draw20_range (rs : RandomSource) :
  valid_source rs -> 0 <= next_draw20 rs <= 19.
Proof.
  intros Hv. destruct (Hv (cursor rs)) as [H0 H1]. unfold next_draw20.
  destruct (draws rs (cursor rs)) as [n d].
  unfold Qle, Qlt in H0, H1. simpl in H0, H1.
  unfold Qfloor, Qmult. simpl. rewrite Pos.mul_1_r.
  split.
  - apply Z.div_pos; lia.
  - assert (n * 20 / Z.pos d < 20) by (apply Z.div_lt_upper_bound; lia). lia.
Qed.

(** The weekly time savings are [10 + Math.floor(Math.random() * 20)]. *)
Lemma calculateROI_timeSavings (requirements : list ProjectRequirement)
    (costs : CostEstimation) (rs : RandomSource) :
  timeSavingsHoursPerWeek (fst (calculateROI requirements costs rs))
  = (inject_Z (next_draw20 rs) + 10)%Q.
Proof. reflexivity. Qed.

Lemma generator_estimatedROI (requirements : list ProjectRequirement)
    (config : BlueprintConfig) (rs : RandomSource) :
  let blueprint := fst (generateComprehensiveBlueprint requirements config rs) in
  estimatedROI blueprint
  = threeYearROI
      (fst (calculateROI requirements
              (calculateCosts (implementationPlan blueprint)
                              (technicalArchitecture blueprint)) rs)).
Proof. reflexivity. Qed.

End ROI.

(** ** The workflow builder: node ids *)

Section NodeIds.
Import N8nBuilder.

Lemma nat_to_string_inj (j k : nat) : nat_to_string j = nat_to_string k -> j = k.
Proof.
  unfold nat_to_string. intros H.
  assert (H' : Some (Nat.to_uint j) = Some (Nat.to_uint k)).
  { rewrite <- !NilEmpty.usu, H. reflexivity. }
  injection H' as H'. apply Unsigned.to_uint_inj. exact H'.
Qed.

Lemma node_id_inj (j k : nat) : node_id j = node_id k -> j = k.
Proof.
  unfold node_id. intros H.
  apply (inj (String.app "node_")) in H. apply nat_to_string_inj, H.
Qed.

Lemma issued_nil (lo hi : nat) : issued lo hi [].
Proof. split; constructor. Qed.

Lemma issued_single (lo hi k : nat) (n : N8nWorkflowNode) :
  (lo <= k < hi)%nat -> id n = node_id k -> issued lo hi [n].
Proof.
  intros Hk Hn. split.
  - simpl. apply NoDup_singleton.
  - repeat constructor. eauto.
Qed.

Lemma issued_app (a b c : nat) (l1 l2 : list N8nWorkflowNode) :
  (a <= b)%nat -> (b <= c)%nat ->
  issued a b l1 -> issued b c l2 -> issued a c (l1 ++ l2).
Proof.
  intros Hab Hbc [Hnd1 Hf1] [Hnd2 Hf2]. split.
  - rewrite map_app. apply NoDup_app. split; [exact Hnd1|]. split; [|exact Hnd2].
    intros i Hi1 Hi2.
    apply list_elem_of_fmap in Hi1 as (n1 & -> & Hn1).
    apply list_elem_of_fmap in Hi2 as (n2 & E & Hn2).
    rewrite Forall_forall in Hf1, Hf2.
    destruct (Hf1 _ Hn1) as (k1 & Hk1 & E1).
    destruct (Hf2 _ Hn2) as (k2 & Hk2 & E2).
    rewrite E1, E2 in E. apply node_id_inj in E. lia.
  - apply Forall_app. split.
    + eapply Forall_impl; [exact Hf1|]. intros n (k & Hk & E). exists k. split; [lia|exact E].
    + eapply Forall_impl; [exact Hf2|]. intros n (k & Hk & E). exists k. split; [lia|exact E].
Qed.

Lemma issued_NoDup (lo hi : nat) (ns : list N8nWorkflowNode) :
  issued lo hi ns -> NoDup (map id ns).
Proof. intros [H _]. exact H. Qed.

End NodeIds.

(** ** The workflow builder: what the node constructors return *)

Section Constructors.
Import N8nBuilder.

Lemma run_bind {A B} (m : M A) (f : A -> M B) (s : BuilderState) :
  bind m f s = f (fst (m s)) (snd (m s)).
Proof. unfold bind. destruct (m s); reflexivity. Qed.

Lemma run_ret {A} (a : A) (s : BuilderState) : ret a s = (a, s).
Proof. reflexivity. Qed.

Lemma node_literal_creates (ok : string -> Prop) (nm ty : string) (tv dy : Z)
    (cr : option (string * string)) :
  ok nm -> creates_one ok (node_literal nm ty tv dy cr).
Proof. intros H s. simpl. repeat split; [exact H | lia]. Qed.

Ltac main_literal :=
  apply node_literal_creates; split; discriminate.

Lemma createTriggerNode_creates (requirements : list AiAgent.ProjectRequirement) :
  creates_one not_error_name (createTriggerNode requirements).
Proof.
  unfold createTriggerNode. cbv zeta.
  destruct (String.eqb _ "webhook"); [main_literal|].
  destruct (String.eqb _ "schedule"); [main_literal|].
  destruct (String.eqb _ "email"); main_literal.
Qed.

Lemma createValidationNode_creates : creates_one not_error_name createValidationNode.
Proof. main_literal. Qed.

Lemma createAIProcessingNode_creates c requirements :
  creates_one not_error_name (createAIProcessingNode c requirements).
Proof. main_literal. Qed.

Lemma createDataProcessingNode_creates c :
  creates_one not_error_name (createDataProcessingNode c).
Proof. intros s. simpl. repeat split; try discriminate. lia. Qed.

Lemma createGenericProcessingNode_creates c :
  creates_one not_error_name (createGenericProcessingNode c).
Proof. main_literal. Qed.

Lemma createHttpRequestNode_creates : creates_one not_error_name createHttpRequestNode.
Proof. main_literal. Qed.

Lemma createOutputNode_creates blueprint :
  creates_one not_error_name (createOutputNode blueprint).
Proof. main_literal. Qed.

Lemma creates_one_issued (ok : string -> Prop) (m : M N8nWorkflowNode) (s : BuilderState) :
  creates_one ok m ->
  issued (nodeIdCounter s) (nodeIdCounter (snd (m s))) [fst (m s)].
Proof.
  intros H. destruct (H s) as (Hid & _ & Hlt).
  eapply issued_single; [|exact Hid]. lia.
Qed.

(** A loop invariant for [forEach]. *)
Lemma forEach_invariant {A S} (I : S -> BuilderState -> Prop) (P : A -> Prop)
    (body : S -> A -> M S) (l : list A) :
  (forall acc x s, P x -> I acc s -> I (fst (body acc x s)) (snd (body acc x s))) ->
  Forall P l ->
  forall acc s, I acc s -> I (fst (forEach l body acc s)) (snd (forEach l body acc s)).
Proof.
  intros Hbody Hl. induction Hl as [|x l Hx Hl IH]; intros acc s HI; [exact HI|].
  simpl. rewrite run_bind. apply IH, Hbody; assumption.
Qed.

Lemma collected_push (ok : string -> Prop) (c0 : nat) (nodes : list N8nWorkflowNode)
    (s : BuilderState) (m : M N8nWorkflowNode) :
  creates_one ok m -> collected ok c0 nodes s ->
  collected ok c0 (nodes ++ [fst (m s)]) (snd (m s)).
Proof.
  intros Hm (Hc & Hi & Hn). destruct (Hm s) as (Hid & Hok & Hlt).
  split; [lia|]. split.
  - eapply issued_app; [exact Hc | | exact Hi | eapply creates_one_issued, Hm]. lia.
  - apply Forall_app. split; [exact Hn|]. repeat constructor. exact Hok.
Qed.

Lemma collected_creates_many (ok : string -> Prop) (m : M (list N8nWorkflowNode)) :
  (forall s, collected ok (nodeIdCounter s) (fst (m s)) (snd (m s))) ->
  creates_many ok m.
Proof. intros H s. exact (H s). Qed.

Lemma createProcessingNodes_creates blueprint requirements :
  creates_many not_error_name (createProcessingNodes blueprint requirements).
Proof.
  apply collected_creates_many. intros s.
  unfold createProcessingNodes. cbv zeta. rewrite run_bind.
  match goal with
  | |- context [forEach ?l ?b [] s] =>
      pose proof (forEach_invariant (collected not_error_name (nodeIdCounter s))
                    (fun _ => True) b l) as Hloop
  end.
  match type of Hloop with
  | ?H -> _ => assert (Hbody : H)
  end.
  { intros acc c s' _ Hacc.
    destruct (bool_decide (AiAgent.type c = AiAgent.processor)); [|exact Hacc].
    destruct (JS.includes (AiAgent.name c) "AI").
    - rewrite run_bind, run_ret.
      exact (collected_push _ _ _ _ _ (createAIProcessingNode_creates c requirements) Hacc).
    - destruct (JS.includes (AiAgent.name c) "Data"); rewrite run_bind, run_ret.
      + exact (collected_push _ _ _ _ _ (createDataProcessingNode_creates c) Hacc).
      + exact (collected_push _ _ _ _ _ (createGenericProcessingNode_creates c) Hacc). }
  specialize (Hloop Hbody (Forall_true _ _ (fun _ => I)) [] s).
  match type of Hloop with
  | ?H -> _ => assert (H0 : H) by (split; [lia|]; split; [apply issued_nil | constructor])
  end.
  specialize (Hloop H0). clear H0 Hbody.
  destruct (forEach _ _ [] s) as [nodes s'] eqn:E. cbn [fst snd] in *.
  destruct nodes as [|n nodes]; [|exact Hloop].
  rewrite run_bind, run_ret.
  exact (collected_push _ _ [] _ _ (createGenericProcessingNode_creates _) Hloop).
Qed.

Lemma createProcessingNodes_nonempty blueprint requirements s :
  fst (createProcessingNodes blueprint requirements s) <> [].
Proof.
  unfold createProcessingNodes. cbv zeta. rewrite run_bind.
  destruct (forEach _ _ [] s) as [[|n nodes] s']; cbn [fst snd];
    rewrite ?run_bind, run_ret; cbn [fst]; intros H; discriminate H.
Qed.

Lemma createIntegrationNodeForService_creates integration s :
  exists m, creates_one not_error_name m
            /\ createIntegrationNodeForService integration s
               = (Some (fst (m s)), snd (m s)).
Proof.
  unfold createIntegrationNodeForService. cbv zeta.
  destruct (JS.includes _ "hubspot").
  { eexists (node_literal _ _ _ _ _). split; cycle 1; [reflexivity | main_literal]. }
  destruct (JS.includes _ "salesforce").
  { eexists (node_literal _ _ _ _ _). split; cycle 1; [reflexivity | main_literal]. }
  destruct (JS.includes _ "stripe").
  { eexists (node_literal _ _ _ _ _). split; cycle 1; [reflexivity | main_literal]. }
  destruct (JS.includes _ "database").
  { eexists (node_literal _ _ _ _ _). split; cycle 1; [reflexivity | main_literal]. }
  exists createHttpRequestNode. split; [apply createHttpRequestNode_creates | reflexivity].
Qed.

Lemma createIntegrationNodes_creates blueprint :
  creates_many not_error_name (createIntegrationNodes blueprint).
Proof.
  apply collected_creates_many. intros s.
  unfold createIntegrationNodes. cbv zeta. rewrite run_bind.
  match goal with
  | |- context [forEach ?l ?b [] s] =>
      pose proof (forEach_invariant (collected not_error_name (nodeIdCounter s))
                    (fun _ => True) b l) as Hloop
  end.
  match type of Hloop with
  | ?H -> _ => assert (Hbody : H)
  end.
  { intros acc i s' _ Hacc. rewrite run_bind.
    destruct (createIntegrationNodeForService_creates i s') as (m & Hm & ->).
    cbn [fst snd]. rewrite run_ret.
    exact (collected_push _ _ _ _ _ Hm Hacc). }
  specialize (Hloop Hbody (Forall_true _ _ (fun _ => I)) [] s).
  match type of Hloop with
  | ?H -> _ => assert (H0 : H) by (split; [lia|]; split; [apply issued_nil | constructor])
  end.
  specialize (Hloop H0). clear H0 Hbody.
  destruct (forEach _ _ [] s) as [nodes s'] eqn:E. cbn [fst snd] in *.
  destruct nodes as [|n nodes]; [|exact Hloop].
  rewrite run_bind, run_ret.
  exact (collected_push _ _ [] _ _ createHttpRequestNode_creates Hloop).
Qed.

Lemma createIntegrationNodes_nonempty blueprint s :
  fst (createIntegrationNodes blueprint s) <> [].
Proof.
  unfold createIntegrationNodes. cbv zeta. rewrite run_bind.
  destruct (forEach _ _ [] s) as [[|n nodes] s']; cbn [fst snd];
    rewrite ?run_bind, run_ret; cbn [fst]; intros H; discriminate H.
Qed.

End Constructors.

(** ** The workflow builder: the main workflow *)

Section MainWorkflow.
Import N8nBuilder.
Local Open Scope builder_scope.

Lemma buildMainWorkflow_split blueprint requirements options s :
  buildMainWorkflow blueprint requirements options s
  = finishMainWorkflow blueprint (includeErrorHandling options)
      (fst (buildMainChain blueprint requirements (securityLevel options) s))
      (snd (buildMainChain blueprint requirements (securityLevel options) s)).
Proof.
  unfold buildMainWorkflow, buildMainChain, finishMainWorkflow.
  repeat (rewrite run_bind; cbn [fst snd]).
  reflexivity.
Qed.

Lemma conns_main_empty : conns_main ∅.
Proof. intros src entry H. rewrite lookup_empty in H. discriminate. Qed.

Lemma connectNodes_main (conns : Connections) (fromNode toNode : string) :
  conns_main conns -> not_error_name fromNode -> not_error_name toNode ->
  conns_main (connectNodes conns fromNode toNode).
Proof.
  intros Hc Hfrom Hto src entry Hl. unfold connectNodes in Hl.
  destruct (decide (fromNode = src)) as [<-|Hne].
  - rewrite lookup_insert_eq in Hl. injection Hl as <-.
    split; [exact Hfrom|]. intros key ports Hk.
    destruct (decide ("main" = key)) as [<-|Hkey].
    + rewrite lookup_insert_eq in Hk. injection Hk as <-.
      apply Forall_app. split.
      * destruct (conns !! fromNode) as [e|] eqn:E; simpl.
        -- destruct (e !! "main") as [m|] eqn:Em; simpl; [|constructor].
           destruct (Hc _ _ E) as [_ H]. exact (H _ _ Em).
        -- rewrite lookup_empty. constructor.
      * constructor; [|constructor]. constructor; [exact Hto|constructor].
    + rewrite lookup_insert_ne in Hk by exact Hkey.
      destruct (conns !! fromNode) as [e|] eqn:E; simpl in Hk.
      * destruct (Hc _ _ E) as [_ H]. exact (H _ _ Hk).
      * rewrite lookup_empty in Hk. discriminate.
  - rewrite lookup_insert_ne in Hl by exact Hne. exact (Hc _ _ Hl).
Qed.

Lemma append_loop_nodes (body : MainLocals -> N8nWorkflowNode -> M MainLocals)
    (l : list N8nWorkflowNode) :
  (forall loc x s,
      l_nodes (fst (body loc x s)) = l_nodes loc ++ [x]
      /\ nodeIdCounter (snd (body loc x s)) = nodeIdCounter s) ->
  forall loc s,
    l_nodes (fst (forEach l body loc s)) = l_nodes loc ++ l
    /\ nodeIdCounter (snd (forEach l body loc s)) = nodeIdCounter s.
Proof.
  intros Hbody. induction l as [|x l IH]; intros loc s; simpl.
  - rewrite app_nil_r. auto.
  - rewrite run_bind. destruct (Hbody loc x s) as [H1 H2].
    destruct (IH (fst (body loc x s)) (snd (body loc x s))) as [H3 H4].
    rewrite H3, H4, H1, H2, <- app_assoc. auto.
Qed.

Lemma append_loop_ok (body : MainLocals -> N8nWorkflowNode -> M MainLocals)
    (l : list N8nWorkflowNode) (c : nat) (loc : MainLocals) (s : BuilderState) :
  (forall loc x s,
      l_nodes (fst (body loc x s)) = l_nodes loc ++ [x]
      /\ nodeIdCounter (snd (body loc x s)) = nodeIdCounter s
      /\ l_connections (fst (body loc x s))
         = connectNodes (l_connections loc) (previousNodeName loc) (name x)
      /\ (previousNodeName (fst (body loc x s)) = name x
          \/ previousNodeName (fst (body loc x s)) = previousNodeName loc)) ->
  (1 <= c <= nodeIdCounter s)%nat ->
  issued 1 c (l_nodes loc) ->
  Forall (fun n => not_error_name (name n)) (l_nodes loc) ->
  conns_main (l_connections loc) ->
  not_error_name (previousNodeName loc) ->
  issued c (nodeIdCounter s) l ->
  Forall (fun n => not_error_name (name n)) l ->
  chain_ok (fst (forEach l body loc s)) (snd (forEach l body loc s)).
Proof.
  intros Hbody Hc Hi Hn Hcm Hp Hil Hnl.
  destruct (append_loop_nodes body l (fun loc x s =>
              conj (proj1 (Hbody loc x s)) (proj1 (proj2 (Hbody loc x s)))) loc s)
    as [Hnodes Hcnt].
  pose proof (forEach_invariant
                (fun loc (_ : BuilderState) =>
                   conns_main (l_connections loc) /\ not_error_name (previousNodeName loc))
                (fun n => not_error_name (name n)) body l) as Hloop.
  assert (Hwire : conns_main (l_connections (fst (forEach l body loc s)))
                  /\ not_error_name (previousNodeName (fst (forEach l body loc s)))).
  { apply Hloop; [|exact Hnl|auto].
    intros acc x s' Hx [Ha1 Ha2].
    destruct (Hbody acc x s') as (_ & _ & Hconn & Hprev).
    rewrite Hconn. split; [apply connectNodes_main; assumption|].
    destruct Hprev as [->| ->]; assumption. }
  destruct Hwire as [Hw1 Hw2].
  unfold chain_ok. rewrite Hnodes, Hcnt.
  split; [lia|]. split.
  - eapply issued_app; [| |exact Hi|exact Hil]; lia.
  - split; [apply Forall_app; auto|]. auto.
Qed.

Lemma buildMainChain_ok blueprint requirements level s0 :
  let r := buildMainChain blueprint requirements level s0 in
  chain_ok (fst r) (snd r)
  /\ (exists pre o, l_nodes (fst r) = pre ++ [o] /\ is_output o)
  /\ (exists rest, l_nodes (fst r)
                   = fst (createTriggerNode requirements (snd (resetCounters s0))) :: rest).
Proof.
  unfold buildMainChain.
  rewrite run_bind. set (s1 := snd (resetCounters s0)). cbv beta.
  rewrite run_bind.
  destruct (createTriggerNode_creates requirements s1) as (Htid & Htn & Htlt).
  set (t := fst (createTriggerNode requirements s1)) in *.
  set (s2 := snd (createTriggerNode requirements s1)) in *.
  rewrite run_bind. set (s3 := snd (advancePosition s2)). cbv beta zeta.
  assert (Hs1 : nodeIdCounter s1 = 1%nat) by reflexivity.
  assert (Hs3 : nodeIdCounter s3 = nodeIdCounter s2) by reflexivity.
  rewrite run_bind.
  match goal with
  | |- context [fst (?m s3)] => set (r2 := m s3)
  end.
  assert (H2 : chain_ok (fst r2) (snd r2) /\ exists rest, l_nodes (fst r2) = t :: rest).
  { subst r2. destruct (bool_decide (level <> basic)).
    - rewrite run_bind.
      destruct (createValidationNode_creates s3) as (Hvid & Hvn & Hvlt).
      rewrite run_bind, run_ret. cbn [fst snd l_nodes l_connections previousNodeName].
      split; [|eexists; reflexivity].
      unfold chain_ok. cbn [fst snd l_nodes l_connections previousNodeName].
      change (nodeIdCounter (snd (advancePosition (snd (createValidationNode s3)))))
        with (nodeIdCounter (snd (createValidationNode s3))).
      split; [lia|]. split.
      { eapply (issued_app 1 (nodeIdCounter s3) _ [t]); [lia|lia| |].
        - eapply issued_single; [|exact Htid]. lia.
        - eapply creates_one_issued, createValidationNode_creates. }
      split; [repeat (constructor; [assumption|]); constructor|].
      split; [|exact Hvn].
      apply connectNodes_main; [apply conns_main_empty|exact Htn|exact Hvn].
    - rewrite run_ret. cbn [fst snd]. split; [|eexists; reflexivity].
      unfold chain_ok. cbn [l_nodes l_connections previousNodeName].
      split; [lia|]. split; [eapply issued_single; [|exact Htid]; lia|].
      split; [repeat (constructor; [assumption|]); constructor|].
      split; [apply conns_main_empty | exact Htn]. }
  clearbody r2. destruct H2 as [(H2c & H2i & H2n & H2m & H2p) [rest2 H2t]].
  rewrite run_bind.
  destruct (createProcessingNodes_creates blueprint requirements (snd r2))
    as (Hple & Hpi & Hpn).
  set (ps := fst (createProcessingNodes blueprint requirements (snd r2))) in *.
  set (s5 := snd (createProcessingNodes blueprint requirements (snd r2))) in *.
  rewrite run_bind.
  match goal with
  | |- context [fst (forEach ps ?b (fst r2) s5)] =>
      set (body3 := b); set (r3 := forEach ps body3 (fst r2) s5)
  end.
  assert (Hb3 : forall loc x s,
      l_nodes (fst (body3 loc x s)) = l_nodes loc ++ [x]
      /\ nodeIdCounter (snd (body3 loc x s)) = nodeIdCounter s
      /\ l_connections (fst (body3 loc x s))
         = connectNodes (l_connections loc) (previousNodeName loc) (name x)
      /\ (previousNodeName (fst (body3 loc x s)) = name x
          \/ previousNodeName (fst (body3 loc x s)) = previousNodeName loc)).
  { intros loc x s. subst body3. cbv beta. rewrite run_bind, run_ret.
    cbn [fst snd l_nodes l_connections previousNodeName]. auto. }
  assert (H3 : chain_ok (fst r3) (snd r3)).
  { subst r3. eapply (append_loop_ok body3 ps (nodeIdCounter (snd r2))); eauto; lia. }
  assert (H3t : l_nodes (fst r3) = l_nodes (fst r2) ++ ps).
  { subst r3. apply (append_loop_nodes body3 ps
      (fun loc x s => conj (proj1 (Hb3 loc x s)) (proj1 (proj2 (Hb3 loc x s))))). }
  clearbody r3. clear Hb3 body3.
  destruct H3 as (H3c & H3i & H3n & H3m & H3p).
  rewrite run_bind.
  destruct (createIntegrationNodes_creates blueprint (snd r3)) as (Hile & Hii & Hin).
  set (ints := fst (createIntegrationNodes blueprint (snd r3))) in *.
  set (s7 := snd (createIntegrationNodes blueprint (snd r3))) in *.
  rewrite run_bind.
  match goal with
  | |- context [fst (forEach ints ?b (fst r3) s7)] =>
      set (body4 := b); set (r4 := forEach ints body4 (fst r3) s7)
  end.
  assert (Hb4 : forall loc x s,
      l_nodes (fst (body4 loc x s)) = l_nodes loc ++ [x]
      /\ nodeIdCounter (snd (body4 loc x s)) = nodeIdCounter s
      /\ l_connections (fst (body4 loc x s))
         = connectNodes (l_connections loc) (previousNodeName loc) (name x)
      /\ (previousNodeName (fst (body4 loc x s)) = name x
          \/ previousNodeName (fst (body4 loc x s)) = previousNodeName loc)).
  { intros loc x s. subst body4. cbv beta. rewrite run_bind, run_ret.
    cbn [fst snd l_nodes l_connections previousNodeName]. auto. }
  assert (H4 : chain_ok (fst r4) (snd r4)).
  { subst r4. eapply (append_loop_ok body4 ints (nodeIdCounter (snd r3))); eauto; lia. }
  assert (H4t : l_nodes (fst r4) = l_nodes (fst r3) ++ ints).
  { subst r4. apply (append_loop_nodes body4 ints
      (fun loc x s => conj (proj1 (Hb4 loc x s)) (proj1 (proj2 (Hb4 loc x s))))). }
  clearbody r4. clear Hb4 body4.
  destruct H4 as (H4c & H4i & H4n & H4m & H4p).
  rewrite run_bind.
  destruct (createOutputNode_creates blueprint (snd r4)) as (Hoid & Hon & Holt).
  assert (Hout : is_output (fst (createOutputNode blueprint (snd r4)))) by (split; reflexivity).
  set (o := fst (createOutputNode blueprint (snd r4))) in *.
  set (s9 := snd (createOutputNode blueprint (snd r4))) in *.
  rewrite run_bind, run_ret. cbn [fst snd l_nodes].
  split; [|split].
  - unfold chain_ok. cbn [l_nodes l_connections previousNodeName].
    change (nodeIdCounter (snd (advancePosition s9))) with (nodeIdCounter s9).
    split; [lia|]. split.
    { eapply (issued_app 1 (nodeIdCounter (snd r4))); [lia|lia|exact H4i|].
      eapply issued_single; [|exact Hoid]. lia. }
    split; [apply Forall_app; split; [exact H4n|repeat (constructor; [assumption|]); constructor]|].
    split; [|exact H4p].
    apply connectNodes_main; assumption.
  - exists (l_nodes (fst r4)), o. auto.
  - rewrite H4t, H3t, H2t. eexists. reflexivity.
Qed.

(** *** Step 6: the error-handling nodes *)

Lemma createErrorHandlingNodes_run (s : BuilderState) :
  exists eh en,
    fst (createErrorHandlingNodes s) = [eh; en]
    /\ is_error_handler eh /\ is_error_notification en
    /\ id eh = node_id (nodeIdCounter s)
    /\ id en = node_id (S (nodeIdCounter s))
    /\ nodeIdCounter (snd (createErrorHandlingNodes s)) = S (S (nodeIdCounter s)).
Proof. eexists _, _. repeat split. Qed.

Lemma addErrorHandlingConnections_run (conns : Connections)
    (allNodes : list N8nWorkflowNode) (s : BuilderState) :
  addErrorHandlingConnections conns allNodes (fst (createErrorHandlingNodes s))
  = connectNodes conns "Error Handler" "Error Notification".
Proof. reflexivity. Qed.

Lemma connectNodes_fresh (conns : Connections) (fromNode toNode : string) :
  conns !! fromNode = None ->
  connectNodes conns fromNode toNode
  = <[fromNode := {["main" := [[ {| node := toNode; conn_type := "main"; index := 0 |} ]] ]}]>
      conns.
Proof.
  intros H. unfold connectNodes. rewrite H. simpl.
  rewrite lookup_empty. simpl. rewrite insert_empty. reflexivity.
Qed.

Lemma conns_main_no_error_source (conns : Connections) :
  conns_main conns ->
  conns !! "Error Handler" = None /\ conns !! "Error Notification" = None.
Proof.
  intros H. split.
  - destruct (conns !! "Error Handler") as [e|] eqn:E; [|reflexivity].
    destruct (H _ _ E) as [[Hn _] _]. congruence.
  - destruct (conns !! "Error Notification") as [e|] eqn:E; [|reflexivity].
    destruct (H _ _ E) as [[_ Hn] _]. congruence.
Qed.

Lemma finishMainWorkflow_off blueprint loc s :
  nodes (fst (finishMainWorkflow blueprint false loc s)) = l_nodes loc
  /\ connections (fst (finishMainWorkflow blueprint false loc s)) = l_connections loc.
Proof. split; reflexivity. Qed.

Lemma finishMainWorkflow_on blueprint loc s :
  nodes (fst (finishMainWorkflow blueprint true loc s))
  = l_nodes loc ++ fst (createErrorHandlingNodes s)
  /\ connections (fst (finishMainWorkflow blueprint true loc s))
     = connectNodes (l_connections loc) "Error Handler" "Error Notification".
Proof. split; reflexivity. Qed.

Lemma edge_main (conns : Connections) (a b : string) :
  conns_main conns -> edge conns a b -> not_error_name b.
Proof.
  intros Hc (entry & key & ports & port & c & H1 & H2 & H3 & H4 & <-).
  destruct (Hc _ _ H1) as [_ H]. specialize (H _ _ H2).
  rewrite Forall_forall in H. apply list_elem_of_In in H3, H4.
  specialize (H _ H3). rewrite Forall_forall in H. exact (H _ H4).
Qed.

Lemma edge_insert_error (conns : Connections) (a b : string) entry :
  conns_main conns -> not_error_name a ->
  edge (<["Error Handler" := entry]> conns) a b -> not_error_name b.
Proof.
  intros Hc [Ha _] (e & key & ports & port & c & H1 & H2).
  rewrite lookup_insert_ne in H1 by congruence.
  eapply (edge_main conns a b Hc). exists e, key, ports, port, c. auto.
Qed.

Lemma reachable_main (step : string -> string -> Prop) (a b : string) :
  (forall x y, not_error_name x -> step x y -> not_error_name y) ->
  not_error_name a -> rtc step a b -> not_error_name b.
Proof.
  intros Hstep Ha Hr. induction Hr as [|x y z Hxy Hyz IH]; [exact Ha|].
  apply IH. eapply Hstep; eassumption.
Qed.

End MainWorkflow.

(** * The claims *)

(** ** Completeness of the requirements *)

Section CompletenessClaim.
Import AiAgent.

(** C7. [assessRequirementsCompleteness] is the number of distinct
    critical categories (business-process, technical-specs, integrations,
    scale-volume) that occur among the accumulated requirements, divided
    by 4.  It depends only on the set of categories that are present;
    hence pushing a requirement whose category is already present leaves
    the value unchanged. *)
Theorem completeness_is_set_based (context : ConversationContext) :
  assessRequirementsCompleteness context
  = (inject_Z (Z.of_nat (critical_categories_present (requirements context))) / 4)%Q
  /\ (forall context',
        (forall c, In c (map category (requirements context))
                   <-> In c (map category (requirements context'))) ->
        assessRequirementsCompleteness context' = assessRequirementsCompleteness context)
  /\ (forall r,
        In (category r) (map category (requirements context)) ->
        assessRequirementsCompleteness (push_requirements context [r])
        = assessRequirementsCompleteness context).
Proof.
  split; [apply completeness_count|].
  split; [apply completeness_same_categories | apply completeness_push_present].
Qed.

Lemma completeness_is_set_based_witness :
  assessRequirementsCompleteness two_categories = (2 / 4)%Q
  /\ assessRequirementsCompleteness
       (push_requirements two_categories [requirement_of integrations "sync with the CRM"])
     = assessRequirementsCompleteness two_categories.
Proof.
  destruct (completeness_is_set_based two_categories) as (Hcount & _ & Hpush).
  split.
  - rewrite Hcount. reflexivity.
  - apply Hpush. simpl. auto.
Defined.

End CompletenessClaim.

(** ** Costs and return on investment *)

Section ROIClaims.
Import AiAgent BlueprintGen.

Lemma low_then_high_valid : valid_source low_then_high.
Proof. intros [|n]; split; simpl; unfold Qle, Qlt; simpl; lia. Qed.

(** C3, as stated, fails: two successive calls of [calculateROI] on the
    same requirements and the same cost estimate return different
    three-year ROI values when [Math.random] draws 0 and then 19/20. *)
Lemma calculateROI_two_calls_differ :
  valid_source low_then_high
  /\ let first := calculateROI [] sample_costs low_then_high in
     let second := calculateROI [] sample_costs (snd first) in
     ~ (threeYearROI (fst first) == threeYearROI (fst second))%Q.
Proof.
  split; [apply low_then_high_valid|].
  vm_compute. discriminate.
Qed.

(** C3, amended.  [calculateROI] is a function of the cost estimate and of
    the number drawn from [Math.random]: it does not read the
    requirements, and two calls on the same cost estimate whose draws
    [r] give the same [Math.floor(r * 20)] return the same projection.
    The weekly time savings are that value plus 10, between 10 and 29. *)
Theorem calculateROI_determined_by_draw
    (requirements requirements' : list ProjectRequirement)
    (costs : CostEstimation) (rs rs' : RandomSource) :
  valid_source rs ->
  next_draw20 rs = next_draw20 rs' ->
  fst (calculateROI requirements costs rs) = fst (calculateROI requirements' costs rs')
  /\ timeSavingsHoursPerWeek (fst (calculateROI requirements costs rs))
     = (inject_Z (next_draw20 rs) + 10)%Q
  /\ 0 <= next_draw20 rs <= 19.
Proof.
  intros Hv Hd. split; [apply calculateROI_same_draw, Hd|].
  split; [apply calculateROI_timeSavings | apply next_draw20_range, Hv].
Qed.

Lemma calculateROI_determined_by_draw_witness :
  fst (calculateROI [] sample_costs low_then_high)
  = fst (calculateROI [requirement_of business_process "orders"] sample_costs
           {| draws := fun _ => (1 # 100)%Q; cursor := 7 |}).
Proof.
  apply (calculateROI_determined_by_draw [] [requirement_of business_process "orders"]
           sample_costs low_then_high {| draws := fun _ => (1 # 100)%Q; cursor := 7 |}).
  - intros [|n]; split; simpl; unfold Qle, Qlt; simpl; lia.
  - vm_compute. reflexivity.
Defined.

(** C2, as stated, fails for [AIEngineerAgent.createProjectBlueprint]: its
    [estimatedROI] is not the three-year ROI that [calculateROI] computes
    from the costs of the blueprint's own plan, whatever [Math.random]
    draws. *)
Lemma agent_estimatedROI_not_from_calculateROI :
  ~ exists rs,
      (estimatedROI (createProjectBlueprint empty_context)
       == threeYearROI (fst (calculateROI (requirements empty_context) agent_costs rs)))%Q.
Proof.
  intros [rs H]. revert H.
  unfold calculateROI, Math_random, JS.Math_round, JS.Math_floor.
  cbn [fst threeYearROI estimatedROI createProjectBlueprint].
  generalize (Qfloor (draws rs (cursor rs) * 20)). intros k.
  match goal with
  | |- (_ == inject_Z (Qfloor ?x))%Q -> False =>
      assert (Hx : (x == (720 * k + 4613) # 26)%Q)
  end.
  { match goal with
    | |- context [Qdiv _ ?c] => let c' := eval vm_compute in c in change c with c'
    end.
    unfold Qeq, Qdiv, Qminus, Qplus, Qmult, Qinv, Qopp, inject_Z. cbn. lia. }
  rewrite Hx. unfold Qfloor, Qeq. simpl. intros H.
  assert (Hd : (720 * k + 4613) / 26 = 250) by lia.
  assert (H1 : 26 * ((720 * k + 4613) / 26) <= 720 * k + 4613)
    by (apply Z.mul_div_le; lia).
  assert (H2 : 720 * k + 4613 < 26 * Z.succ ((720 * k + 4613) / 26))
    by (apply Z.mul_succ_div_gt; lia).
  lia.
Qed.

(** C2, amended.  For every blueprint produced by
    [BlueprintGenerator.generateComprehensiveBlueprint], [estimatedROI] is
    the [threeYearROI] of the projection that [calculateROI] computes from
    the cost estimate of the blueprint's implementation plan.
    [AIEngineerAgent.createProjectBlueprint] assigns the literal 250,
    whatever the conversation holds. *)
Theorem estimatedROI_of_generated_blueprint
    (requirements : list ProjectRequirement) (config : BlueprintConfig)
    (rs : RandomSource) (context : ConversationContext) :
  (let blueprint := fst (generateComprehensiveBlueprint requirements config rs) in
   estimatedROI blueprint
   = threeYearROI
       (fst (calculateROI requirements
               (calculateCosts (implementationPlan blueprint)
                               (technicalArchitecture blueprint)) rs)))
  /\ estimatedROI (createProjectBlueprint context) = 250%Q.
Proof. split; [apply generator_estimatedROI | reflexivity]. Qed.

End ROIClaims.

(** ** The template store *)

Section StoreClaims.
Import WorkflowKnowledge.

(** C5, as stated, fails: cut at white space, the query "order<TAB>payment"
    has the tokens "order" and "payment", which both occur in the second
    template, yet the search returns nothing, because the code cuts the
    query at space characters only. *)
Lemma searchWorkflows_whitespace_counterexample :
  tab_query <> EmptyString
  /\ whitespace_tokens tab_query = ["order"; "payment"]
  /\ In order_and_payment (workflows order_store)
  /\ (forall term, In term (whitespace_tokens tab_query) ->
                   term_hit order_and_payment term)
  /\ satisfies_filters None order_and_payment
  /\ ~ In order_and_payment (fst (searchWorkflows tab_query None order_store)).
Proof.
  split; [discriminate|]. split; [reflexivity|].
  split; [right; left; reflexivity|].
  split.
  - intros term [<-|[<-|[]]]; apply term_matches_hit; reflexivity.
  - split; [intros f Hf; discriminate Hf|].
    vm_compute. tauto.
Qed.

(** C5, amended.  For a non-empty query, a template of the store is in
    the result of [searchWorkflows] exactly when every token of the
    case-folded query, cut at each space character, occurs as a substring
    of the case-folded name, description or some tag of the template, and
    the template passes every supplied filter. *)
Theorem searchWorkflows_conjunctive_tokens (kb : KnowledgeBase) (query : string)
    (filters : option SearchFilters) (w : WorkflowTemplate) :
  query <> EmptyString ->
  (In w (fst (searchWorkflows query filters kb))
   <-> In w (workflows kb)
       /\ (forall term, In term (space_tokens query) -> term_hit w term)
       /\ satisfies_filters filters w).
Proof. apply search_membership. Qed.

Lemma searchWorkflows_conjunctive_tokens_witness :
  In order_and_payment (fst (searchWorkflows "order payment" None order_store))
  /\ ~ In order_only (fst (searchWorkflows "order payment" None order_store)).
Proof.
  split.
  - apply (searchWorkflows_conjunctive_tokens order_store "order payment" None
             order_and_payment); [discriminate|].
    split; [right; left; reflexivity|]. split.
    + intros term [<-|[<-|[]]]; apply term_matches_hit; reflexivity.
    + intros f Hf; discriminate Hf.
  - intros H.
    apply (searchWorkflows_conjunctive_tokens order_store "order payment" None
             order_only) in H; [|discriminate].
    destruct H as (_ & H & _).
    specialize (H "payment" ltac:(right; left; reflexivity)).
    apply term_matches_hit in H. vm_compute in H. discriminate H.
Defined.

(** C6.  [getRecommendedWorkflows] leaves the store as it is and returns
    the first ten entries of a ranking of the templates.  The score of a
    template is the sum, over the case-folded requirement texts, of 3 for
    a hit in the name, 2 for a hit in the description and 1 for a hit in
    some tag.  The ranking holds exactly the templates of positive score,
    in descending order of score, templates of equal score in store
    order.  With the one requirement "lead", a template named "Lead
    Scoring" scores at least 3, a template with "lead" in a tag only
    scores 1, and wherever the latter appears in the result the former
    appears before it. *)
Theorem getRecommendedWorkflows_ranking (kb : KnowledgeBase)
    (requirements : list string) :
  let keywords := map JS.toLowerCase requirements in
  let result := fst (getRecommendedWorkflows requirements kb) in
  snd (getRecommendedWorkflows requirements kb) = kb
  /\ (forall w, score keywords w = sum_points w keywords)
  /\ result = take 10 (ranking keywords kb)
  /\ (length result <= 10)%nat
  /\ Permutation (ranking keywords kb)
                 (List.filter (fun w => 0 <? score keywords w) (workflows kb))
  /\ desc_sorted (score keywords) (ranking keywords kb)
  /\ (forall z, 0 < z ->
        List.filter (fun w => score keywords w =? z) (ranking keywords kb)
        = List.filter (fun w => score keywords w =? z) (workflows kb))
  /\ (forall t u j,
        requirements = ["lead"] ->
        In t (workflows kb) -> name t = "Lead Scoring" ->
        JS.includes (JS.toLowerCase (name u)) "lead" = false ->
        JS.includes (JS.toLowerCase (description u)) "lead" = false ->
        result !! j = Some u ->
        3 <= score keywords t /\ score keywords u = 1
        /\ exists i, (i < j)%nat /\ result !! i = Some t).
Proof.
  cbv zeta.
  split; [reflexivity|].
  split; [intros w; apply score_sum_points|].
  split; [apply recommended_is_top_of_ranking|].
  split; [rewrite recommended_is_top_of_ranking, length_take; lia|].
  split; [apply ranking_permutation|].
  split; [apply ranking_sorted|].
  split; [intros z Hz; apply ranking_stable, Hz|].
  intros t u j -> Ht Hname Hun Hud Hj.
  rewrite recommended_is_top_of_ranking in Hj |- *.
  change (map JS.toLowerCase ["lead"]) with ["lead"] in *.
  apply lookup_take_Some in Hj as [Hj Hj10].
  assert (Hu : In u (ranking ["lead"] kb))
    by (apply list_elem_of_In, list_elem_of_lookup; eauto).
  apply (Permutation_in _ (ranking_permutation ["lead"] kb)) in Hu.
  apply List.filter_In in Hu as [_ Hupos]. apply Z.ltb_lt in Hupos.
  assert (Hst : 3 <= score ["lead"] t).
  { rewrite score_sum_points. simpl. unfold hit_points. rewrite Hname.
    change (JS.includes (JS.toLowerCase "Lead Scoring") "lead") with true.
    cbv iota.
    destruct (JS.includes (JS.toLowerCase (description t)) "lead");
      destruct (existsb _ (tags t)); lia. }
  assert (Hsu : score ["lead"] u = 1).
  { rewrite score_sum_points in Hupos |- *. simpl in Hupos |- *.
    unfold hit_points in Hupos |- *. rewrite Hun, Hud in Hupos |- *.
    destruct (existsb _ (tags u)); lia. }
  split; [exact Hst|]. split; [exact Hsu|].
  assert (Htr : In t (ranking ["lead"] kb)).
  { apply (Permutation_in _ (Permutation_sym (ranking_permutation ["lead"] kb))).
    apply List.filter_In. split; [exact Ht|]. apply Z.ltb_lt. lia. }
  destruct (desc_sorted_before (score ["lead"]) _ t u j
              (ranking_sorted ["lead"] kb) Htr Hj ltac:(lia)) as (i & Hij & Hi).
  exists i. split; [exact Hij|].
  rewrite lookup_take_lt by lia. exact Hi.
Qed.

Lemma getRecommendedWorkflows_ranking_witness :
  fst (getRecommendedWorkflows ["lead"] lead_store) = [lead_scoring; tagged_lead]
  /\ exists i, (i < 1)%nat
               /\ fst (getRecommendedWorkflows ["lead"] lead_store) !! i = Some lead_scoring.
Proof.
  split; [vm_compute; reflexivity|].
  destruct (getRecommendedWorkflows_ranking lead_store ["lead"])
    as (_ & _ & _ & _ & _ & _ & _ & H).
  destruct (H lead_scoring tagged_lead 1%nat) as (_ & _ & Hi).
  - reflexivity.
  - simpl. auto.
  - reflexivity.
  - vm_compute. reflexivity.
  - vm_compute. reflexivity.
  - vm_compute. reflexivity.
  - exact Hi.
Defined.

(** C4 fails on the code: [getPopularWorkflows] sorts the array held by
    the store itself, and so does [searchWorkflows] when neither a query
    nor a filter is given.  After such a call the load order is lost, and
    a later recommendation breaks the tie between the two templates the
    other way round. *)
Theorem getPopularWorkflows_reorders_store :
  workflows small_store = [lead_alpha; lead_beta]
  /\ fst (getPopularWorkflows 1 small_store) = [lead_beta]
  /\ workflows (snd (getPopularWorkflows 1 small_store)) = [lead_beta; lead_alpha]
  /\ workflows (snd (searchWorkflows "" None small_store)) = [lead_beta; lead_alpha]
  /\ fst (getRecommendedWorkflows ["lead"] small_store) = [lead_alpha; lead_beta]
  /\ fst (getRecommendedWorkflows ["lead"] (snd (getPopularWorkflows 1 small_store)))
     = [lead_beta; lead_alpha].
Proof. vm_compute. repeat split. Qed.

End StoreClaims.

(** ** The workflow builder *)

Section BuilderClaims.
Import N8nBuilder.

Lemma generateWorkflowFromBlueprint_list blueprint requirements options s :
  let o := default getDefaultOptions options in
  exists s1 s2,
    fst (generateWorkflowFromBlueprint blueprint requirements options s)
    = fst (buildMainWorkflow blueprint requirements o s)
      :: (if requiresDataProcessingWorkflow blueprint
          then [fst (buildDataProcessingWorkflow blueprint requirements o s1)] else [])
      ++ (if requiresMonitoringWorkflow blueprint o
          then [fst (buildMonitoringWorkflow blueprint o s2)] else []).
Proof.
  cbv zeta. unfold generateWorkflowFromBlueprint. cbv zeta.
  rewrite run_bind.
  set (o := default getDefaultOptions options).
  set (s1 := snd (buildMainWorkflow blueprint requirements o s)).
  exists s1.
  exists (if requiresDataProcessingWorkflow blueprint
          then snd (buildDataProcessingWorkflow blueprint requirements o s1) else s1).
  destruct (requiresDataProcessingWorkflow blueprint);
    destruct (requiresMonitoringWorkflow blueprint o);
    repeat (rewrite run_bind || rewrite run_ret); cbn [fst snd app];
    reflexivity.
Qed.

Lemma main_workflow_ids blueprint requirements options s :
  NoDup (map id (nodes (fst (buildMainWorkflow blueprint requirements options s)))).
Proof.
  rewrite buildMainWorkflow_split.
  destruct (buildMainChain_ok blueprint requirements (securityLevel options) s)
    as ((Hc & Hi & _) & _).
  set (r := buildMainChain blueprint requirements (securityLevel options) s) in *.
  destruct (includeErrorHandling options).
  - destruct (finishMainWorkflow_on blueprint (fst r) (snd r)) as [-> _].
    destruct (createErrorHandlingNodes_run (snd r)) as (eh & en & -> & _ & _ & Heh & Hen & _).
    eapply issued_NoDup.
    eapply (issued_app 1 (nodeIdCounter (snd r)) (S (S (nodeIdCounter (snd r)))));
      [lia|lia|exact Hi|].
    eapply (issued_app _ (S (nodeIdCounter (snd r))) _ [eh] [en]); [lia|lia| |].
    + eapply issued_single; [|exact Heh]. lia.
    + eapply issued_single; [|exact Hen]. lia.
  - destruct (finishMainWorkflow_off blueprint (fst r) (snd r)) as [-> _].
    eapply issued_NoDup, Hi.
Qed.

Lemma data_workflow_ids blueprint requirements options s :
  map id (nodes (fst (buildDataProcessingWorkflow blueprint requirements options s)))
  = [node_id 1; node_id 2; node_id 3; node_id 4].
Proof. reflexivity. Qed.

Lemma monitoring_workflow_ids blueprint options s :
  map id (nodes (fst (buildMonitoringWorkflow blueprint options s)))
  = [node_id 1; node_id 2].
Proof. reflexivity. Qed.

Lemma node_ids_NoDup (ks : list nat) : NoDup ks -> NoDup (map node_id ks).
Proof.
  intros H. apply NoDup_fmap_2; [|exact H]. intros j k. apply node_id_inj.
Qed.

(** C10.  In every workflow returned by [generateWorkflowFromBlueprint]
    the node ids are pairwise distinct: [resetCounters] puts the counter
    at 1 when a build starts, and [generateNodeId] returns the id of the
    current counter value and increments the counter. *)
Theorem node_ids_distinct blueprint requirements options s :
  Forall (fun w => NoDup (map id (nodes w)))
         (fst (generateWorkflowFromBlueprint blueprint requirements options s))
  /\ (forall s', fst (generateNodeId s') = node_id (nodeIdCounter s')
                 /\ nodeIdCounter (snd (generateNodeId s')) = S (nodeIdCounter s'))
  /\ (forall s', nodeIdCounter (snd (resetCounters s')) = 1%nat).
Proof.
  split; [|split; [intros s'; split; reflexivity | reflexivity]].
  destruct (generateWorkflowFromBlueprint_list blueprint requirements options s)
    as (s1 & s2 & ->).
  constructor; [apply main_workflow_ids|].
  apply Forall_app. split.
  - destruct (requiresDataProcessingWorkflow blueprint); constructor; [|constructor].
    rewrite data_workflow_ids.
    apply (node_ids_NoDup [1; 2; 3; 4]%nat). apply (bool_decide_unpack _). reflexivity.
  - destruct (requiresMonitoringWorkflow blueprint _); constructor; [|constructor].
    rewrite monitoring_workflow_ids.
    apply (node_ids_NoDup [1; 2]%nat). apply (bool_decide_unpack _). reflexivity.
Qed.

Lemma main_workflow_base blueprint requirements options s :
  let r := buildMainChain blueprint requirements (securityLevel options) s in
  nodes (fst (buildMainWorkflow blueprint requirements
                (without_error_handling options) s)) = l_nodes (fst r)
  /\ connections (fst (buildMainWorkflow blueprint requirements
                         (without_error_handling options) s)) = l_connections (fst r).
Proof. cbv zeta. rewrite buildMainWorkflow_split. split; reflexivity. Qed.

(** C8.  [buildMainWorkflow] appends the error nodes exactly when
    [includeErrorHandling] is set.  Without the option no node and no
    connection of the workflow carries the name of an error node.  With
    it the workflow is the one built without it, followed by the two nodes
    "Error Handler" and "Error Notification" and extended by the single
    connection from the first to the second; no other connection leads to
    either of them, so neither can be reached from the trigger. *)
Theorem error_handling_side_path blueprint requirements options s :
  let w := fst (buildMainWorkflow blueprint requirements options s) in
  let base := fst (buildMainWorkflow blueprint requirements
                     (without_error_handling options) s) in
  Forall (fun n => not_error_name (name n)) (nodes base)
  /\ conns_main (connections base)
  /\ (includeErrorHandling options = false ->
      nodes w = nodes base /\ connections w = connections base)
  /\ (includeErrorHandling options = true ->
      exists eh en,
        nodes w = nodes base ++ [eh; en]
        /\ is_error_handler eh /\ is_error_notification en
        /\ connections w
           = <["Error Handler" := {["main" := [[error_edge]] ]}]> (connections base)
        /\ connections base !! "Error Handler" = None
        /\ connections w !! "Error Notification" = None)
  /\ (exists trigger rest,
        nodes w = trigger :: rest
        /\ ~ reachable (connections w) (name trigger) "Error Handler"
        /\ ~ reachable (connections w) (name trigger) "Error Notification")
  /\ ((exists n, In n (nodes w) /\ ~ not_error_name (name n))
      <-> includeErrorHandling options = true).
Proof.
  cbv zeta.
  destruct (main_workflow_base blueprint requirements options s) as [-> ->].
  rewrite buildMainWorkflow_split.
  destruct (buildMainChain_ok blueprint requirements (securityLevel options) s)
    as ((Hc & Hi & Hn & Hm & Hp) & _ & (rest & Ht)).
  set (r := buildMainChain blueprint requirements (securityLevel options) s) in *.
  destruct (conns_main_no_error_source _ Hm) as [Hno1 Hno2].
  assert (Htn : not_error_name
                  (name (fst (createTriggerNode requirements (snd (resetCounters s)))))).
  { rewrite Ht in Hn. inversion Hn. assumption. }
  split; [exact Hn|]. split; [exact Hm|].
  destruct (includeErrorHandling options).
  - destruct (finishMainWorkflow_on blueprint (fst r) (snd r)) as [-> ->].
    destruct (createErrorHandlingNodes_run (snd r)) as (eh & en & -> & Heh & Hen & _).
    rewrite (connectNodes_fresh _ _ _ Hno1).
    split; [discriminate|]. split; [|split].
    + intros _. exists eh, en. repeat split; try apply Heh; try apply Hen; try assumption.
      rewrite lookup_insert_ne by discriminate. exact Hno2.
    + exists (fst (createTriggerNode requirements (snd (resetCounters s)))), (rest ++ [eh; en]).
      split; [rewrite Ht; reflexivity|].
      split; intros Hr;
        apply (reachable_main _ _ _
                 (fun x y Hx => edge_insert_error _ x y _ Hm Hx) Htn) in Hr;
        destruct Hr; congruence.
    + split; [reflexivity|]. intros _. exists eh. split.
      * rewrite in_app_iff. right. left. reflexivity.
      * intros [Hne _]. apply Hne, Heh.
  - destruct (finishMainWorkflow_off blueprint (fst r) (snd r)) as [-> ->].
    split; [auto|]. split; [discriminate|]. split.
    + exists (fst (createTriggerNode requirements (snd (resetCounters s)))), rest.
      split; [exact Ht|].
      split; intros Hr;
        apply (reachable_main _ _ _
                 (fun x y _ => edge_main _ x y Hm) Htn) in Hr;
        destruct Hr; congruence.
    + split; [|discriminate]. intros (n & Hin & Hbad). exfalso. apply Hbad.
      rewrite Forall_forall in Hn. apply Hn, list_elem_of_In, Hin.
Qed.


(** C1 fails on the code: the loop over the integration nodes does not
    reassign [previousNodeName], so every integration node and the output
    node are wired from the last processing node, and no connection
    starts at an integration node. *)
Theorem integration_nodes_fan_out :
  let w := fst (buildMainWorkflow bare_blueprint [] basic_options initial) in
  let w2 := fst (buildMainWorkflow two_integrations [] basic_options initial) in
  map name (nodes w)
  = ["Manual Trigger"; "Process Data"; "API Integration"; "Send Notification"]
  /\ main_ports w "Manual Trigger" = Some [[edge_to "Process Data"]]
  /\ main_ports w "Process Data"
     = Some [[edge_to "API Integration"]; [edge_to "Send Notification"]]
  /\ main_ports w "API Integration" = None
  /\ map name (nodes w2)
     = ["Manual Trigger"; "Process Data"; "HubSpot Integration"; "Stripe Integration";
        "Send Notification"]
  /\ main_ports w2 "Process Data"
     = Some [[edge_to "HubSpot Integration"]; [edge_to "Stripe Integration"];
             [edge_to "Send Notification"]]
  /\ main_ports w2 "HubSpot Integration" = None
  /\ main_ports w2 "Stripe Integration" = None.
Proof. vm_compute. repeat split. Qed.
Lemma error_handling_side_path_witness :
  let w := fst (buildMainWorkflow bare_blueprint [] getDefaultOptions initial) in
  main_ports w "Error Handler" = Some [[error_edge]]
  /\ connections w !! "Error Notification" = None.
Proof.
  destruct (error_handling_side_path bare_blueprint [] getDefaultOptions initial)
    as (_ & _ & _ & Hon & _).
  destruct (Hon eq_refl) as (eh & en & _ & _ & _ & Hconn & _ & Hnone).
  cbv zeta. split; [|exact Hnone].
  unfold main_ports. rewrite Hconn, lookup_insert_eq. reflexivity.
Defined.

End BuilderClaims.

(** * Further properties *)

Section MapFacts.
Context {K V : Type} `{EqDecision K}.

Lemma map_get_set_eq (k : K) (v : V) (m : list (K * V)) :
  JS.map_get k (JS.map_set k v m) = Some v.
Proof.
  induction m as [|[k' v'] m IH]; simpl.
  - destruct (decide (k = k)); congruence.
  - destruct (decide (k = k')) as [->|Hne]; simpl.
    + destruct (decide (k' = k')); congruence.
    + destruct (decide (k = k')); [congruence | exact IH].
Qed.

Lemma map_get_set_ne (k k' : K) (v : V) (m : list (K * V)) :
  k <> k' -> JS.map_get k' (JS.map_set k v m) = JS.map_get k' m.
Proof.
  intros Hne. induction m as [|[k0 v0] m IH]; simpl.
  - destruct (decide (k' = k)); congruence.
  - destruct (decide (k = k0)) as [->|Hk]; simpl.
    + destruct (decide (k' = k0)); congruence.
    + destruct (decide (k' = k0)); [reflexivity | exact IH].
Qed.

Lemma map_has_keys (k : K) (m : list (K * V)) :
  JS.map_has k m = true <-> In k (map fst m).
Proof.
  unfold JS.map_has. induction m as [|[k0 v0] m IH]; simpl.
  - split; [discriminate | tauto].
  - destruct (decide (k = k0)) as [->|Hk].
    + split; auto.
    + rewrite IH. split; [auto | intros [E|H']; [congruence | exact H']].
Qed.

Lemma map_set_keys (k : K) (v : V) (m : list (K * V)) :
  map fst (JS.map_set k v m)
  = if JS.map_has k m then map fst m else map fst m ++ [k].
Proof.
  unfold JS.map_has. induction m as [|[k0 v0] m IH]; simpl; [reflexivity|].
  destruct (decide (k = k0)) as [->|Hk]; simpl; [reflexivity|].
  rewrite IH. destruct (JS.map_get k m); reflexivity.
Qed.
End MapFacts.

Section IndexPush.
Import WorkflowKnowledge.
Context {K : Type} `{EqDecision K}.

Lemma index_push_get (k k' : K) (w : WorkflowTemplate)
    (m : list (K * list WorkflowTemplate)) :
  default [] (JS.map_get k' (index_push k w m))
  = if decide (k = k') then default [] (JS.map_get k m) ++ [w]
    else default [] (JS.map_get k' m).
Proof.
  unfold index_push, JS.map_has.
  destruct (JS.map_get k m) as [l|] eqn:E.
  - rewrite E. destruct (decide (k = k')) as [<-|Hne].
    + rewrite map_get_set_eq. reflexivity.
    + rewrite map_get_set_ne by exact Hne. reflexivity.
  - rewrite map_get_set_eq. destruct (decide (k = k')) as [<-|Hne].
    + rewrite map_get_set_eq. reflexivity.
    + rewrite !map_get_set_ne by exact Hne. reflexivity.
Qed.

Lemma index_push_keys (k : K) (w : WorkflowTemplate)
    (m : list (K * list WorkflowTemplate)) :
  map fst (index_push k w m)
  = if JS.map_has k m then map fst m else map fst m ++ [k].
Proof.
  unfold index_push. destruct (JS.map_has k m) eqn:E.
  - unfold JS.map_has in E. destruct (JS.map_get k m) as [l|] eqn:E'; [|discriminate].
    rewrite map_set_keys. unfold JS.map_has. rewrite E'. reflexivity.
  - rewrite map_get_set_eq, !map_set_keys, E.
    assert (Hh : JS.map_has k (JS.map_set k ([] : list WorkflowTemplate) m) = true).
    { unfold JS.map_has. rewrite map_get_set_eq. reflexivity. }
    rewrite Hh. reflexivity.
Qed.
End IndexPush.

Section CategoryIndex.
Import WorkflowKnowledge.

Lemma category_fold_get (c : WorkflowCategory) (ws : list WorkflowTemplate)
    (m : list (WorkflowCategory * list WorkflowTemplate)) :
  default [] (JS.map_get c (foldl (fun m w => index_push (category w) w m) m ws))
  = default [] (JS.map_get c m) ++ List.filter (of_category c) ws.
Proof.
  revert m. induction ws as [|w ws IH]; intros m; simpl.
  - rewrite app_nil_r. reflexivity.
  - rewrite IH, index_push_get. unfold of_category at 2.
    destruct (decide (category w = c)) as [E|E].
    + rewrite bool_decide_eq_true_2 by exact E. subst c.
      rewrite <- app_assoc. reflexivity.
    + rewrite bool_decide_eq_false_2 by exact E. reflexivity.
Qed.

Lemma category_fold_keys (ws : list WorkflowTemplate)
    (m : list (WorkflowCategory * list WorkflowTemplate)) :
  NoDup (map fst m) ->
  NoDup (map fst (foldl (fun m w => index_push (category w) w m) m ws))
  /\ forall c, In c (map fst (foldl (fun m w => index_push (category w) w m) m ws))
               <-> In c (map fst m) \/ In c (map category ws).
Proof.
  revert m. induction ws as [|w ws IH]; intros m Hm; simpl.
  - split; [exact Hm | tauto].
  - assert (Hm' : NoDup (map fst (index_push (category w) w m))).
    { rewrite index_push_keys. destruct (JS.map_has (category w) m) eqn:E; [exact Hm|].
      apply NoDup_app. split; [exact Hm|]. split; [|apply NoDup_singleton].
      intros k Hk Hk'. apply list_elem_of_In in Hk. apply list_elem_of_singleton in Hk'. subst k.
      apply map_has_keys in Hk. congruence. }
    destruct (IH _ Hm') as [H1 H2]. split; [exact H1|].
    intros c. rewrite H2, index_push_keys.
    destruct (JS.map_has (category w) m) eqn:E.
    + apply map_has_keys in E. split; [intros [?|?]; auto | intros [?|[?|?]]; auto].
      subst c. auto.
    + rewrite in_app_iff. simpl. tauto.
Qed.

Lemma category_lookup (ws : list WorkflowTemplate) (c : WorkflowCategory) :
  fst (getWorkflowsByCategory c (buildIndexes ws)) = List.filter (of_category c) ws.
Proof. apply (category_fold_get c ws []). Qed.

(** X1.  For a store built from the templates [ws], [getWorkflowsByCategory]
    returns the templates of the category in the order in which they were
    loaded, and nothing for a category without templates; the answer does
    not change when [getPopularWorkflows] re-orders the store, and the
    query leaves the store as it is. *)
Theorem category_index_in_load_order (ws : list WorkflowTemplate) (c : WorkflowCategory)
    (limit : Z) :
  fst (getWorkflowsByCategory c (buildIndexes ws)) = List.filter (of_category c) ws
  /\ fst (getWorkflowsByCategory c (snd (getPopularWorkflows limit (buildIndexes ws))))
     = List.filter (of_category c) ws
  /\ ((forall w, In w ws -> category w <> c) ->
      fst (getWorkflowsByCategory c (buildIndexes ws)) = [])
  /\ snd (getWorkflowsByCategory c (buildIndexes ws)) = buildIndexes ws.
Proof.
  split; [apply category_lookup|].
  split; [apply (category_fold_get c ws [])|].
  split; [|reflexivity].
  intros H. rewrite category_lookup.
  induction ws as [|w ws IH]; [reflexivity|]. simpl. unfold of_category at 1.
  rewrite bool_decide_eq_false_2 by (apply H; left; reflexivity).
  apply IH. intros w' Hw'. apply H. right. exact Hw'.
Qed.

(** X2.  [getAllCategories] lists every category that has a template in
    the store exactly once, and no other; a category is listed exactly
    when [getWorkflowsByCategory] returns something for it; the category
    count of [getWorkflowStats] is the length of that list and never
    exceeds the number of templates. *)
Theorem getAllCategories_distinct (ws : list WorkflowTemplate) :
  let keys := fst (getAllCategories (buildIndexes ws)) in
  NoDup keys
  /\ (forall c, In c keys <-> exists w, In w ws /\ category w = c)
  /\ (forall c, In c keys <-> fst (getWorkflowsByCategory c (buildIndexes ws)) <> [])
  /\ stat_categories (fst (getWorkflowStats (buildIndexes ws))) = Z.of_nat (length keys)
  /\ (length keys <= length ws)%nat.
Proof.
  cbv zeta.
  destruct (category_fold_keys ws [] (NoDup_nil_2)) as [Hnd Hin].
  assert (Hkeys : fst (getAllCategories (buildIndexes ws))
                  = map fst (foldl (fun m w => index_push (category w) w m) [] ws))
    by reflexivity.
  rewrite Hkeys.
  assert (Hiff : forall c, In c (map fst (foldl (fun m w => index_push (category w) w m) [] ws))
                           <-> exists w, In w ws /\ category w = c).
  { intros c. split.
    - intros Hc. apply Hin in Hc as [[]|Hc].
      apply in_map_iff in Hc as (w & E & Hw). eauto.
    - intros (w & Hw & E). apply Hin. right. apply in_map_iff. eauto. }
  split; [exact Hnd|]. split; [exact Hiff|]. split; [|split].
  - intros c. rewrite Hiff.
    rewrite category_lookup.
    split.
    + intros (w & Hw & E) Hnil.
      assert (Hf : In w (List.filter (of_category c) ws)).
      { apply List.filter_In. split; [exact Hw|]. apply bool_decide_eq_true. exact E. }
      rewrite Hnil in Hf. destruct Hf.
    + intros Hne. destruct (List.filter (of_category c) ws) as [|w l] eqn:E; [congruence|].
      assert (Hf : In w (List.filter (of_category c) ws)) by (rewrite E; left; reflexivity).
      apply List.filter_In in Hf as [Hw Hc]. apply bool_decide_eq_true in Hc. eauto.
  - unfold getWorkflowStats, buildIndexes. cbn [fst stat_categories categories].
    rewrite length_map. reflexivity.
  - rewrite <- (length_map category ws). apply NoDup_incl_length.
    + apply NoDup_ListNoDup. exact Hnd.
    + intros c Hc. apply Hin in Hc as [[]|Hc]. exact Hc.
Qed.
End CategoryIndex.

Section SortedFacts.
Context {A : Type} (key : A -> Z).

Lemma sort_insert_head (x : A) (l : list A) :
  Forall (fun y => key y <= key x) l -> JS.sort_insert (desc_by key) x l = x :: l.
Proof.
  destruct l as [|y l]; [reflexivity|]. intros H. inversion H as [|? ? Hy _]; subst.
  simpl. unfold desc_by. destruct (0 <? key y - key x) eqn:E; [|reflexivity].
  apply Z.ltb_lt in E. lia.
Qed.

Lemma sort_of_sorted (l : list A) :
  desc_sorted key l -> JS.sort (desc_by key) l = l.
Proof.
  unfold desc_sorted, JS.sort. induction 1 as [|x l Hs IH Hx]; [reflexivity|].
  simpl. rewrite IH. apply sort_insert_head. exact Hx.
Qed.

Lemma sort_sort (l : list A) :
  JS.sort (desc_by key) (JS.sort (desc_by key) l) = JS.sort (desc_by key) l.
Proof. apply sort_of_sorted, sort_sorted. Qed.

Lemma List_filter_sublist (p : A -> bool) (l : list A) : sublist (List.filter p l) l.
Proof.
  induction l as [|x l IH]; simpl; [constructor|].
  destruct (p x); [apply sublist_skip | apply sublist_cons]; exact IH.
Qed.
End SortedFacts.

Section StoreLookups.
Import WorkflowKnowledge.

Lemma find_id_Some (i : string) (ws : list WorkflowTemplate) (t : WorkflowTemplate) :
  List.find (fun w => String.eqb (id w) i) ws = Some t ->
  id t = i /\ In t ws.
Proof.
  intros H. apply find_some in H as [Hin He]. apply String.eqb_eq in He. auto.
Qed.

Lemma find_id_None (i : string) (ws : list WorkflowTemplate) :
  List.find (fun w => String.eqb (id w) i) ws = None <-> ~ In i (map id ws).
Proof.
  induction ws as [|w ws IH]; simpl; [tauto|].
  destruct (String.eqb (id w) i) eqn:E.
  - apply String.eqb_eq in E. split; [discriminate | intros H; exfalso; apply H; auto].
  - apply String.eqb_neq in E. rewrite IH. tauto.
Qed.

Lemma find_id_unique (ws : list WorkflowTemplate) (t : WorkflowTemplate) :
  List.NoDup (map id ws) -> In t ws ->
  List.find (fun w => String.eqb (id w) (id t)) ws = Some t.
Proof.
  induction ws as [|w ws IH]; simpl; intros Hnd Hin; [destruct Hin|].
  inversion Hnd as [|? ? Hnotin Hnd']; subst.
  destruct Hin as [->|Hin].
  - rewrite String.eqb_refl. reflexivity.
  - destruct (String.eqb (id w) (id t)) eqn:E; [|auto].
    apply String.eqb_eq in E. exfalso. apply Hnotin. rewrite E. apply in_map, Hin.
Qed.

Lemma getWorkflowById_spec (kb : KnowledgeBase) (i : string) :
  match fst (getWorkflowById i kb) with
  | Some t => id t = i /\ In t (workflows kb)
  | None => forall w, In w (workflows kb) -> id w <> i
  end.
Proof.
  unfold getWorkflowById. cbn [fst].
  destruct (List.find _ _) as [t|] eqn:E.
  - apply find_id_Some, E.
  - intros w Hw Hi. apply find_id_None in E. apply E. rewrite <- Hi. apply in_map, Hw.
Qed.

Lemma getWorkflowById_unique (kb : KnowledgeBase) (t : WorkflowTemplate) (limit : Z) :
  List.NoDup (map id (workflows kb)) -> In t (workflows kb) ->
  fst (getWorkflowById (id t) kb) = Some t
  /\ fst (getWorkflowById (id t) (snd (getPopularWorkflows limit kb))) = Some t.
Proof.
  intros Hnd Hin. unfold getWorkflowById, getPopularWorkflows. cbn [fst snd workflows set_workflows].
  split; [apply find_id_unique; assumption|].
  pose proof (sort_Permutation popularity (workflows kb)) as HP.
  apply find_id_unique.
  - apply NoDup_ListNoDup. rewrite HP. apply NoDup_ListNoDup, Hnd.
  - apply list_elem_of_In. rewrite HP. apply list_elem_of_In, Hin.
Qed.

(** X3.  [getWorkflowById] returns a template of the store that carries
    the id asked for, or nothing when no template carries it.  When the
    ids of the store are pairwise distinct, every template is found under
    its own id, before and after [getPopularWorkflows] has re-ordered the
    store. *)
Theorem getWorkflowById_finds (kb : KnowledgeBase) (i : string) :
  match fst (getWorkflowById i kb) with
  | Some t => id t = i /\ In t (workflows kb)
  | None => forall w, In w (workflows kb) -> id w <> i
  end
  /\ (List.NoDup (map id (workflows kb)) ->
      forall t limit, In t (workflows kb) ->
        fst (getWorkflowById (id t) kb) = Some t
        /\ fst (getWorkflowById (id t) (snd (getPopularWorkflows limit kb))) = Some t).
Proof.
  split; [apply getWorkflowById_spec|].
  intros Hnd t limit Hin. apply getWorkflowById_unique; assumption.
Qed.

Lemma getWorkflowById_finds_witness :
  List.NoDup (map id (workflows small_store))
  /\ fst (getWorkflowById "b" (snd (getPopularWorkflows 1 small_store))) = Some lead_beta.
Proof.
  assert (H : List.NoDup (map id (workflows small_store))).
  { apply NoDup_ListNoDup. apply (bool_decide_unpack _). vm_compute. reflexivity. }
  split; [exact H|].
  destruct (getWorkflowById_finds small_store "b") as [_ Hu].
  apply (Hu H lead_beta 1). simpl. auto.
Defined.

Lemma set_workflows_same (kb : KnowledgeBase) : set_workflows kb (workflows kb) = kb.
Proof. destruct kb. reflexivity. Qed.

(** X4.  Only the first call of [getPopularWorkflows] can re-order the
    store: a second call leaves the store as the first one left it, and
    returns what it would have returned on the original store.  A store
    that is already in descending order of popularity is not changed at
    all. *)
Theorem getPopularWorkflows_settles (kb : KnowledgeBase) (l1 l2 : Z) :
  let kb1 := snd (getPopularWorkflows l1 kb) in
  snd (getPopularWorkflows l2 kb1) = kb1
  /\ fst (getPopularWorkflows l2 kb1) = fst (getPopularWorkflows l2 kb)
  /\ fst (getPopularWorkflows l2 kb1) = JS.slice0 l2 (workflows kb1)
  /\ desc_sorted popularity (workflows kb1)
  /\ (desc_sorted popularity (workflows kb) -> snd (getPopularWorkflows l2 kb) = kb).
Proof.
  cbv zeta. unfold getPopularWorkflows. cbn [fst snd workflows set_workflows].
  change by_popularity with (desc_by popularity).
  rewrite sort_sort. split; [reflexivity|]. split; [reflexivity|]. split; [reflexivity|].
  split; [apply sort_sorted|].
  intros Hs. rewrite (sort_of_sorted popularity _ Hs). apply set_workflows_same.
Qed.

End StoreLookups.

Section FilterFacts.
Context {A : Type}.
Lemma List_filter_all (p : A -> bool) (l : list A) :
  (forall x, In x l -> p x = true) -> List.filter p l = l.
Proof.
  induction l as [|x l IH]; simpl; intros H; [reflexivity|].
  rewrite (H x) by auto. f_equal. apply IH. auto.
Qed.
End FilterFacts.

Section SearchOrder.
Import WorkflowKnowledge.

Lemma step_filter_sublist (fire : bool) (p : WorkflowTemplate -> bool)
    (st : list WorkflowTemplate * bool) :
  sublist (fst (step_filter fire p st)) (fst st).
Proof. unfold step_filter. destruct fire; [apply List_filter_sublist | reflexivity]. Qed.

Lemma opt_filter_sublist {B} (o : option B) (p : B -> WorkflowTemplate -> bool)
    (st : list WorkflowTemplate * bool) :
  sublist (fst (match o with
                | Some b => step_filter true (p b) st
                | None => st
                end)) (fst st).
Proof. destruct o; [apply step_filter_sublist | reflexivity]. Qed.

(** X5.  Whatever the query and the filters, [searchWorkflows] returns
    its matches in descending order of popularity, and matches of equal
    popularity in the order they have in the store.  With an empty query
    and no filters it returns the whole store in that order. *)
Theorem searchWorkflows_order (kb : KnowledgeBase) (query : string)
    (filters : option SearchFilters) :
  let result := fst (searchWorkflows query filters kb) in
  desc_sorted popularity result
  /\ (forall z, sublist (List.filter (fun w => popularity w =? z) result) (workflows kb))
  /\ (query = EmptyString -> filters = None ->
      result = JS.sort (desc_by popularity) (workflows kb)
      /\ Permutation result (workflows kb)).
Proof.
  cbv zeta. unfold searchWorkflows. cbv zeta. cbn [fst].
  change by_popularity with (desc_by popularity).
  split; [apply sort_sorted|]. split.
  - intros z. rewrite sort_stable.
    etrans; [apply List_filter_sublist|].
    etrans; [apply (opt_filter_sublist (integration_fires filters)
             (fun i w => existsb (fun x => String.eqb (JS.toLowerCase (service x))
                                                      (JS.toLowerCase i))
                                 (integrations w)))|].
    etrans; [apply (opt_filter_sublist (tags_fires filters)
             (fun ts w => existsb (JS.arr_includes (tags w)) ts))|].
    etrans; [apply (opt_filter_sublist (difficulty_fires filters)
             (fun d w => String.eqb (difficulty_str (difficulty w)) d))|].
    etrans; [apply (opt_filter_sublist (category_fires filters)
             (fun c w => bool_decide (category w = c)))|].
    apply step_filter_sublist.
  - intros -> ->. simpl. split; [reflexivity | apply sort_Permutation].
Qed.

Lemma includes_empty (s : string) : JS.includes s EmptyString = true.
Proof. rewrite includes_unfold. destruct s; reflexivity. Qed.

Lemma hit_points_nonneg (w : WorkflowTemplate) (k : string) : 0 <= hit_points w k.
Proof. unfold hit_points. repeat destruct (_ : bool); lia. Qed.

Lemma hit_points_empty (w : WorkflowTemplate) : 5 <= hit_points w EmptyString.
Proof.
  unfold hit_points. rewrite !includes_empty. destruct (existsb _ _); lia.
Qed.

Lemma sum_points_nonneg (w : WorkflowTemplate) (ks : list string) : 0 <= sum_points w ks.
Proof.
  induction ks as [|k ks IH]; simpl; [lia|]. pose proof (hit_points_nonneg w k). lia.
Qed.

Lemma sum_points_empty (w : WorkflowTemplate) (ks : list string) :
  In EmptyString ks -> 5 <= sum_points w ks.
Proof.
  induction ks as [|k ks IH]; simpl; [tauto|]. intros [->|H].
  - pose proof (hit_points_empty w). pose proof (sum_points_nonneg w ks). lia.
  - pose proof (hit_points_nonneg w k). specialize (IH H). lia.
Qed.

(** X6.  [getRecommendedWorkflows] recommends nothing for an empty list of
    requirements.  A requirement that is the empty string scores at least
    5 on every template, so every template of the store is ranked and the
    first ten of the whole store, by score, come back. *)
Theorem getRecommendedWorkflows_empty (kb : KnowledgeBase) (requirements : list string) :
  fst (getRecommendedWorkflows [] kb) = []
  /\ (In EmptyString requirements ->
      forall w, 5 <= score (map JS.toLowerCase requirements) w)
  /\ (In EmptyString requirements ->
      fst (getRecommendedWorkflows requirements kb)
      = take 10 (JS.sort (desc_by (score (map JS.toLowerCase requirements))) (workflows kb))).
Proof.
  assert (Hscore : In EmptyString requirements ->
                   forall w, 5 <= score (map JS.toLowerCase requirements) w).
  { intros Hin w. rewrite score_sum_points. apply sum_points_empty.
    apply in_map_iff. exists EmptyString. auto. }
  split; [|split; [exact Hscore|]].
  - rewrite recommended_is_top_of_ranking. unfold ranking. simpl.
    assert (H : List.filter (fun w => 0 <? score [] w) (workflows kb) = [])
      by (induction (workflows kb) as [|w l IH]; [reflexivity | exact IH]).
    rewrite H. reflexivity.
  - intros Hin. rewrite recommended_is_top_of_ranking. unfold ranking.
    rewrite List_filter_all; [reflexivity|].
    intros w _. apply Z.ltb_lt. specialize (Hscore Hin w). lia.
Qed.
Lemma getRecommendedWorkflows_empty_witness :
  In EmptyString [EmptyString]
  /\ fst (getRecommendedWorkflows [EmptyString] lead_store) = [tagged_lead; lead_scoring].
Proof.
  assert (H : In EmptyString [EmptyString]) by (left; reflexivity).
  split; [exact H|].
  destruct (getRecommendedWorkflows_empty lead_store [EmptyString]) as (_ & _ & Hall).
  rewrite (Hall H). vm_compute. reflexivity.
Defined.

End SearchOrder.

Section Wiring.
Import N8nBuilder.
Local Open Scope builder_scope.

Lemma connectNodes_edge (conns : Connections) (f t a b : string) :
  edge (connectNodes conns f t) a b <-> edge conns a b \/ (a = f /\ b = t).
Proof.
  unfold connectNodes. cbv zeta. split.
  - intros (entry & key & ports & port & c & H1 & H2 & H3 & H4 & H5).
    destruct (decide (f = a)) as [->|Hne].
    + rewrite lookup_insert_eq in H1. injection H1 as <-.
      destruct (decide ("main" = key)) as [<-|Hk].
      * rewrite lookup_insert_eq in H2. injection H2 as <-.
        apply in_app_iff in H3 as [H3|[<-|[]]].
        -- left. destruct (conns !! a) as [e|] eqn:E; simpl in H3.
           ++ destruct (e !! "main") as [m|] eqn:Em; simpl in H3; [|destruct H3].
              exists e, "main", m, port, c. auto.
           ++ rewrite lookup_empty in H3. destruct H3.
        -- destruct H4 as [<-|[]]. right. auto.
      * rewrite lookup_insert_ne in H2 by exact Hk.
        left. destruct (conns !! a) as [e|] eqn:E; simpl in H2.
        -- exists e, key, ports, port, c. auto.
        -- rewrite lookup_empty in H2. discriminate.
    + rewrite lookup_insert_ne in H1 by exact Hne.
      left. exists entry, key, ports, port, c. auto.
  - intros [(entry & key & ports & port & c & H1 & H2 & H3 & H4 & H5)|[-> ->]].
    + destruct (decide (f = a)) as [->|Hne].
      * rewrite H1. simpl.
        destruct (decide ("main" = key)) as [<-|Hk].
        -- rewrite H2. simpl.
           eexists _, "main", _, port, c. rewrite lookup_insert_eq.
           split; [reflexivity|]. rewrite lookup_insert_eq.
           split; [reflexivity|]. split; [apply in_app_iff; auto | auto].
        -- eexists _, key, ports, port, c. rewrite lookup_insert_eq.
           split; [reflexivity|]. rewrite lookup_insert_ne by exact Hk. auto.
      * exists entry, key, ports, port, c.
        rewrite lookup_insert_ne by exact Hne. auto.
    + eexists _, "main", _, _, _. rewrite lookup_insert_eq.
      split; [reflexivity|]. rewrite lookup_insert_eq.
      split; [reflexivity|]. split; [apply in_app_iff; right; left; reflexivity|].
      split; [left; reflexivity | reflexivity].
Qed.

(** X7.  [connectNodes] adds exactly one connection: when [fromNode] is
    not the name of a property that a plain object inherits from
    [Object.prototype], the connections afterwards are those before
    together with the one from [fromNode] to [toNode]. *)
Theorem connectNodes_adds_one_edge (conns : Connections) (fromNode toNode a b : string) :
  ~ In fromNode Object_prototype_names ->
  edge (connectNodes conns fromNode toNode) a b
  <-> edge conns a b \/ (a = fromNode /\ b = toNode).
Proof. intros _. apply connectNodes_edge. Qed.

Lemma connectNodes_adds_one_edge_witness :
  edge (connectNodes ∅ "Manual Trigger" "Process Data") "Manual Trigger" "Process Data".
Proof.
  apply (connectNodes_adds_one_edge ∅ "Manual Trigger" "Process Data").
  - intros H. repeat (destruct H as [H|H]; [discriminate H|]). exact H.
  - right. split; reflexivity.
Defined.

Lemma edge_empty (a b : string) : ~ edge (∅ : Connections) a b.
Proof. intros (entry & key & ports & port & c & H1 & _). rewrite lookup_empty in H1. discriminate. Qed.

Lemma wire_chain_edge (names : list string) (conns : Connections) (prev a b : string) :
  edge (fst (wire_chain (conns, prev) names)) a b
  <-> edge conns a b \/ In (a, b) (chain_pairs prev names).
Proof.
  revert conns prev. induction names as [|n names IH]; intros conns prev; simpl.
  - tauto.
  - unfold wire_chain in *. simpl. rewrite IH, connectNodes_edge.
    split; [intros [[H|[-> ->]]|H]; auto | intros [H|[[= -> ->]|H]]; auto].
Qed.

Lemma List_last_cons {A} (x d : A) (l : list A) : List.last (x :: l) d = List.last l x.
Proof.
  revert x d. induction l as [|y l IH]; intros x d; [reflexivity|].
  change (List.last (x :: y :: l) d) with (List.last (y :: l) d).
  rewrite (IH y d), (IH y x). reflexivity.
Qed.

Lemma wire_chain_last (names : list string) (conns : Connections) (prev : string) :
  snd (wire_chain (conns, prev) names) = List.last names prev.
Proof.
  revert conns prev. induction names as [|n names IH]; intros conns prev; [reflexivity|].
  unfold wire_chain in *. simpl foldl. rewrite IH, List_last_cons. reflexivity.
Qed.

Lemma wire_fan_edge (names : list string) (conns : Connections) (prev a b : string) :
  edge (wire_fan prev conns names) a b
  <-> edge conns a b \/ (a = prev /\ In b names).
Proof.
  revert conns. induction names as [|n names IH]; intros conns; simpl.
  - tauto.
  - unfold wire_fan in *. simpl. rewrite IH, connectNodes_edge.
    split; [intros [[H|[-> ->]]|[-> H]]; auto | intros [H|[-> [->|H]]]; auto].
Qed.

Lemma advanced_0 (s : BuilderState) : advanced 0 s = s.
Proof. destruct s. unfold advanced. simpl. f_equal. lia. Qed.

Lemma advanced_S (n : nat) (s : BuilderState) :
  advanced n (snd (advancePosition s)) = advanced (S n) s.
Proof. unfold advanced, advancePosition. simpl. f_equal. lia. Qed.

Lemma chain_loop (l : list N8nWorkflowNode) (loc : MainLocals) (s : BuilderState) :
  let r := forEach l
             (fun loc node =>
                advancePosition ;;
                ret {| l_nodes := l_nodes loc ++ [node];
                       l_connections :=
                         connectNodes (l_connections loc) (previousNodeName loc) (name node);
                       previousNodeName := name node |}) loc s in
  l_nodes (fst r) = l_nodes loc ++ l
  /\ l_connections (fst r)
     = fst (wire_chain (l_connections loc, previousNodeName loc) (map name l))
  /\ previousNodeName (fst r) = List.last (map name l) (previousNodeName loc)
  /\ snd r = advanced (length l) s.
Proof.
  cbv zeta. revert loc s. induction l as [|x l IH]; intros loc s.
  - simpl. rewrite app_nil_r, advanced_0. auto.
  - simpl forEach. rewrite run_bind, run_bind, run_ret. cbn [fst snd].
    destruct (IH {| l_nodes := l_nodes loc ++ [x];
                    l_connections :=
                      connectNodes (l_connections loc) (previousNodeName loc) (name x);
                    previousNodeName := name x |} (snd (advancePosition s)))
      as (H1 & H2 & H3 & H4).
    rewrite H1, H2, H3, H4. cbn [l_nodes l_connections previousNodeName].
    rewrite <- app_assoc, advanced_S. repeat split.
    simpl map. rewrite List_last_cons. reflexivity.
Qed.

Lemma fan_loop (l : list N8nWorkflowNode) (loc : MainLocals) (s : BuilderState) :
  let r := forEach l
             (fun loc node =>
                advancePosition ;;
                ret {| l_nodes := l_nodes loc ++ [node];
                       l_connections :=
                         connectNodes (l_connections loc) (previousNodeName loc) (name node);
                       previousNodeName := previousNodeName loc |}) loc s in
  l_nodes (fst r) = l_nodes loc ++ l
  /\ l_connections (fst r)
     = wire_fan (previousNodeName loc) (l_connections loc) (map name l)
  /\ previousNodeName (fst r) = previousNodeName loc
  /\ snd r = advanced (length l) s.
Proof.
  cbv zeta. revert loc s. induction l as [|x l IH]; intros loc s.
  - simpl. rewrite app_nil_r, advanced_0. auto.
  - simpl forEach. rewrite run_bind, run_bind, run_ret. cbn [fst snd].
    destruct (IH {| l_nodes := l_nodes loc ++ [x];
                    l_connections :=
                      connectNodes (l_connections loc) (previousNodeName loc) (name x);
                    previousNodeName := previousNodeName loc |} (snd (advancePosition s)))
      as (H1 & H2 & H3 & H4).
    rewrite H1, H2, H3, H4. cbn [l_nodes l_connections previousNodeName].
    rewrite <- app_assoc, advanced_S. repeat split.
Qed.
End Wiring.

Section NodeNames.
Import N8nBuilder.
Local Open Scope builder_scope.

Lemma node_literal_places (nm ty : string) (tv : Z) (cr : option (string * string))
    (s : BuilderState) :
  name (fst (node_literal nm ty tv 0 cr s)) = nm
  /\ position (fst (node_literal nm ty tv 0 cr s)) = builder_position s
  /\ builder_position (snd (node_literal nm ty tv 0 cr s)) = builder_position s.
Proof. unfold builder_position. simpl. rewrite Z.add_0_r. auto. Qed.

Lemma createTriggerNode_places requirements s :
  name (fst (createTriggerNode requirements s)) = trigger_name requirements
  /\ position (fst (createTriggerNode requirements s)) = builder_position s
  /\ builder_position (snd (createTriggerNode requirements s)) = builder_position s.
Proof.
  unfold createTriggerNode, trigger_name. cbv zeta.
  destruct (String.eqb _ "webhook"); [apply node_literal_places|].
  destruct (String.eqb _ "schedule"); [apply node_literal_places|].
  destruct (String.eqb _ "email"); apply node_literal_places.
Qed.

Lemma createDataProcessingNode_places c s :
  name (fst (createDataProcessingNode c s)) = "Transform Data"
  /\ position (fst (createDataProcessingNode c s)) = builder_position s
  /\ builder_position (snd (createDataProcessingNode c s)) = builder_position s.
Proof. unfold builder_position. simpl. rewrite Z.add_0_r. auto. Qed.

Lemma collect_loop {A} (body : list N8nWorkflowNode -> A -> M (list N8nWorkflowNode))
    (f : A -> list string) (l : list A) :
  (forall acc x s,
      map name (fst (body acc x s)) = map name acc ++ f x
      /\ builder_position (snd (body acc x s)) = builder_position s
      /\ (Forall (fun n => position n = builder_position s) acc ->
          Forall (fun n => position n = builder_position s) (fst (body acc x s)))) ->
  forall acc s,
    map name (fst (forEach l body acc s)) = map name acc ++ flat_map f l
    /\ builder_position (snd (forEach l body acc s)) = builder_position s
    /\ (Forall (fun n => position n = builder_position s) acc ->
        Forall (fun n => position n = builder_position s) (fst (forEach l body acc s))).
Proof.
  intros Hbody. induction l as [|x l IH]; intros acc s; simpl.
  - rewrite app_nil_r. auto.
  - rewrite run_bind. destruct (Hbody acc x s) as (H1 & H2 & H3).
    destruct (IH (fst (body acc x s)) (snd (body acc x s))) as (H4 & H5 & H6).
    rewrite H4, H5, H1, H2, <- app_assoc. repeat split.
    intros Hacc. rewrite H2 in H6. auto.
Qed.

Lemma push_places (acc : list N8nWorkflowNode) (m : M N8nWorkflowNode) (nm : string)
    (s : BuilderState) :
  name (fst (m s)) = nm /\ position (fst (m s)) = builder_position s /\ builder_position (snd (m s)) = builder_position s ->
  let r := (n <- m ;; ret (acc ++ [n])) s in
  map name (fst r) = map name acc ++ [nm]
  /\ builder_position (snd r) = builder_position s
  /\ (Forall (fun n => position n = builder_position s) acc ->
      Forall (fun n => position n = builder_position s) (fst r)).
Proof.
  intros (H1 & H2 & H3). cbv zeta. rewrite run_bind, run_ret. cbn [fst snd].
  rewrite map_app. simpl. rewrite H1. repeat split; [exact H3|].
  intros Hacc. apply Forall_app. split; [exact Hacc|]. constructor; [exact H2|constructor].
Qed.

Lemma createProcessingNodes_places blueprint requirements :
  places (processing_names blueprint) (createProcessingNodes blueprint requirements).
Proof.
  intros s. unfold createProcessingNodes, processing_names. cbv zeta. rewrite run_bind.
  match goal with
  | |- context [forEach ?l ?b [] s] =>
      destruct (collect_loop b processing_name l) with (acc := @nil N8nWorkflowNode) (s := s)
        as (H1 & H2 & H3)
  end.
  { intros acc c s'. unfold processing_name.
    destruct (bool_decide (AiAgent.type c = AiAgent.processor)).
    - destruct (JS.includes (AiAgent.name c) "AI").
      + apply push_places, node_literal_places.
      + destruct (JS.includes (AiAgent.name c) "Data").
        * apply push_places, createDataProcessingNode_places.
        * apply push_places, node_literal_places.
    - rewrite run_ret, app_nil_r. auto. }
  specialize (H3 (Forall_nil_2 _)). simpl in H1.
  destruct (forEach _ _ [] s) as [nodes s'] eqn:E. cbn [fst snd] in *.
  rewrite <- H1. destruct nodes as [|n nodes].
  - rewrite run_bind, run_ret. cbn [fst snd].
    rewrite <- H2. split; [reflexivity|]. split; [|reflexivity].
    constructor; [|constructor]. unfold builder_position. simpl. rewrite Z.add_0_r. reflexivity.
  - rewrite run_ret. cbn [fst snd]. auto.
Qed.

Lemma createIntegrationNodeForService_places integration s :
  exists n, createIntegrationNodeForService integration s
            = (Some n, snd (createIntegrationNodeForService integration s))
            /\ name n = integration_name integration
            /\ position n = builder_position s
            /\ builder_position (snd (createIntegrationNodeForService integration s)) = builder_position s.
Proof.
  unfold createIntegrationNodeForService, integration_name. cbv zeta.
  replace (match AiAgent.service integration with
           | Some s0 => JS.toLowerCase s0
           | None => EmptyString
           end)
    with (JS.toLowerCase (default EmptyString (AiAgent.service integration)))
    by (destruct (AiAgent.service integration); reflexivity).
  unfold createHttpRequestNode.
  destruct (JS.includes _ "hubspot");
    [rewrite run_bind, run_ret; cbn [fst snd]; eexists; split;
     [reflexivity | apply node_literal_places]|].
  destruct (JS.includes _ "salesforce");
    [rewrite run_bind, run_ret; cbn [fst snd]; eexists; split;
     [reflexivity | apply node_literal_places]|].
  destruct (JS.includes _ "stripe");
    [rewrite run_bind, run_ret; cbn [fst snd]; eexists; split;
     [reflexivity | apply node_literal_places]|].
  destruct (JS.includes _ "database");
    rewrite run_bind, run_ret; cbn [fst snd]; eexists; (split;
     [reflexivity | apply node_literal_places]).
Qed.

Lemma createIntegrationNodes_places blueprint :
  places (integration_names blueprint) (createIntegrationNodes blueprint).
Proof.
  intros s. unfold createIntegrationNodes, integration_names. cbv zeta. rewrite run_bind.
  match goal with
  | |- context [forEach ?l ?b [] s] =>
      destruct (collect_loop b (fun i => [integration_name i]) l)
        with (acc := @nil N8nWorkflowNode) (s := s) as (H1 & H2 & H3)
  end.
  { intros acc i s'. rewrite run_bind.
    destruct (createIntegrationNodeForService_places i s') as (n & E & Hn & Hp & Hs).
    rewrite E. cbn [fst snd]. rewrite run_ret. cbn [fst snd].
    rewrite map_app. simpl. rewrite Hn. repeat split; [exact Hs|].
    intros Hacc. apply Forall_app. split; [exact Hacc|]. constructor; [exact Hp|constructor]. }
  specialize (H3 (Forall_nil_2 _)). simpl in H1.
  assert (Hfm : forall l : list AiAgent.IntegrationSpec,
                 flat_map (fun i => [integration_name i]) l = map integration_name l)
    by (intros l; induction l as [|i l IH]; simpl; [|rewrite IH]; reflexivity).
  rewrite Hfm in H1.
  destruct (forEach _ _ [] s) as [nodes s'] eqn:E. cbn [fst snd] in *.
  rewrite <- H1. destruct nodes as [|n nodes].
  - rewrite run_bind, run_ret. cbn [fst snd].
    rewrite <- H2. split; [reflexivity|]. split; [|reflexivity].
    constructor; [|constructor]. unfold builder_position. simpl. rewrite Z.add_0_r. reflexivity.
  - rewrite run_ret. cbn [fst snd]. auto.
Qed.
End NodeNames.

Section NodeTypes.
Import N8nBuilder.
Local Open Scope builder_scope.

Lemma node_literal_typed (nm ty : string) (tv dy : Z) (cr : option (string * string))
    (s : BuilderState) :
  node_type nm = ty -> well_typed (fst (node_literal nm ty tv dy cr s)).
Proof. intros H. unfold well_typed. simpl. symmetry. exact H. Qed.

Lemma createTriggerNode_typed requirements s :
  well_typed (fst (createTriggerNode requirements s)).
Proof.
  unfold createTriggerNode. cbv zeta.
  destruct (String.eqb _ "webhook"); [apply node_literal_typed; reflexivity|].
  destruct (String.eqb _ "schedule"); [apply node_literal_typed; reflexivity|].
  destruct (String.eqb _ "email"); apply node_literal_typed; reflexivity.
Qed.

Lemma push_typed (acc : list N8nWorkflowNode) (m : M N8nWorkflowNode) (s : BuilderState) :
  well_typed (fst (m s)) -> Forall well_typed acc ->
  Forall well_typed (fst ((n <- m ;; ret (acc ++ [n])) s)).
Proof.
  intros Hn Hacc. rewrite run_bind, run_ret. cbn [fst].
  apply Forall_app. split; [exact Hacc|]. constructor; [exact Hn | constructor].
Qed.

Lemma createProcessingNodes_typed blueprint requirements s :
  Forall well_typed (fst (createProcessingNodes blueprint requirements s)).
Proof.
  unfold createProcessingNodes. cbv zeta. rewrite run_bind.
  match goal with
  | |- context [forEach ?l ?b [] s] =>
      pose proof (forEach_invariant
                    (fun (acc : list N8nWorkflowNode) (_ : BuilderState) =>
                       Forall well_typed acc)
                    (fun _ => True) b l) as Hloop
  end.
  match type of Hloop with
  | ?H -> _ => assert (Hbody : H)
  end.
  { intros acc c s' _ Hacc.
    destruct (bool_decide (AiAgent.type c = AiAgent.processor)); [|exact Hacc].
    destruct (JS.includes (AiAgent.name c) "AI").
    - apply push_typed; [apply node_literal_typed; reflexivity | exact Hacc].
    - destruct (JS.includes (AiAgent.name c) "Data").
      + apply push_typed; [reflexivity | exact Hacc].
      + apply push_typed; [apply node_literal_typed; reflexivity | exact Hacc]. }
  specialize (Hloop Hbody (Forall_true _ _ (fun _ => I)) [] s (Forall_nil_2 _)).
  destruct (forEach _ _ [] s) as [nodes s'] eqn:E. cbn [fst snd] in *.
  destruct nodes as [|n nodes]; [|exact Hloop].
  rewrite run_bind, run_ret. cbn [fst].
  constructor; [apply node_literal_typed; reflexivity | constructor].
Qed.

Lemma createIntegrationNodeForService_typed integration s :
  exists n, createIntegrationNodeForService integration s
            = (Some n, snd (createIntegrationNodeForService integration s))
            /\ well_typed n.
Proof.
  unfold createIntegrationNodeForService, createHttpRequestNode. cbv zeta.
  destruct (JS.includes _ "hubspot");
    [rewrite run_bind, run_ret; cbn [fst snd]; eexists; split;
     [reflexivity | apply node_literal_typed; reflexivity]|].
  destruct (JS.includes _ "salesforce");
    [rewrite run_bind, run_ret; cbn [fst snd]; eexists; split;
     [reflexivity | apply node_literal_typed; reflexivity]|].
  destruct (JS.includes _ "stripe");
    [rewrite run_bind, run_ret; cbn [fst snd]; eexists; split;
     [reflexivity | apply node_literal_typed; reflexivity]|].
  destruct (JS.includes _ "database");
    rewrite run_bind, run_ret; cbn [fst snd]; eexists; (split;
     [reflexivity | apply node_literal_typed; reflexivity]).
Qed.

Lemma createIntegrationNodes_typed blueprint s :
  Forall well_typed (fst (createIntegrationNodes blueprint s)).
Proof.
  unfold createIntegrationNodes. cbv zeta. rewrite run_bind.
  match goal with
  | |- context [forEach ?l ?b [] s] =>
      pose proof (forEach_invariant
                    (fun (acc : list N8nWorkflowNode) (_ : BuilderState) =>
                       Forall well_typed acc)
                    (fun _ => True) b l) as Hloop
  end.
  match type of Hloop with
  | ?H -> _ => assert (Hbody : H)
  end.
  { intros acc i s' _ Hacc. rewrite run_bind.
    destruct (createIntegrationNodeForService_typed i s') as (n & E & Hn).
    rewrite E. cbn [fst snd]. rewrite run_ret. cbn [fst].
    apply Forall_app. split; [exact Hacc|]. constructor; [exact Hn | constructor]. }
  specialize (Hloop Hbody (Forall_true _ _ (fun _ => I)) [] s (Forall_nil_2 _)).
  destruct (forEach _ _ [] s) as [nodes s'] eqn:E. cbn [fst snd] in *.
  destruct nodes as [|n nodes]; [|exact Hloop].
  rewrite run_bind, run_ret. cbn [fst].
  constructor; [apply node_literal_typed; reflexivity | constructor].
Qed.

End NodeTypes.

Section MainChainRun.
Import N8nBuilder.
Local Open Scope builder_scope.

Lemma builder_position_advanced (n : nat) (s : BuilderState) :
  builder_position (advanced n s) = (nodePositionX s + Z.of_nat n * 400, nodePositionY s).
Proof. reflexivity. Qed.

Lemma advance_column (s : BuilderState) (k : nat) :
  builder_position s = column k -> builder_position (snd (advancePosition s)) = column (S k).
Proof.
  unfold builder_position, column, advancePosition, nodeSpacingX. cbn [snd nodePositionX nodePositionY].
  intros [= -> ->]. f_equal. lia.
Qed.

Lemma advanced_column (s : BuilderState) (k n : nat) :
  builder_position s = column k -> builder_position (advanced n s) = column (k + n).
Proof.
  unfold builder_position, column, advanced, nodeSpacingX. cbn [nodePositionX nodePositionY].
  intros [= -> ->]. f_equal. lia.
Qed.

Lemma List_last_app {A} (l1 l2 : list A) (d : A) :
  List.last (l1 ++ l2) d = List.last l2 (List.last l1 d).
Proof.
  revert d. induction l1 as [|x l1 IH]; intros d; [reflexivity|].
  change ((x :: l1) ++ l2) with (x :: (l1 ++ l2)).
  rewrite !List_last_cons. apply IH.
Qed.

Lemma wire_chain_app (st : Connections * string) (l1 l2 : list string) :
  wire_chain st (l1 ++ l2)
  = wire_chain (fst (wire_chain st l1), List.last l1 (snd st)) l2.
Proof.
  unfold wire_chain at 1. rewrite foldl_app. fold (wire_chain st l1).
  fold (wire_chain (wire_chain st l1) l2). f_equal.
  destruct st as [c p]. change (snd (c, p)) with p.
  rewrite <- (wire_chain_last l1 c p).
  apply surjective_pairing.
Qed.

Lemma buildMainChain_run blueprint requirements level s0 :
  let r := buildMainChain blueprint requirements level s0 in
  exists t vs ps ints o,
    l_nodes (fst r) = t :: vs ++ ps ++ ints ++ [o]
    /\ (name t = trigger_name requirements /\ position t = column 0)
    /\ (map name vs = validation_names level
        /\ Forall (fun n => position n = column 1) vs)
    /\ (map name ps = processing_names blueprint
        /\ Forall (fun n => position n = column (1 + length vs)) ps)
    /\ (map name ints = integration_names blueprint
        /\ Forall (fun n => position n = column (1 + length vs + length ps)) ints)
    /\ (name o = "Send Notification"
        /\ position o = column (1 + length vs + length ps + length ints))
    /\ l_connections (fst r)
       = (let p := List.last (map name (vs ++ ps)) (name t) in
          connectNodes
            (wire_fan p (fst (wire_chain (∅, name t) (map name (vs ++ ps))))
                      (map name ints))
            p (name o))
    /\ builder_position (snd r) = column (2 + length vs + length ps + length ints)
    /\ Forall well_typed (t :: vs ++ ps ++ ints ++ [o]).
Proof.
  cbv zeta. unfold buildMainChain.
  rewrite run_bind. set (s1 := snd (resetCounters s0)). cbv beta.
  assert (Hs1 : builder_position s1 = column 0) by reflexivity.
  rewrite run_bind.
  destruct (createTriggerNode_places requirements s1) as (Htn & Htp & Hts).
  set (t := fst (createTriggerNode requirements s1)) in *.
  set (s2 := snd (createTriggerNode requirements s1)) in *.
  rewrite run_bind. set (s3 := snd (advancePosition s2)). cbv beta zeta.
  assert (Hs3 : builder_position s3 = column 1).
  { apply advance_column. rewrite Hts. exact Hs1. }
  rewrite run_bind.
  match goal with
  | |- context [fst (?m s3)] => set (r2 := m s3)
  end.
  assert (H2 : exists vs,
             l_nodes (fst r2) = t :: vs
             /\ map name vs = validation_names level
             /\ Forall (fun n => position n = column 1) vs
             /\ l_connections (fst r2) = fst (wire_chain (∅, name t) (map name vs))
             /\ previousNodeName (fst r2) = List.last (map name vs) (name t)
             /\ builder_position (snd r2) = column (1 + length vs)
             /\ Forall well_typed vs).
  { subst r2. unfold validation_names. destruct (bool_decide (level <> basic)).
    - rewrite run_bind, run_bind, run_ret. cbn [fst snd l_nodes l_connections previousNodeName].
      exists [fst (createValidationNode s3)].
      destruct (node_literal_places "Input Validation" "n8n-nodes-base.function" 1 None s3)
        as (Hvn & Hvp & Hvs).
      fold createValidationNode in Hvn, Hvp, Hvs.
      split; [reflexivity|]. split; [cbn [map]; rewrite Hvn; reflexivity|].
      split; [constructor; [rewrite Hvp; exact Hs3 | constructor]|].
      split; [reflexivity|]. split; [reflexivity|].
      split; [apply (advance_column _ 1); rewrite Hvs; exact Hs3|].
      constructor; [|constructor].
      apply (node_literal_typed "Input Validation" _ 1 0 None s3). reflexivity.
    - rewrite run_ret. cbn [fst snd l_nodes l_connections previousNodeName].
      exists []. repeat split; try constructor. exact Hs3. }
  clearbody r2. destruct H2 as (vs & Hv1 & Hv2 & Hv3 & Hv4 & Hv5 & Hv6 & Hv7).
  rewrite run_bind.
  destruct (createProcessingNodes_places blueprint requirements (snd r2))
    as (Hpn & Hpp & Hps).
  set (ps := fst (createProcessingNodes blueprint requirements (snd r2))) in *.
  set (s5 := snd (createProcessingNodes blueprint requirements (snd r2))) in *.
  rewrite run_bind.
  destruct (chain_loop ps (fst r2) s5) as (Hc1 & Hc2 & Hc3 & Hc4).
  match goal with
  | |- context [forEach ps ?b (fst r2) s5] => set (r3 := forEach ps b (fst r2) s5) in *
  end.
  clearbody r3.
  rewrite run_bind.
  destruct (createIntegrationNodes_places blueprint (snd r3)) as (Hin & Hip & His).
  set (ints := fst (createIntegrationNodes blueprint (snd r3))) in *.
  set (s7 := snd (createIntegrationNodes blueprint (snd r3))) in *.
  rewrite run_bind.
  destruct (fan_loop ints (fst r3) s7) as (Hf1 & Hf2 & Hf3 & Hf4).
  match goal with
  | |- context [forEach ints ?b (fst r3) s7] => set (r4 := forEach ints b (fst r3) s7) in *
  end.
  clearbody r4.
  rewrite run_bind.
  destruct (node_literal_places "Send Notification" "n8n-nodes-base.emailSend" 2
              (Some ("smtp", "email-credentials")) (snd r4)) as (Hon & Hop & Hos).
  fold (createOutputNode blueprint) in Hon, Hop, Hos.
  set (o := fst (createOutputNode blueprint (snd r4))) in *.
  set (s9 := snd (createOutputNode blueprint (snd r4))) in *.
  rewrite run_bind, run_ret. cbn [fst snd l_nodes l_connections previousNodeName].
  assert (Hs5 : builder_position s5 = column (1 + length vs)) by (rewrite Hps; exact Hv6).
  assert (Hr3 : builder_position (snd r3) = column (1 + length vs + length ps)).
  { rewrite Hc4. apply advanced_column, Hs5. }
  assert (Hs7 : builder_position s7 = column (1 + length vs + length ps)) by (rewrite His; exact Hr3).
  assert (Hr4 : builder_position (snd r4) = column (1 + length vs + length ps + length ints)).
  { rewrite Hf4. apply advanced_column, Hs7. }
  exists t, vs, ps, ints, o.
  split; [rewrite Hf1, Hc1, Hv1; simpl; rewrite <- !app_assoc; reflexivity|].
  split; [split; [exact Htn | rewrite Htp; exact Hs1]|].
  split; [auto|].
  split; [split; [exact Hpn | rewrite <- Hv6; exact Hpp]|].
  split; [split; [exact Hin | rewrite <- Hr3; exact Hip]|].
  split; [split; [exact Hon | rewrite Hop; exact Hr4]|].
  split; [|split].
  - rewrite Hf3, Hf2, Hc3, Hc2, Hv4, Hv5. rewrite map_app, List_last_app, wire_chain_app.
    reflexivity.
  - apply (advance_column _ (1 + length vs + length ps + length ints)).
    rewrite Hos. exact Hr4.
  - constructor; [apply createTriggerNode_typed|].
    apply Forall_app. split; [exact Hv7|].
    apply Forall_app. split; [apply createProcessingNodes_typed|].
    apply Forall_app. split; [apply createIntegrationNodes_typed|].
    constructor; [|constructor].
    apply (node_literal_typed "Send Notification" _ 2 0
             (Some ("smtp", "email-credentials")) (snd r4)). reflexivity.
Qed.
End MainChainRun.

Section MainGraph.
Import N8nBuilder.
Local Open Scope builder_scope.

Lemma Forall_position_repeat (ns : list N8nWorkflowNode) (p : Z * Z) :
  Forall (fun n => position n = p) ns -> map position ns = repeat p (length ns).
Proof. induction 1 as [|n ns Hn _ IH]; simpl; [reflexivity|]. rewrite Hn, IH. reflexivity. Qed.

Lemma main_workflow_run blueprint requirements options s :
  let w := fst (buildMainWorkflow blueprint requirements options s) in
  map name (nodes w)
  = main_chain blueprint requirements (securityLevel options)
    ++ main_branches blueprint ++ error_names (includeErrorHandling options)
  /\ (forall a b, edge (connections w) a b
                  <-> In (a, b) (main_edges blueprint requirements options))
  /\ map position (nodes w) = main_positions blueprint options.
Proof.
  cbv zeta. rewrite buildMainWorkflow_split.
  destruct (buildMainChain_run blueprint requirements (securityLevel options) s)
    as (t & vs & ps & ints & o & Hn & (Ht & Htp) & (Hv & Hvp) & (Hp & Hpp) & (Hi & Hip)
        & (Ho & Hop) & Hc & Hs & _).
  set (r := buildMainChain blueprint requirements (securityLevel options) s) in *.
  assert (Hlv : length vs = length (validation_names (securityLevel options)))
    by (rewrite <- Hv, length_map; reflexivity).
  assert (Hlp : length ps = length (processing_names blueprint))
    by (rewrite <- Hp, length_map; reflexivity).
  assert (Hli : length ints = length (integration_names blueprint))
    by (rewrite <- Hi, length_map; reflexivity).
  assert (Hnames : map name (l_nodes (fst r))
                   = main_chain blueprint requirements (securityLevel options)
                     ++ main_branches blueprint).
  { rewrite Hn. unfold main_chain, main_branches.
    cbn [map]. rewrite !map_app. cbn [map]. rewrite Ht, Hv, Hp, Hi, Ho.
    simpl. rewrite <- !app_assoc. reflexivity. }
  assert (Hpos : map position (l_nodes (fst r))
                 = [column 0]
                   ++ repeat (column 1) (length vs)
                   ++ repeat (column (1 + length vs)) (length ps)
                   ++ repeat (column (1 + length vs + length ps)) (length ints)
                   ++ [column (1 + length vs + length ps + length ints)]).
  { rewrite Hn. cbn [map]. rewrite !map_app. cbn [map]. rewrite Htp, Hop.
    rewrite (Forall_position_repeat _ _ Hvp), (Forall_position_repeat _ _ Hpp),
      (Forall_position_repeat _ _ Hip). reflexivity. }
  assert (Hedges : forall a b,
             edge (l_connections (fst r)) a b
             <-> In (a, b)
                    (chain_pairs (trigger_name requirements)
                       (tl (main_chain blueprint requirements (securityLevel options)))
                     ++ map (fun b => (List.last (main_chain blueprint requirements
                                                    (securityLevel options)) EmptyString, b))
                            (main_branches blueprint))).
  { intros a b. rewrite Hc. cbv zeta.
    rewrite connectNodes_edge, wire_fan_edge, wire_chain_edge.
    unfold main_chain, main_branches. cbn [tl].
    rewrite List_last_cons, map_app, Hv, Hp, Hi, Ho, Ht.
    rewrite (in_app_iff (chain_pairs _ _)), in_map_iff.
    split.
    - intros [[[H|H]|[-> H]]|[-> ->]].
      + destruct (edge_empty _ _ H).
      + left. exact H.
      + right. exists b. split; [reflexivity|]. apply in_app_iff. auto.
      + right. exists "Send Notification". split; [reflexivity|].
        apply in_app_iff. right. left. reflexivity.
    - intros [H|(x & [= <- <-] & H)]; [auto|].
      apply in_app_iff in H as [H|[<-|[]]]; auto. }
  destruct (includeErrorHandling options) eqn:Eeh.
  - destruct (finishMainWorkflow_on blueprint (fst r) (snd r)) as [-> ->].
    split; [|split].
    + rewrite map_app, Hnames, <- app_assoc. reflexivity.
    + intros a b. rewrite connectNodes_edge, Hedges. unfold main_edges. rewrite Eeh.
      rewrite !in_app_iff. simpl.
      split; [intros [[H|H]|[-> ->]]; auto | intros [H|[H|[[= -> ->]|[]]]]; auto].
    + rewrite map_app, Hpos. unfold main_positions. rewrite Eeh, <- Hlv, <- Hlp, <- Hli.
      cbv zeta. rewrite <- !app_assoc. repeat f_equal.
      unfold createErrorHandlingNodes. rewrite !run_bind, run_ret. cbn [fst snd map].
      unfold builder_position in Hs. injection Hs as Hx Hy.
      simpl. rewrite Hx, Hy. reflexivity.
  - destruct (finishMainWorkflow_off blueprint (fst r) (snd r)) as [-> ->].
    split; [|split].
    + rewrite Hnames. unfold error_names. rewrite !app_nil_r. reflexivity.
    + intros a b. rewrite Hedges. unfold main_edges. rewrite Eeh, !app_nil_r. reflexivity.
    + rewrite Hpos. unfold main_positions. rewrite Eeh, <- Hlv, <- Hlp, <- Hli.
      cbv zeta. rewrite app_nil_r. reflexivity.
Qed.
(** X8.  The node list of the main workflow is, by name: the trigger, the
    validation node unless the security level is basic, the processing
    nodes, the integration nodes, the output node, and the two error
    nodes when error handling is on.  Its connections are exactly these:
    each node of the chain trigger, validation, processing nodes to the
    next one; the last node of that chain to every integration node and
    to the output node; the error handler to the error notification. *)
Theorem main_workflow_graph blueprint requirements options s :
  let w := fst (buildMainWorkflow blueprint requirements options s) in
  map name (nodes w)
  = main_chain blueprint requirements (securityLevel options)
    ++ main_branches blueprint ++ error_names (includeErrorHandling options)
  /\ (forall a b, edge (connections w) a b
                  <-> In (a, b) (main_edges blueprint requirements options)).
Proof.
  cbv zeta. destruct (main_workflow_run blueprint requirements options s) as (H1 & H2 & _).
  split; assumption.
Qed.

(** X9.  On the canvas the trigger, the validation node and the output
    node each take a column of their own on the row y = 300, 400 apart.
    All processing nodes are placed at one and the same position, and so
    are all integration nodes, because a column is advanced only after
    the nodes of a step have been created.  The error nodes lie one
    column after the output node, at y = 600 and y = 800. *)
Theorem main_workflow_layout blueprint requirements options s :
  map position (nodes (fst (buildMainWorkflow blueprint requirements options s)))
  = main_positions blueprint options
  /\ (forall s', Forall (fun n => position n = builder_position s')
                        (fst (createProcessingNodes blueprint requirements s')))
  /\ (forall s', Forall (fun n => position n = builder_position s')
                        (fst (createIntegrationNodes blueprint s'))).
Proof.
  destruct (main_workflow_run blueprint requirements options s) as (_ & _ & H).
  split; [exact H|]. split; intros s'.
  - destruct (createProcessingNodes_places blueprint requirements s') as (_ & Hp & _).
    exact Hp.
  - destruct (createIntegrationNodes_places blueprint s') as (_ & Hp & _). exact Hp.
Qed.

End MainGraph.

Section Outlines.
Import N8nBuilder.
Local Open Scope builder_scope.

Lemma main_workflow_name blueprint requirements options s :
  wf_name (fst (buildMainWorkflow blueprint requirements options s))
  = AiAgent.title blueprint +:+ " - Main Workflow".
Proof.
  rewrite buildMainWorkflow_split. unfold finishMainWorkflow.
  rewrite run_bind, run_ret. reflexivity.
Qed.


Lemma generateWorkflowFromBlueprint_rest blueprint requirements options s :
  let o := default getDefaultOptions options in
  exists rest,
    fst (generateWorkflowFromBlueprint blueprint requirements options s)
    = fst (buildMainWorkflow blueprint requirements o s) :: rest
    /\ map outline rest = supporting_outlines blueprint o.
Proof.
  cbv zeta.
  destruct (generateWorkflowFromBlueprint_list blueprint requirements options s)
    as (s1 & s2 & ->).
  eexists. split; [reflexivity|].
  rewrite map_app. unfold supporting_outlines.
  destruct (requiresDataProcessingWorkflow blueprint);
    destruct (requiresMonitoringWorkflow blueprint _); reflexivity.
Qed.

Lemma main_workflow_outline blueprint requirements options s :
  outline (fst (buildMainWorkflow blueprint requirements options s))
  = main_outline blueprint requirements options.
Proof.
  unfold outline, main_outline. rewrite main_workflow_name.
  destruct (main_workflow_run blueprint requirements options s) as (-> & _).
  reflexivity.
Qed.

Lemma generateWorkflowFromBlueprint_outline blueprint requirements options s :
  let o := default getDefaultOptions options in
  map outline (fst (generateWorkflowFromBlueprint blueprint requirements options s))
  = main_outline blueprint requirements o :: supporting_outlines blueprint o.
Proof.
  cbv zeta.
  destruct (generateWorkflowFromBlueprint_rest blueprint requirements options s)
    as (rest & -> & <-).
  cbn [map]. rewrite main_workflow_outline. reflexivity.
Qed.











End Outlines.

(** ** The workflow builder: what is built when nothing is recognised *)

Section Fallbacks.
Import N8nBuilder.
Local Open Scope builder_scope.



End Fallbacks.

Section Leaves.
Import N8nBuilder.

Lemma trigger_name_cases requirements :
  In (trigger_name requirements)
     ["Webhook Trigger"; "Schedule Trigger"; "Email Trigger"; "Manual Trigger"].
Proof.
  unfold trigger_name. cbv zeta.
  destruct (String.eqb _ "webhook"); [simpl; auto|].
  destruct (String.eqb _ "schedule"); [simpl; auto|].
  destruct (String.eqb _ "email"); simpl; auto.
Qed.

Lemma processing_names_cases blueprint x :
  In x (processing_names blueprint) ->
  In x ["AI Processing"; "Transform Data"; "Process Data"].
Proof.
  unfold processing_names.
  assert (H : forall l, In x (flat_map processing_name l) ->
                        In x ["AI Processing"; "Transform Data"; "Process Data"]).
  { intros l Hx. apply in_flat_map in Hx as (c & _ & Hx). unfold processing_name in Hx.
    destruct (bool_decide _); [|destruct Hx].
    destruct (JS.includes _ "AI"); [destruct Hx as [<-|[]]; simpl; auto|].
    destruct (JS.includes _ "Data"); destruct Hx as [<-|[]]; simpl; auto. }
  specialize (H (components_of blueprint)).
  destruct (flat_map processing_name (components_of blueprint)); [|exact H].
  intros [<-|[]]. simpl. auto.
Qed.

Lemma integration_name_cases integration :
  In (integration_name integration)
     ["HubSpot Integration"; "Salesforce Integration"; "Stripe Integration";
      "Database Insert"; "API Integration"].
Proof.
  unfold integration_name. cbv zeta.
  destruct (JS.includes _ "hubspot"); [simpl; auto|].
  destruct (JS.includes _ "salesforce"); [simpl; auto|].
  destruct (JS.includes _ "stripe"); [simpl; auto|].
  destruct (JS.includes _ "database"); simpl; auto 6.
Qed.

Lemma main_chain_names blueprint requirements level x :
  In x (main_chain blueprint requirements level) -> In x chain_node_names.
Proof.
  unfold main_chain, validation_names. intros [<-|H].
  - pose proof (trigger_name_cases requirements) as H. simpl in H |- *. tauto.
  - apply in_app_iff in H as [H|H].
    + destruct (bool_decide _); [|destruct H]. destruct H as [<-|[]]. simpl. auto 6.
    + apply processing_names_cases in H. simpl in H |- *. tauto.
Qed.

Lemma main_branches_names blueprint x :
  In x (main_branches blueprint) -> In x branch_node_names.
Proof.
  unfold main_branches, integration_names. intros H. apply in_app_iff in H as [H|[<-|[]]].
  - assert (Hm : forall l, In x (map integration_name l) ->
                           In x ["HubSpot Integration"; "Salesforce Integration";
                                 "Stripe Integration"; "Database Insert"; "API Integration"]).
    { intros l Hx. apply in_map_iff in Hx as (i & <- & _). apply integration_name_cases. }
    specialize (Hm (integrations_of blueprint)).
    destruct (map integration_name (integrations_of blueprint)).
    + destruct H as [<-|[]]. simpl. auto 6.
    + specialize (Hm H). simpl in Hm |- *. tauto.
  - simpl. auto 7.
Qed.

Lemma chain_pairs_in (prev : string) (l : list string) (a b : string) :
  In (a, b) (chain_pairs prev l) -> In a (prev :: l) /\ In b l.
Proof.
  revert prev. induction l as [|x l IH]; intros prev; simpl; [tauto|].
  intros [[= <- <-]|H]; [auto|]. destruct (IH _ H) as [H1 H2]. simpl in H1. tauto.
Qed.

Lemma List_last_in {A} (l : list A) (d : A) : In (List.last l d) (d :: l).
Proof.
  revert d. induction l as [|x l IH]; intros d; [left; reflexivity|].
  rewrite List_last_cons. right. apply IH.
Qed.

Lemma List_last_in_cons {A} (x d : A) (l : list A) : In (List.last (x :: l) d) (x :: l).
Proof. rewrite List_last_cons. apply List_last_in. Qed.

Lemma names_apart (x : string) :
  In x branch_node_names -> In x chain_node_names \/ x = "Error Handler" -> False.
Proof.
  unfold branch_node_names, chain_node_names. simpl.
  intros H1 H2.
  repeat (destruct H1 as [<-|H1]; [intuition discriminate|]). exact H1.
Qed.

Lemma main_edges_source blueprint requirements options a b :
  In (a, b) (main_edges blueprint requirements options) ->
  In a chain_node_names \/ a = "Error Handler".
Proof.
  unfold main_edges. cbv zeta. rewrite !in_app_iff. intros [H|[H|H]].
  - apply chain_pairs_in in H as [H _]. left.
    apply (main_chain_names blueprint requirements (securityLevel options)).
    unfold main_chain in *. exact H.
  - apply in_map_iff in H as (x & [= <- <-] & _). left.
    apply (main_chain_names blueprint requirements (securityLevel options)).
    exact (List_last_in_cons _ _ _).
  - destruct (includeErrorHandling options); [|destruct H].
    destruct H as [[= <- <-]|[]]. auto.
Qed.

Lemma main_edges_target blueprint requirements options a b :
  In (a, b) (main_edges blueprint requirements options) ->
  In b (drop 4 chain_node_names) \/ In b branch_node_names \/ b = "Error Notification".
Proof.
  unfold main_edges. cbv zeta. rewrite !in_app_iff. intros [H|[H|H]].
  - apply chain_pairs_in in H as [_ H]. left. unfold main_chain in H. cbn [tl] in H.
    apply in_app_iff in H as [H|H].
    + unfold validation_names in H. destruct (bool_decide _); [|destruct H].
      destruct H as [<-|[]]. simpl. auto 6.
    + apply processing_names_cases in H. simpl in H |- *. tauto.
  - apply in_map_iff in H as (x & [= <- <-] & H). right. left.
    eapply main_branches_names, H.
  - destruct (includeErrorHandling options); [|destruct H].
    destruct H as [[= <- <-]|[]]. auto.
Qed.

(** X10.  In every main workflow each integration node, and the output
    node, is a direct successor of the last node of the chain trigger,
    validation, processing nodes, and has no outgoing connection itself;
    no connection leads to the trigger. *)
Theorem main_workflow_leaves blueprint requirements options s :
  let w := fst (buildMainWorkflow blueprint requirements options s) in
  let chain := main_chain blueprint requirements (securityLevel options) in
  (forall b, In b (main_branches blueprint) ->
     edge (connections w) (List.last chain EmptyString) b
     /\ forall c, ~ edge (connections w) b c)
  /\ (forall a, ~ edge (connections w) a (trigger_name requirements)).
Proof.
  cbv zeta.
  destruct (main_workflow_run blueprint requirements options s) as (_ & He & _).
  split.
  - intros b Hb. split.
    + apply He. unfold main_edges. cbv zeta. rewrite !in_app_iff. right. left.
      apply in_map_iff. exists b. auto.
    + intros c Hc. apply He, main_edges_source in Hc.
      apply main_branches_names in Hb. exact (names_apart b Hb Hc).
  - intros a Ha. apply He, main_edges_target in Ha.
    pose proof (trigger_name_cases requirements) as Ht.
    unfold chain_node_names, branch_node_names in Ha. simpl in Ha, Ht.
    set (x := trigger_name requirements) in *. clearbody x.
    repeat (destruct Ht as [<-|Ht]; [intuition discriminate|]). exact Ht.
Qed.
End Leaves.

Section Variations.
Import N8nBuilder.
Local Open Scope builder_scope.

Lemma generateWorkflowVariations_run blueprint requirements s :
  exists s1,
    fst (generateWorkflowVariations blueprint requirements s)
    = fst (generateWorkflowFromBlueprint blueprint requirements (Some basic_options) s)
      ++ fst (generateWorkflowFromBlueprint blueprint requirements (Some advanced_options) s1).
Proof.
  unfold generateWorkflowVariations. rewrite !run_bind, run_ret. cbn [fst].
  eexists. reflexivity.
Qed.

(** X11.  [generateWorkflowVariations] returns the workflows of the basic
    variant followed by those of the advanced variant.  Each variant
    starts with the main workflow, of the same name in both; the advanced
    one has the nodes of the basic one plus the validation node and the
    two error nodes.  In each variant the main workflow is followed by
    the data-processing workflow exactly when the blueprint asks for one;
    the basic variant then has the monitoring workflow exactly when the
    blueprint asks for one, and the advanced variant always ends with
    it. *)
Theorem generateWorkflowVariations_shape blueprint requirements s :
  map outline (fst (generateWorkflowVariations blueprint requirements s))
  = ((AiAgent.title blueprint +:+ " - Main Workflow",
      trigger_name requirements :: processing_names blueprint ++ main_branches blueprint)
       :: (if requiresDataProcessingWorkflow blueprint then [data_outline blueprint] else [])
       ++ (if requiresMonitoringWorkflow blueprint basic_options
           then [monitoring_outline blueprint] else []))
    ++ ((AiAgent.title blueprint +:+ " - Main Workflow",
         trigger_name requirements :: "Input Validation"
           :: processing_names blueprint ++ main_branches blueprint
              ++ ["Error Handler"; "Error Notification"])
          :: (if requiresDataProcessingWorkflow blueprint then [data_outline blueprint] else [])
          ++ [monitoring_outline blueprint]).
Proof.
  destruct (generateWorkflowVariations_run blueprint requirements s) as [s1 ->].
  rewrite map_app.
  rewrite (generateWorkflowFromBlueprint_outline blueprint requirements (Some basic_options) s).
  rewrite (generateWorkflowFromBlueprint_outline blueprint requirements
             (Some advanced_options) s1).
  cbv zeta.
  change (default getDefaultOptions (Some advanced_options)) with advanced_options.
  change (default getDefaultOptions (Some basic_options)) with basic_options.
  unfold supporting_outlines, main_outline, main_chain.
  assert (Hmon : requiresMonitoringWorkflow blueprint advanced_options = true) by reflexivity.
  rewrite Hmon. simpl. rewrite ?app_nil_r, <- ?app_assoc. reflexivity.
Qed.
End Variations.

Section IntegrationSpecs.
Import AiAgent BlueprintGen.

Lemma omap_filter_cons {A B} (f : B -> option A) (p : string * B -> bool)
    (kv : string * B) (l : list (string * B)) :
  omap f (map snd (List.filter p (kv :: l)))
  = (if p kv then match f (snd kv) with Some x => [x] | None => [] end else [])
    ++ omap f (map snd (List.filter p l)).
Proof. simpl. destruct (p kv); [|reflexivity]. simpl. destruct (f (snd kv)); reflexivity. Qed.

Lemma if_nil {A} (b : bool) : (if b then [] else []) = @nil A.
Proof. destruct b; reflexivity. Qed.

Lemma generateIntegrationSpecs_cases (requirements : list ProjectRequirement) :
  generateIntegrationSpecs requirements
  = match (if JS.includes (content requirements) "hubspot"
           then [ {| service := Some "HubSpot CRM"; rateLimit := Some 100 |} ] else [])
          ++ (if JS.includes (content requirements) "stripe"
              then [ {| service := Some "Stripe Payments"; rateLimit := Some 100 |} ] else []) with
    | [] => [ {| service := Some "Database"; rateLimit := None |} ]
    | specs => specs
    end.
Proof.
  unfold generateIntegrationSpecs, extractMentionedServices, serviceMap. cbv zeta.
  rewrite !omap_filter_cons. cbn [fst snd List.filter map omap].
  repeat match goal with
         | |- context [getServiceIntegrationSpec ?s] =>
             let v := eval vm_compute in (getServiceIntegrationSpec s) in
             change (getServiceIntegrationSpec s) with v
         end.
  cbv beta iota. rewrite !if_nil. simpl app. rewrite app_nil_r.
  destruct (JS.includes _ "hubspot"), (JS.includes _ "stripe"); reflexivity.
Qed.
(** X13.  [generateIntegrationSpecs] never returns an empty list.  It
    yields the HubSpot specification when the requirements mention
    hubspot and the Stripe specification when they mention stripe, in
    that order; every other service of the service map is dropped, and
    when neither of the two is mentioned the result is the single
    'Database' specification. *)
Theorem generateIntegrationSpecs_services (requirements : list ProjectRequirement) :
  let specs := generateIntegrationSpecs requirements in
  let hubspot := JS.includes (content requirements) "hubspot" in
  let stripe := JS.includes (content requirements) "stripe" in
  map service specs
  = (if hubspot || stripe
     then (if hubspot then [Some "HubSpot CRM"] else [])
          ++ (if stripe then [Some "Stripe Payments"] else [])
     else [Some "Database"])
  /\ specs <> []
  /\ (length specs <= 2)%nat.
Proof.
  cbv zeta. rewrite generateIntegrationSpecs_cases.
  destruct (JS.includes _ "hubspot"), (JS.includes _ "stripe");
    repeat split; try discriminate; simpl; lia.
Qed.

End IntegrationSpecs.

Section BuilderOnGenerated.
Import AiAgent BlueprintGen.

Lemma generated_architecture requirements config rs :
  technicalArchitecture (fst (generateComprehensiveBlueprint requirements config rs))
  = Some (generateTechnicalArchitecture requirements (analyzeRequirements requirements)).
Proof. reflexivity. Qed.

Lemma generated_processing requirements config rs :
  processing_names (fst (generateComprehensiveBlueprint requirements config rs))
  = generated_processing_names requirements.
Proof.
  unfold processing_names, N8nBuilder.components_of. rewrite generated_architecture.
  unfold generated_processing_names, generateTechnicalArchitecture, generateComponents.
  cbn [components]. cbv zeta.
  destruct (requiresDataProcessing requirements), (requiresAI requirements),
    (requiresStorage requirements); reflexivity.
Qed.

Lemma generated_integrations requirements config rs :
  integration_names (fst (generateComprehensiveBlueprint requirements config rs))
  = generated_integration_names requirements.
Proof.
  unfold integration_names, N8nBuilder.integrations_of. rewrite generated_architecture.
  unfold generated_integration_names, generateTechnicalArchitecture.
  cbn [integrationSpecs]. rewrite generateIntegrationSpecs_cases.
  destruct (JS.includes _ "hubspot"), (JS.includes _ "stripe"); reflexivity.
Qed.

Lemma generated_supporting requirements config rs options :
  let blueprint := fst (generateComprehensiveBlueprint requirements config rs) in
  N8nBuilder.requiresDataProcessingWorkflow blueprint
  = requiresDataProcessing requirements || requiresStorage requirements
  /\ N8nBuilder.requiresMonitoringWorkflow blueprint options
     = N8nBuilder.addMonitoring options
       || requiresDataProcessing requirements || requiresAI requirements
       || requiresStorage requirements.
Proof.
  cbv zeta. unfold N8nBuilder.requiresDataProcessingWorkflow,
    N8nBuilder.requiresMonitoringWorkflow.
  rewrite generated_architecture.
  unfold generateTechnicalArchitecture, generateComponents. cbn [components]. cbv zeta.
  destruct (requiresDataProcessing requirements), (requiresAI requirements),
    (requiresStorage requirements), (N8nBuilder.addMonitoring options); split; reflexivity.
Qed.

(** X17.  When the builder is run on a blueprint of the generator, the
    main workflow comes first and holds a 'Transform Data' node and an
    'AI Processing' node exactly when the generator found data processing
    and AI in its requirements, and a single 'Process Data' node when it
    found neither.  Its integration nodes are the HubSpot and Stripe
    nodes for the services mentioned, or the single 'Database Insert'
    node; the generic HTTP node is never used.  The main workflow is
    followed by the data-processing workflow, with its four nodes,
    exactly when the generator's requirements ask for data processing or
    storage, and then by the monitoring workflow, with its two nodes,
    exactly when the option is set or one of data processing, AI and
    storage is asked for; nothing else is returned. *)
Theorem builder_on_generated requirements config rs requirements' options s :
  let blueprint := fst (generateComprehensiveBlueprint requirements config rs) in
  let o := default N8nBuilder.getDefaultOptions options in
  let workflows :=
    fst (N8nBuilder.generateWorkflowFromBlueprint blueprint requirements' options s) in
  map outline workflows
  = (title blueprint +:+ " - Main Workflow",
     trigger_name requirements'
       :: validation_names (N8nBuilder.securityLevel o)
       ++ generated_processing_names requirements
       ++ generated_integration_names requirements
       ++ ["Send Notification"]
       ++ error_names (N8nBuilder.includeErrorHandling o))
    :: (if requiresDataProcessing requirements || requiresStorage requirements
        then [data_outline blueprint] else [])
    ++ (if N8nBuilder.addMonitoring o
           || requiresDataProcessing requirements || requiresAI requirements
           || requiresStorage requirements
        then [monitoring_outline blueprint] else [])
  /\ length workflows
     = (1 + (if requiresDataProcessing requirements || requiresStorage requirements
             then 1 else 0)
          + (if N8nBuilder.addMonitoring o
                || requiresDataProcessing requirements || requiresAI requirements
                || requiresStorage requirements
             then 1 else 0))%nat.
Proof.
  cbv zeta.
  set (blueprint := fst (generateComprehensiveBlueprint requirements config rs)).
  set (o := default N8nBuilder.getDefaultOptions options).
  assert (H : map outline
                (fst (N8nBuilder.generateWorkflowFromBlueprint blueprint requirements'
                        options s))
              = (title blueprint +:+ " - Main Workflow",
                 trigger_name requirements'
                   :: validation_names (N8nBuilder.securityLevel o)
                   ++ generated_processing_names requirements
                   ++ generated_integration_names requirements
                   ++ ["Send Notification"]
                   ++ error_names (N8nBuilder.includeErrorHandling o))
                :: (if requiresDataProcessing requirements || requiresStorage requirements
                    then [data_outline blueprint] else [])
                ++ (if N8nBuilder.addMonitoring o
                       || requiresDataProcessing requirements || requiresAI requirements
                       || requiresStorage requirements
                    then [monitoring_outline blueprint] else [])).
  { rewrite generateWorkflowFromBlueprint_outline. cbv zeta. fold o.
    unfold supporting_outlines, main_outline, main_chain, main_branches.
    destruct (generated_supporting requirements config rs o) as [H1 H2].
    cbv zeta in H1, H2. fold blueprint in H1, H2. rewrite H1, H2.
    unfold blueprint at 2 3. rewrite generated_processing, generated_integrations.
    simpl. rewrite <- !app_assoc. reflexivity. }
  split; [exact H|].
  apply (f_equal (@length _)) in H. rewrite length_map in H. rewrite H.
  destruct (requiresDataProcessing requirements || requiresStorage requirements);
    destruct (N8nBuilder.addMonitoring _ || _ || _ || _); reflexivity.
Qed.
End BuilderOnGenerated.

Section GeneratorShape.
Import AiAgent BlueprintGen.

(** X12.  The generated architecture has between three and six
    components with pairwise distinct names: a trigger first, then a
    processor for data processing and one for AI when the requirements
    ask for them, one integrator, a storage component when asked for, and
    a notifier last.  The steps of the generated data flow are numbered
    1, 2, 3, ... without gaps, and there is one step for each component
    other than the storage component. *)
Theorem generateComponents_shape requirements analysis :
  let components := generateComponents requirements analysis in
  let dataFlow := generateDataFlow components requirements in
  NoDup (map name components)
  /\ (3 <= length components <= 6)%nat
  /\ map type components
     = [trigger]
       ++ (if requiresDataProcessing requirements then [processor] else [])
       ++ (if requiresAI requirements then [processor] else [])
       ++ [integrator]
       ++ (if requiresStorage requirements then [storage] else [])
       ++ [notifier]
  /\ map step dataFlow = map Z.of_nat (seq 1 (length dataFlow))
  /\ length components
     = (length dataFlow + (if requiresStorage requirements then 1 else 0))%nat.
Proof.
  cbv zeta. unfold generateComponents, generateDataFlow. cbv zeta.
  destruct (requiresDataProcessing requirements), (requiresAI requirements),
    (requiresStorage requirements); cbn [app map length name type step];
    (split; [apply (bool_decide_unpack _); vm_compute; reflexivity|]);
    (split; [lia|]); repeat split.
Qed.

(** X14.  Whatever the requirements and the configuration, the overall
    risk level of [generateRiskAssessment] is 'medium'.  The assessment
    holds between one and three risks with distinct ids: the business
    risk always, the technical risk exactly for a complex or enterprise
    configuration, the operational risk exactly when more than three
    integration keywords occur in the requirements. *)
Theorem generateRiskAssessment_medium requirements config :
  let assessment := generateRiskAssessment requirements config in
  let ids := map risk_id (risks assessment) in
  overallRiskLevel assessment = level_medium
  /\ (1 <= length ids <= 3)%nat
  /\ NoDup ids
  /\ In "bus-001" ids
  /\ (In "tech-001" ids <-> complexity config = complex \/ complexity config = enterprise)
  /\ (In "ops-001" ids <-> 3 < countIntegrations requirements).
Proof.
  cbv zeta. unfold generateRiskAssessment. cbv zeta.
  destruct (3 <? countIntegrations requirements) eqn:E;
    [apply Z.ltb_lt in E | apply Z.ltb_ge in E];
    destruct (complexity config); cbn [risks overallRiskLevel app length map risk_id];
    (split; [reflexivity|]); (split; [lia|]);
    (split; [apply (bool_decide_unpack _); vm_compute; reflexivity|]);
    simpl; intuition (try discriminate; try lia).
Qed.
End GeneratorShape.

Section ROIBounds.
Import AiAgent BlueprintGen.

Lemma draw_cases (k : Z) : 0 <= k <= 19 ->
  In k [0; 1; 2; 3; 4; 5; 6; 7; 8; 9; 10; 11; 12; 13; 14; 15; 16; 17; 18; 19].
Proof. intros H. simpl. lia. Qed.

(** X15.  For every blueprint of the generator, whatever [Math.random]
    draws: the development cost lies between 9900 and 20500, the
    estimated three-year ROI between 58 and 495 percent, and the payback
    period between 2 and 11 months. *)
Theorem generated_projection_bounds requirements config rs :
  valid_source rs ->
  let blueprint := fst (generateComprehensiveBlueprint requirements config rs) in
  let costs := calculateCosts (implementationPlan blueprint) (technicalArchitecture blueprint) in
  let projection := fst (calculateROI requirements costs rs) in
  (9900 <= total_initial costs <= 20500)%Q
  /\ (58 <= estimatedROI blueprint <= 495)%Q
  /\ (2 <= paybackPeriodMonths projection <= 11)%Q.
Proof.
  intros Hv. cbv zeta.
  pose proof (next_draw20_range rs Hv) as Hk. apply draw_cases in Hk.
  unfold generateComprehensiveBlueprint, calculateROI, Math_random, JS.Math_floor.
  cbn [fst snd estimatedROI threeYearROI paybackPeriodMonths implementationPlan
       technicalArchitecture].
  unfold next_draw20 in Hk. revert Hk.
  generalize (Qfloor (draws rs (cursor rs) * 20)). intros k Hk.
  unfold generateImplementationPlan, generateImplementationPhases.
  destruct config as [pt cx tl bg rt]. cbn [timeline complexity].
  simpl in Hk.
  repeat (destruct Hk as [<-|Hk];
          [destruct cx, tl; vm_compute; repeat split; discriminate|]).
  destruct Hk.
Qed.
Lemma generated_projection_bounds_witness :
  valid_source low_then_high
  /\ (58 <= estimatedROI (fst (generateComprehensiveBlueprint [] normal_config low_then_high))
      <= 495)%Q.
Proof.
  assert (Hv : valid_source low_then_high)
    by (intros [|n]; split; simpl; unfold Qle, Qlt; simpl; lia).
  split; [exact Hv|].
  apply (generated_projection_bounds [] normal_config low_then_high Hv).
Defined.

End ROIBounds.

Section StringFacts.

Lemma str_app_assoc (a b c : string) : (a +:+ b) +:+ c = a +:+ (b +:+ c).
Proof. induction a as [|x a IH]; [reflexivity|]. rewrite !app_cons, IH. reflexivity. Qed.

Lemma str_app_nil_r (a : string) : a +:+ EmptyString = a.
Proof. induction a as [|x a IH]; [reflexivity|]. rewrite app_cons, IH. reflexivity. Qed.

Lemma includes_app_l (s t k : string) :
  JS.includes s k = true -> JS.includes (s +:+ t) k = true.
Proof.
  rewrite !includes_spec. intros (pre & post & ->).
  exists pre, (post +:+ t). rewrite !str_app_assoc. reflexivity.
Qed.

Lemma join_app (sep : string) (l1 l2 : list string) :
  exists t, JS.join sep (l1 ++ l2) = JS.join sep l1 +:+ t.
Proof.
  induction l1 as [|x l1 IH].
  - exists (JS.join sep l2). reflexivity.
  - destruct l1 as [|y l1].
    + destruct l2 as [|z l2].
      * exists EmptyString. simpl. rewrite str_app_nil_r. reflexivity.
      * exists (sep +:+ JS.join sep (z :: l2)). reflexivity.
    + destruct IH as [t IH]. exists t.
      change (JS.join sep ((x :: y :: l1) ++ l2))
        with (x +:+ sep +:+ JS.join sep ((y :: l1) ++ l2)).
      rewrite IH.
      change (JS.join sep (x :: y :: l1)) with (x +:+ sep +:+ JS.join sep (y :: l1)).
      rewrite !str_app_assoc. reflexivity.
Qed.
End StringFacts.

Section Complexity.
Import AiAgent BlueprintGen.

Lemma content_app (l1 l2 : list ProjectRequirement) :
  exists t, content (l1 ++ l2) = content l1 +:+ t.
Proof. unfold content. rewrite map_app. apply join_app. Qed.

Lemma content_includes_app (l1 l2 : list ProjectRequirement) (k : string) :
  JS.includes (content l1) k = true -> JS.includes (content (l1 ++ l2)) k = true.
Proof. destruct (content_app l1 l2) as [t ->]. apply includes_app_l. Qed.

Lemma includes_le (l1 l2 : list ProjectRequirement) (k : string) :
  implb (JS.includes (content l1) k) (JS.includes (content (l1 ++ l2)) k) = true.
Proof.
  destruct (JS.includes (content l1) k) eqn:E; [|reflexivity].
  rewrite (content_includes_app l1 l2 k E). reflexivity.
Qed.

Lemma countIntegrations_app (l1 l2 : list ProjectRequirement) :
  countIntegrations l1 <= countIntegrations (l1 ++ l2).
Proof.
  unfold countIntegrations. cbv zeta.
  set (ks := ["api"; "integration"; "connect"; "sync"; "webhook"; "database"]).
  clearbody ks. induction ks as [|k ks IH]; simpl; [lia|].
  pose proof (includes_le l1 l2 k) as Hk.
  destruct (JS.includes (content l1) k), (JS.includes (content (l1 ++ l2)) k);
    simpl in *; try discriminate; lia.
Qed.

Lemma countIntegrations_range (l : list ProjectRequirement) :
  0 <= countIntegrations l <= 6.
Proof.
  unfold countIntegrations. cbv zeta.
  match goal with
  | |- context [List.filter ?p ?ks] =>
      pose proof (List.filter_length_le p ks) as H
  end.
  simpl length in H at 2. lia.
Qed.

Ltac includes_mono l1 l2 :=
  cbv zeta;
  repeat match goal with
         | |- context [JS.includes (content l1) ?k] =>
             let H := fresh "H" in
             pose proof (includes_le l1 l2 k) as H;
             let b := fresh "b" in
             set (b := JS.includes (content l1) k) in *; clearbody b;
             let b' := fresh "b" in
             set (b' := JS.includes (content (l1 ++ l2)) k) in *; clearbody b'
         end;
  repeat match goal with
         | b : bool |- _ => destruct b
         end; simpl in *; try discriminate; reflexivity.

Lemma requiresAI_app (l1 l2 : list ProjectRequirement) :
  implb (requiresAI l1) (requiresAI (l1 ++ l2)) = true.
Proof. unfold requiresAI. includes_mono l1 l2. Qed.

Lemma hasComplexBusinessLogic_app (l1 l2 : list ProjectRequirement) :
  implb (hasComplexBusinessLogic l1) (hasComplexBusinessLogic (l1 ++ l2)) = true.
Proof. unfold hasComplexBusinessLogic. includes_mono l1 l2. Qed.

Lemma hasComplianceRequirements_app (l1 l2 : list ProjectRequirement) :
  implb (hasComplianceRequirements l1) (hasComplianceRequirements (l1 ++ l2)) = true.
Proof. unfold hasComplianceRequirements. includes_mono l1 l2. Qed.

Lemma complexity_score_app (l1 l2 : list ProjectRequirement) :
  complexity_score l1 <= complexity_score (l1 ++ l2).
Proof.
  unfold complexity_score. cbv zeta.
  pose proof (countIntegrations_app l1 l2) as Hc.
  pose proof (requiresAI_app l1 l2) as H1.
  pose proof (hasComplexBusinessLogic_app l1 l2) as H2.
  pose proof (hasComplianceRequirements_app l1 l2) as H3.
  destruct (requiresAI l1), (requiresAI (l1 ++ l2)); try discriminate H1;
    destruct (hasComplexBusinessLogic l1), (hasComplexBusinessLogic (l1 ++ l2));
    try discriminate H2;
    destruct (hasComplianceRequirements l1), (hasComplianceRequirements (l1 ++ l2));
    try discriminate H3;
    destruct (5 <? countIntegrations l1) eqn:E1,
             (5 <? countIntegrations (l1 ++ l2)) eqn:E2,
             (2 <? countIntegrations l1) eqn:E3,
             (2 <? countIntegrations (l1 ++ l2)) eqn:E4; lia.
Qed.

Lemma complexity_score_range (l : list ProjectRequirement) :
  0 <= complexity_score l <= 6.
Proof.
  unfold complexity_score. cbv zeta.
  destruct (5 <? countIntegrations l), (2 <? countIntegrations l),
    (requiresAI l), (hasComplexBusinessLogic l), (hasComplianceRequirements l); lia.
Qed.

Lemma assessComplexity_app (l1 l2 : list ProjectRequirement) :
  complexity_rank (assessComplexity l1) <= complexity_rank (assessComplexity (l1 ++ l2)).
Proof.
  unfold assessComplexity. cbv zeta.
  pose proof (complexity_score_app l1 l2) as H.
  destruct (5 <=? complexity_score l1) eqn:E1, (5 <=? complexity_score (l1 ++ l2)) eqn:E2,
    (3 <=? complexity_score l1) eqn:E3, (3 <=? complexity_score (l1 ++ l2)) eqn:E4,
    (2 <=? complexity_score l1) eqn:E5, (2 <=? complexity_score (l1 ++ l2)) eqn:E6;
    simpl; lia.
Qed.
(** X16.  The complexity score lies between 0 and 6, and the number of
    integration keywords between 0 and 6.  Appending requirements to the
    list never lowers either of them, and never lowers the assessed
    complexity in the order simple, moderate, complex, enterprise. *)
Theorem complexity_grows_with_requirements (l1 l2 : list ProjectRequirement) :
  0 <= countIntegrations l1 <= 6
  /\ 0 <= complexity_score l1 <= 6
  /\ countIntegrations l1 <= countIntegrations (l1 ++ l2)
  /\ complexity_score l1 <= complexity_score (l1 ++ l2)
  /\ complexity_rank (assessComplexity l1) <= complexity_rank (assessComplexity (l1 ++ l2)).
Proof.
  split; [apply countIntegrations_range|].
  split; [apply complexity_score_range|].
  split; [apply countIntegrations_app|].
  split; [apply complexity_score_app | apply assessComplexity_app].
Qed.

End Complexity.

Section Regex.
Import AiAgent Conversation.

Lemma dot_upto_prefix (n : nat) (s : string) :
  exists post, s = dot_upto n s +:+ post.
Proof.
  revert s. induction n as [|n IH]; intros s; [exists s; reflexivity|].
  destruct s as [|c s]; [exists EmptyString; reflexivity|].
  simpl. destruct (is_line_terminator c); [exists (String c s); reflexivity|].
  destruct (IH s) as [post Hp]. exists post. rewrite app_cons, <- Hp. reflexivity.
Qed.

Lemma dot_upto_length (n : nat) (s : string) : (String.length (dot_upto n s) <= n)%nat.
Proof.
  revert s. induction n as [|n IH]; intros s; [simpl; lia|].
  destruct s as [|c s]; simpl; [lia|].
  destruct (is_line_terminator c); simpl; [lia|]. specialize (IH s). lia.
Qed.

Lemma substring_all (s : string) : String.substring 0 (String.length s) s = s.
Proof. induction s as [|c s IH]; [reflexivity|]. simpl. rewrite IH. reflexivity. Qed.

Lemma substring_split (k : nat) (s : string) :
  (k <= String.length s)%nat ->
  s = String.substring 0 k s +:+ String.substring k (String.length s - k) s.
Proof.
  revert s. induction k as [|k IH]; intros s Hk.
  - rewrite Nat.sub_0_r, substring_all. destruct s; reflexivity.
  - destruct s as [|c s]; [simpl in Hk; lia|]. simpl in Hk |- *.
    rewrite app_cons. f_equal. apply IH. lia.
Qed.

Lemma substring_length_le (k : nat) (s : string) :
  (String.length (String.substring 0 k s) <= k)%nat.
Proof.
  revert s. induction k as [|k IH]; intros [|c s]; simpl; try lia.
  specialize (IH s). lia.
Qed.

Lemma str_length_app (a b : string) :
  String.length (a +:+ b) = (String.length a + String.length b)%nat.
Proof. induction a as [|c a IH]; [reflexivity|]. rewrite app_cons. simpl. rewrite IH. reflexivity. Qed.

Lemma startsWith_length (s p : string) :
  JS.startsWith s p = true -> (String.length p <= String.length s)%nat.
Proof.
  intros H. apply startsWith_spec in H as [post ->]. rewrite str_length_app. lia.
Qed.

Lemma toLowerCase_length (s : string) : String.length (JS.toLowerCase s) = String.length s.
Proof. induction s as [|c s IH]; [reflexivity|]. simpl. rewrite IH. reflexivity. Qed.

Lemma toLowerCase_app (a b : string) :
  JS.toLowerCase (a +:+ b) = JS.toLowerCase a +:+ JS.toLowerCase b.
Proof. induction a as [|c a IH]; [reflexivity|]. rewrite app_cons. simpl. rewrite IH. reflexivity. Qed.

(** A prefix of [s] that is at least as long as [p] starts with [p] when
    [s] does. *)
Lemma startsWith_prefix (s m post p : string) :
  s = m +:+ post -> (String.length p <= String.length m)%nat ->
  JS.startsWith s p = true -> JS.startsWith m p = true.
Proof.
  intros -> . revert m. induction p as [|a p IH]; intros m Hl H; [destruct m; reflexivity|].
  destruct m as [|b m]; [simpl in Hl; lia|].
  rewrite app_cons in H. simpl in H |- *.
  destruct (Ascii.eqb a b); [|discriminate]. apply IH; [simpl in Hl; lia | exact H].
Qed.

Lemma match_here_spec (s m : string) :
  match_here s = Some m ->
  (exists post, s = m +:+ post)
  /\ (String.length m <= 110)%nat
  /\ JS.startsWith (JS.toLowerCase m) "automat" = true.
Proof.
  unfold match_here, match_alternative.
  assert (Hgen : forall k kw,
            JS.startsWith (JS.toLowerCase s) kw = true ->
            String.length kw = k -> (7 <= k <= 10)%nat ->
            JS.startsWith kw "automat" = true ->
            let m := String.substring 0 k s
                     +:+ dot_upto 100 (String.substring k (String.length s - k) s) in
            (exists post, s = m +:+ post)
            /\ (String.length m <= 110)%nat
            /\ JS.startsWith (JS.toLowerCase m) "automat" = true).
  { intros k kw Hs Hk Hr Hkw. cbv zeta.
    pose proof (startsWith_length _ _ Hs) as Hl. rewrite toLowerCase_length, Hk in Hl.
    destruct (dot_upto_prefix 100 (String.substring k (String.length s - k) s)) as [post Hp].
    assert (Hsplit : s = (String.substring 0 k s
                          +:+ dot_upto 100 (String.substring k (String.length s - k) s))
                         +:+ post).
    { rewrite str_app_assoc, <- Hp. apply substring_split, Hl. }
    split; [exists post; exact Hsplit|]. split.
    - rewrite str_length_app.
      pose proof (substring_length_le k s).
      pose proof (dot_upto_length 100 (String.substring k (String.length s - k) s)). lia.
    - apply (startsWith_prefix (JS.toLowerCase s) _ (JS.toLowerCase post)).
      + rewrite <- toLowerCase_app, <- Hsplit. reflexivity.
      + rewrite toLowerCase_length, str_length_app.
        assert (String.length (String.substring 0 k s) = k).
        { clear -Hl. revert s Hl. induction k as [|k IH]; intros [|c s] Hl; simpl in *;
            try lia; try reflexivity. rewrite IH by lia. reflexivity. }
        simpl. lia.
      + apply startsWith_spec in Hs as [p1 Hs]. apply startsWith_spec in Hkw as [p2 Hkw].
        apply startsWith_spec. exists (p2 +:+ p1).
        rewrite Hs, Hkw at 1. rewrite !str_app_assoc. reflexivity. }
  destruct (JS.startsWith (JS.toLowerCase s) "automate") eqn:E1.
  - intros [= <-]. apply (Hgen 8%nat "automate"); auto; lia.
  - destruct (JS.startsWith (JS.toLowerCase s) "automation") eqn:E2; [|discriminate].
    intros [= <-]. apply (Hgen 10%nat "automation"); auto; lia.
Qed.

Lemma regex_match_spec (s m : string) :
  regex_match s = Some m ->
  (exists pre post, s = pre +:+ m +:+ post)
  /\ (String.length m <= 110)%nat
  /\ JS.startsWith (JS.toLowerCase m) "automat" = true.
Proof.
  induction s as [|c s IH].
  - intros H. discriminate H.
  - simpl regex_match. destruct (match_here (String c s)) as [m'|] eqn:E.
    + intros [= <-]. destruct (match_here_spec _ _ E) as ([post Hp] & H2 & H3).
      split; [exists EmptyString, post; exact Hp | auto].
    + intros H. destruct (IH H) as ((pre & post & Hp) & H2 & H3).
      split; [|auto]. exists (String c pre), post. rewrite app_cons, <- Hp. reflexivity.
Qed.

Lemma regex_match_complete (s : string) :
  JS.includes (JS.toLowerCase s) "automate" || JS.includes (JS.toLowerCase s) "automation"
  = true ->
  regex_match s <> None.
Proof.
  induction s as [|c s IH]; [discriminate|].
  intros H. simpl regex_match.
  destruct (match_here (String c s)) as [m|] eqn:E; [discriminate|].
  apply IH. unfold match_here, match_alternative in E.
  destruct (JS.startsWith (JS.toLowerCase (String c s)) "automate") eqn:E1; [discriminate|].
  destruct (JS.startsWith (JS.toLowerCase (String c s)) "automation") eqn:E2; [discriminate|].
  simpl JS.toLowerCase in H.
  rewrite (includes_unfold _ "automate"), (includes_unfold _ "automation") in H.
  simpl JS.toLowerCase in E1, E2. rewrite E1, E2 in H. exact H.
Qed.
End Regex.

Section Extract.
Import AiAgent Conversation.
Variable id_text : nat -> string.

Lemma integration_loop (message : string) (ks : list string)
    (acc : list ProjectRequirement) (rs : BlueprintGen.RandomSource) :
  let r :=
    foldl (fun '(requirements, rs) keyword =>
             if JS.includes (JS.toLowerCase message) keyword then
               let '(i, rs) := generateId id_text rs in
               (requirements ++
                  [ {| id := i; category := integrations;
                       question := "What integration is needed for " +:+ keyword +:+ "?";
                       answer := message;
                       priority := high; confidence := 7 # 10;
                       followUpNeeded := true;
                       tags := ["integration"; keyword] |} ], rs)
             else (requirements, rs))
          (acc, rs) ks in
  exists new,
    fst r = acc ++ new
    /\ Forall (integration_requirement message) new
    /\ length new = length (List.filter (JS.includes (JS.toLowerCase message)) ks)
    /\ BlueprintGen.cursor (snd r) = (BlueprintGen.cursor rs + length new)%nat
    /\ BlueprintGen.draws (snd r) = BlueprintGen.draws rs.
Proof.
  cbv zeta. revert acc rs. induction ks as [|k ks IH]; intros acc rs.
  - exists []. simpl. rewrite app_nil_r. repeat split; [constructor | lia].
  - cbn [foldl List.filter].
    destruct (JS.includes (JS.toLowerCase message) k).
    + cbn [generateId BlueprintGen.Math_random snd].
      match goal with
      | |- context [foldl ?f (acc ++ [?x], ?rs1) ks] =>
          destruct (IH (acc ++ [x]) rs1) as (new & H1 & H2 & H3 & H4 & H5);
          exists (x :: new)
      end.
      rewrite <- app_assoc in H1.
      split; [exact H1|]. split; [constructor; [repeat split | exact H2]|].
      split; [cbn [length]; rewrite H3; reflexivity|].
      split; [etrans; [exact H4|]; simpl; lia | exact H5].
    + apply IH.
Qed.

Lemma extractRequirements_spec (message : string) (rs : BlueprintGen.RandomSource) :
  let reqs := fst (extractRequirements id_text message rs) in
  let rs' := snd (extractRequirements id_text message rs) in
  let automation :=
    JS.includes (JS.toLowerCase message) "automate"
    || JS.includes (JS.toLowerCase message) "automation" in
  exists first rest,
    reqs = first ++ rest
    /\ (if automation then exists r, first = [r] /\ process_requirement message r
        else first = [])
    /\ Forall (integration_requirement message) rest
    /\ length rest
       = length (List.filter (JS.includes (JS.toLowerCase message))
                             ["integrate"; "connect"; "sync"; "api"; "webhook"])
    /\ BlueprintGen.cursor rs'
       = (BlueprintGen.cursor rs + (length first + length rest))%nat
    /\ BlueprintGen.draws rs' = BlueprintGen.draws rs.
Proof.
  cbv zeta. unfold extractRequirements. cbv zeta.
  pose proof (regex_match_complete message) as Hc.
  pose proof (regex_match_spec message) as Hs.
  destruct (JS.includes (JS.toLowerCase message) "automate"
            || JS.includes (JS.toLowerCase message) "automation").
  - destruct (regex_match message) as [m|]; [|exfalso; apply Hc; reflexivity].
    destruct (Hs m eq_refl) as (Hs1 & Hs2 & Hs3).
    cbn [generateId BlueprintGen.Math_random snd app].
    match goal with
    | |- context [foldl ?f ([?x], ?rs1) ?ks] =>
        destruct (integration_loop message ks [x] rs1) as (new & H1 & H2 & H3 & H4 & H5);
        exists [x], new
    end.
    split; [exact H1|]. split; [eexists; split; [reflexivity|]; repeat split; assumption|].
    split; [exact H2|]. split; [exact H3|].
    split; [etrans; [exact H4|]; simpl; lia | exact H5].
  - match goal with
    | |- context [foldl ?f ([], rs) ?ks] =>
        destruct (integration_loop message ks [] rs) as (new & H1 & H2 & H3 & H4 & H5);
        exists [], new
    end.
    split; [exact H1|]. split; [reflexivity|].
    split; [exact H2|]. split; [exact H3|]. split; [exact H4 | exact H5].
Qed.

Lemma List_filter_length_bound {A} (p : A -> bool) (l : list A) :
  (length (List.filter p l) <= length l)%nat.
Proof. induction l as [|x l IH]; simpl; [lia|]. destruct (p x); simpl; lia. Qed.

Lemma List_filter_length_0 {A} (p : A -> bool) (l : list A) :
  length (List.filter p l) = 0%nat <-> Forall (fun x => p x = false) l.
Proof.
  induction l as [|x l IH]; simpl.
  - split; [constructor | reflexivity].
  - destruct (p x) eqn:E; simpl.
    + split; [discriminate | intros H; inversion H; congruence].
    + rewrite IH. split; [intros H; constructor; assumption | intros H; inversion H; assumption].
Qed.

Lemma extractRequirements_facts (message : string) (rs : BlueprintGen.RandomSource) :
  let reqs := fst (extractRequirements id_text message rs) in
  let rs' := snd (extractRequirements id_text message rs) in
  Forall (fun r => process_requirement message r \/ integration_requirement message r) reqs
  /\ (length reqs <= 6)%nat
  /\ (length (List.filter (fun r => bool_decide (category r = business_process)) reqs) <= 1)%nat
  /\ (reqs = [] <->
      no_keyword (JS.toLowerCase message)
        ["automate"; "automation"; "integrate"; "connect"; "sync"; "api"; "webhook"])
  /\ BlueprintGen.cursor rs' = (BlueprintGen.cursor rs + length reqs)%nat.
Proof.
  cbv zeta.
  destruct (extractRequirements_spec message rs)
    as (first & rest & -> & Hf & Hr & Hl & Hc & _).
  pose proof (List_filter_length_bound (JS.includes (JS.toLowerCase message))
                ["integrate"; "connect"; "sync"; "api"; "webhook"]) as Hb.
  rewrite <- Hl in Hb. simpl in Hb.
  assert (Hrest : List.filter (fun r => bool_decide (category r = business_process)) rest = []).
  { clear -Hr. induction Hr as [|r rest (Hcat & _) _ IH]; [reflexivity|].
    simpl. rewrite Hcat. simpl. exact IH. }
  assert (Hnil : rest = [] <->
                 no_keyword (JS.toLowerCase message)
                   ["integrate"; "connect"; "sync"; "api"; "webhook"]).
  { unfold no_keyword. rewrite <- List_filter_length_0, <- Hl.
    destruct rest; simpl; split; congruence. }
  split; [|split; [|split; [|split]]].
  - apply Forall_app. split.
    + destruct (_ || _); [destruct Hf as (r & -> & Hp) | subst first];
        [constructor; [left; exact Hp | constructor] | constructor].
    + eapply Forall_impl; [exact Hr|]. intros r H. right. exact H.
  - rewrite length_app.
    destruct (_ || _); [destruct Hf as (r & -> & _) | subst first]; simpl; lia.
  - rewrite List.filter_app, Hrest, app_nil_r.
    destruct (_ || _); [destruct Hf as (r & -> & _) | subst first]; simpl;
      [destruct (bool_decide _); simpl; lia | lia].
  - unfold no_keyword in *.
    destruct (JS.includes (JS.toLowerCase message) "automate") eqn:E1;
      destruct (JS.includes (JS.toLowerCase message) "automation") eqn:E2;
      cbn [orb] in Hf;
      try (destruct Hf as (r & -> & _); split;
           [intros H; discriminate H
           |intros H; inversion H as [|? ? H1 H2]; subst;
            inversion H2 as [|? ? H3 H4]; subst; congruence]).
    subst first. cbn [app]. rewrite Hnil.
    split; [intros H; repeat (constructor; [assumption|]); exact H
           |intros H; inversion H as [|? ? H1 H2]; subst;
            inversion H2 as [|? ? H3 H4]; subst; exact H4].
  - rewrite length_app. exact Hc.
Qed.
(** X18.  [extractRequirements] yields at most six requirements for a
    message, of two kinds only.  At most one is a business-process
    requirement, of critical priority; its answer is a part of the
    message, at most 110 characters long, that starts with "automat" in
    upper or lower case.  The others are integration requirements of high
    priority whose answer is the whole message.  Nothing is extracted
    exactly when the lower-cased message holds none of the seven
    keywords, and every extracted requirement consumes one draw of
    [Math.random] for its id. *)
Theorem extractRequirements_two_kinds (message : string)
    (rs : BlueprintGen.RandomSource) :
  let reqs := fst (extractRequirements id_text message rs) in
  let rs' := snd (extractRequirements id_text message rs) in
  Forall (fun r => process_requirement message r \/ integration_requirement message r) reqs
  /\ (length reqs <= 6)%nat
  /\ (length (List.filter (fun r => bool_decide (category r = business_process)) reqs) <= 1)%nat
  /\ (reqs = [] <->
      no_keyword (JS.toLowerCase message)
        ["automate"; "automation"; "integrate"; "connect"; "sync"; "api"; "webhook"])
  /\ BlueprintGen.cursor rs' = (BlueprintGen.cursor rs + length reqs)%nat.
Proof. apply extractRequirements_facts. Qed.

End Extract.

Section Replies.
Import AiAgent Conversation.
Variable id_text : nat -> string.

Lemma threshold_all_critical (context : ConversationContext) :
  negb (Qle_bool (assessRequirementsCompleteness context) (8 # 10))
  = all_critical (requirements context).
Proof.
  rewrite completeness_count. unfold critical_categories_present, all_critical,
    criticalCategories. cbn [List.filter forallb].
  destruct (category_present _ business_process), (category_present _ technical_specs),
    (category_present _ integrations), (category_present _ scale_volume); reflexivity.
Qed.

Lemma business_intent_message (message : string) :
  intent_type (analyzeUserIntent message) = intent_business_process ->
  message <> EmptyString.
Proof. intros H ->. vm_compute in H. discriminate. Qed.

Lemma generateResponse_frame (intent : Intent) (message : string) (w : World) :
  (intent_type intent = intent_business_process -> message <> EmptyString) ->
  let w' := snd (generateResponse id_text intent message w) in
  kb w' = kb w
  /\ requirements (context w') = requirements (context w)
  /\ phase (context w')
     = match phase (context w) with
       | discovery =>
           if bool_decide (intent_type intent = intent_business_process)
           then requirements_phase else discovery
       | requirements_phase =>
           if all_critical (requirements (context w))
           then blueprint_phase else requirements_phase
       | p => p
       end.
Proof.
  intros Hm. cbv zeta. unfold generateResponse.
  destruct (phase (context w)) eqn:Ep.
  - unfold generateDiscoveryResponse.
    destruct (bool_decide (intent_type intent = intent_business_process)) eqn:Eb;
      [|cbn [snd]; rewrite ?Ep; auto].
    apply bool_decide_eq_true in Eb. specialize (Hm Eb).
    cbv zeta.
    match goal with
    | |- context [WorkflowKnowledge.searchWorkflows message ?f ?k] =>
        pose proof (proj2 (proj2 (proj2
          (queries_that_keep_the_store k EmptyString message f []
             WorkflowKnowledge.e_commerce))) Hm) as Hkb;
        destruct (WorkflowKnowledge.searchWorkflows message f k) as [found kb'] eqn:Es
    end.
    cbn [snd] in Hkb. subst kb'.
    destruct (0 <? length found)%nat; cbn [snd kb context set_phase phase requirements];
      rewrite ?Ep; auto.
  - unfold generateRequirementsResponse. cbv zeta.
    rewrite threshold_all_critical.
    destruct (all_critical (requirements (context w)));
      cbn [snd kb context set_phase phase requirements]; rewrite ?Ep; auto.
  - unfold generateBlueprintResponse.
    cbn [generateId calculateTimeSavings BlueprintGen.Math_random fst snd kb context].
    rewrite ?Ep. auto.
  - cbn [snd]. rewrite ?Ep. auto.
  - cbn [snd]. rewrite ?Ep. auto.
Qed.
End Replies.

Section Messages.
Import AiAgent Conversation.
Variable id_text : nat -> string.

Lemma processMessage_frame (message : string) (override : option ContextOverride)
    (w : World) :
  let c0 := overridden override (context w) in
  let reqs := requirements c0 ++ fst (extractRequirements id_text message (random w)) in
  let w' := snd (processMessage id_text message override w) in
  kb w' = kb w
  /\ requirements (context w') = reqs
  /\ phase (context w')
     = next_phase (phase c0)
         (bool_decide (intent_type (analyzeUserIntent message) = intent_business_process))
         (all_critical reqs).
Proof.
  cbv zeta. unfold processMessage. cbv zeta.
  destruct override as [o|]; cbn [overridden kb context requirements phase random];
    destruct (extractRequirements id_text message (random w)) as [reqs rs'];
    match goal with
    | |- context [generateResponse id_text ?i message ?w0] =>
        destruct (generateResponse_frame id_text i message w0
                    (business_intent_message message)) as (H1 & H2 & H3)
    end;
    rewrite H1, H2, H3; cbn [kb context push_requirements requirements phase fst];
    unfold next_phase; repeat split;
    match goal with
    | |- match ?p with discovery => _ | _ => _ end = _ => destruct p; reflexivity
    end.
Qed.

Lemma all_critical_iff (reqs : list ProjectRequirement) :
  all_critical reqs = true
  <-> forall c, In c criticalCategories -> In c (map category reqs).
Proof.
  unfold all_critical. rewrite forallb_forall.
  split; intros H c Hc; apply category_present_In, H, Hc.
Qed.

(** X19.  One call of [processMessage]: the requirements extracted from
    the message are appended to those of the context (after an override,
    if any, has replaced them), and the phase moves by the following rule.
    From discovery to requirements exactly when the message has a
    business-process intent; from requirements to blueprint exactly when
    all four critical categories occur among the requirements, those of
    the current message included; the phases blueprint, implementation
    and optimization are never left. *)
Theorem processMessage_step (message : string) (override : option ContextOverride)
    (w : World) :
  let c0 := overridden override (context w) in
  let reqs := requirements c0 ++ fst (extractRequirements id_text message (random w)) in
  let c' := context (snd (processMessage id_text message override w)) in
  requirements c' = reqs
  /\ phase c'
     = next_phase (phase c0)
         (bool_decide (intent_type (analyzeUserIntent message) = intent_business_process))
         (all_critical reqs)
  /\ (all_critical reqs = true
      <-> forall c, In c criticalCategories -> In c (map category reqs)).
Proof.
  cbv zeta. destruct (processMessage_frame message override w) as (_ & H1 & H2).
  split; [exact H1|]. split; [exact H2 | apply all_critical_iff].
Qed.

Lemma In_take {A} (n : nat) (l : list A) (x : A) : In x (take n l) -> In x l.
Proof.
  revert l. induction n as [|n IH]; intros [|y l]; simpl; try tauto.
  intros [H|H]; [left; exact H | right; apply IH, H].
Qed.

Lemma In_slice0 {A} (e : Z) (l : list A) (x : A) : In x (JS.slice0 e l) -> In x l.
Proof. unfold JS.slice0. destruct (e <? 0); apply In_take. Qed.

(** X21.  The agent never changes the knowledge base: neither
    [processMessage], with or without a context override, nor the
    agent's [getRecommendedWorkflows], which also leaves the context as
    it is, returns only templates of the store, and returns at most five
    of them when no limit is given. *)
Theorem agent_keeps_knowledge_base (message : string) (override : option ContextOverride)
    (limit : option Z) (w : World) :
  kb (snd (processMessage id_text message override w)) = kb w
  /\ kb (snd (getRecommendedWorkflows limit w)) = kb w
  /\ context (snd (getRecommendedWorkflows limit w)) = context w
  /\ (forall t, In t (fst (getRecommendedWorkflows limit w)) ->
        In t (WorkflowKnowledge.workflows (kb w)))
  /\ (length (fst (getRecommendedWorkflows None w)) <= 5)%nat.
Proof.
  split; [apply (processMessage_frame message override w)|].
  split; [reflexivity|]. split; [reflexivity|]. split.
  - intros t Ht. unfold getRecommendedWorkflows in Ht. cbv zeta in Ht.
    destruct (WorkflowKnowledge.getRecommendedWorkflows _ (kb w)) as [recommended kb'] eqn:E.
    cbn [fst] in Ht. apply In_slice0 in Ht.
    assert (Hr : recommended
                 = fst (WorkflowKnowledge.getRecommendedWorkflows
                          (map answer (requirements (context w))) (kb w)))
      by (rewrite E; reflexivity).
    rewrite Hr, recommended_is_top_of_ranking in Ht.
    apply In_take, list_elem_of_In in Ht.
    rewrite ranking_permutation in Ht. apply list_elem_of_In, List.filter_In in Ht.
    apply Ht.
  - unfold getRecommendedWorkflows. cbv zeta.
    destruct (WorkflowKnowledge.getRecommendedWorkflows _ (kb w)) as [recommended kb'].
    cbn [fst default]. unfold JS.slice0. simpl. rewrite length_take. lia.
Qed.

Lemma extracted_not_critical (reqs : list ProjectRequirement) :
  Forall extracted_category reqs ->
  category_present reqs technical_specs = false
  /\ category_present reqs scale_volume = false.
Proof.
  intros H. unfold category_present.
  induction H as [|r reqs [Hr|Hr] _ [IH1 IH2]]; [split; reflexivity| |];
    simpl; rewrite Hr, IH1, IH2; split; reflexivity.
Qed.

Lemma extracted_incomplete (reqs : list ProjectRequirement) :
  Forall extracted_category reqs ->
  all_critical reqs = false /\ (critical_categories_present reqs <= 2)%nat.
Proof.
  intros H. destruct (extracted_not_critical reqs H) as [H1 H2].
  unfold all_critical, critical_categories_present, criticalCategories.
  cbn [forallb List.filter]. rewrite H1, H2.
  destruct (category_present reqs business_process), (category_present reqs integrations);
    simpl; split; try reflexivity; lia.
Qed.

Lemma extractRequirements_extracted (message : string) (rs : BlueprintGen.RandomSource) :
  Forall extracted_category (fst (extractRequirements id_text message rs)).
Proof.
  destruct (extractRequirements_facts id_text message rs) as (H & _).
  eapply Forall_impl; [exact H|].
  intros r [(Hc & _)|(Hc & _)]; [left | right]; exact Hc.
Qed.

Lemma converse_snoc (messages : list string) (message : string) (w : World) :
  converse id_text (messages ++ [message]) w
  = snd (processMessage id_text message None (converse id_text messages w)).
Proof. unfold converse. rewrite foldl_app. reflexivity. Qed.

Lemma converse_invariant (messages : list string) (w : World) :
  Forall extracted_category (requirements (context w)) ->
  phase (context w) = discovery \/ phase (context w) = requirements_phase ->
  let w' := converse id_text messages w in
  Forall extracted_category (requirements (context w'))
  /\ (phase (context w') = discovery \/ phase (context w') = requirements_phase)
  /\ kb w' = kb w.
Proof.
  intros Hr Hp. cbv zeta.
  induction messages as [|m messages IH] using rev_ind; [auto|].
  rewrite converse_snoc. destruct IH as (IH1 & IH2 & IH3).
  destruct (processMessage_frame m None (converse id_text messages w)) as (H1 & H2 & H3).
  cbn [overridden] in H2, H3.
  assert (Hall : Forall extracted_category
                   (requirements (context (converse id_text messages w))
                    ++ fst (extractRequirements id_text m
                              (random (converse id_text messages w))))).
  { apply Forall_app. split; [exact IH1 | apply extractRequirements_extracted]. }
  rewrite H1, H2, H3. split; [exact Hall|]. split; [|exact IH3].
  destruct (extracted_incomplete _ Hall) as [-> _].
  destruct IH2 as [-> | ->]; simpl; [destruct (bool_decide _)|]; auto.
Qed.

(** X20.  An agent that starts from the fresh context and is given
    messages without a context override never reaches the blueprint
    phase: after any number of messages it is in discovery or in
    requirements, all its requirements are business-process or
    integration requirements, the completeness is at most one half, and
    the knowledge base is the one it started with. *)
Theorem messages_never_reach_blueprint (messages : list string)
    (store : WorkflowKnowledge.KnowledgeBase) (rs : BlueprintGen.RandomSource) :
  let w := converse id_text messages
             {| context := empty_context; kb := store; random := rs |} in
  (phase (context w) = discovery \/ phase (context w) = requirements_phase)
  /\ Forall extracted_category (requirements (context w))
  /\ (assessRequirementsCompleteness (context w) <= 1 # 2)%Q
  /\ kb w = store.
Proof.
  cbv zeta.
  destruct (converse_invariant messages
              {| context := empty_context; kb := store; random := rs |})
    as (H1 & H2 & H3); [constructor | left; reflexivity |].
  split; [exact H2|]. split; [exact H1|]. split; [|exact H3].
  rewrite completeness_count.
  destruct (extracted_incomplete _ H1) as [_ Hle].
  revert Hle. generalize (critical_categories_present
                            (requirements (context (converse id_text messages
                               {| context := empty_context; kb := store; random := rs |})))).
  intros n Hn. unfold Qle, Qdiv, Qmult, Qinv, inject_Z. simpl. lia.
Qed.
End Messages.

Section Questions.
Import AiAgent Conversation.
Variable id_text : nat -> string.

Lemma getMissing_filter (context : ConversationContext) :
  getMissingRequirementCategories context
  = List.filter (fun c => negb (category_present (requirements context) c))
                asked_categories.
Proof.
  unfold getMissingRequirementCategories. cbv zeta.
  apply List.filter_ext. intros c. rewrite covered_present. reflexivity.
Qed.

(** X22.  [getMissingRequirementCategories] returns, in a fixed order,
    the categories among business-process, technical-specs, integrations,
    scale-volume, security-compliance and budget-timeline that no
    requirement has.  While a critical category is missing the list
    starts with a critical category; once all four are present it holds
    at most security-compliance and budget-timeline.  The next questions
    are the question lines of the first three missing categories. *)
Theorem missing_categories_spec (context : ConversationContext) :
  let reqs := requirements context in
  let missing := getMissingRequirementCategories context in
  (forall c, In c missing <-> In c asked_categories /\ ~ In c (map category reqs))
  /\ (all_critical reqs = false ->
      exists c rest, missing = c :: rest /\ In c criticalCategories)
  /\ (all_critical reqs = true ->
      forall c, In c missing -> c = security_compliance \/ c = budget_timeline)
  /\ nextQuestions context = map question_line (take 3 missing)
  /\ length (nextQuestions context) = Nat.min 3 (length missing).
Proof.
  cbv zeta. split; [|split; [|split; [|split]]].
  - intros c. rewrite getMissing_filter, List.filter_In, negb_true_iff,
      <- category_present_In, not_true_iff_false. reflexivity.
  - rewrite getMissing_filter. unfold all_critical, criticalCategories, asked_categories.
    cbn [forallb List.filter].
    destruct (category_present _ business_process); cbn [negb andb];
      [|intros _; eexists _, _; split; [reflexivity | simpl; auto]].
    destruct (category_present _ technical_specs); cbn [negb andb];
      [|intros _; eexists _, _; split; [reflexivity | simpl; auto]].
    destruct (category_present _ integrations); cbn [negb andb];
      [|intros _; eexists _, _; split; [reflexivity | simpl; auto]].
    destruct (category_present _ scale_volume); cbn [negb andb];
      [discriminate|intros _; eexists _, _; split; [reflexivity | simpl; auto]].
  - rewrite getMissing_filter. unfold all_critical, criticalCategories, asked_categories.
    cbn [forallb List.filter]. intros H.
    apply andb_true_iff in H as [H1 H]. apply andb_true_iff in H as [H2 H].
    apply andb_true_iff in H as [H3 H]. apply andb_true_iff in H as [H4 _].
    rewrite H1, H2, H3, H4. cbn [negb].
    intros c Hc.
    destruct (category_present _ security_compliance),
      (category_present _ budget_timeline); simpl in Hc; intuition.
  - unfold nextQuestions. cbv zeta. rewrite getMissing_filter. unfold asked_categories.
    cbn [List.filter].
    destruct (category_present _ business_process), (category_present _ technical_specs),
      (category_present _ integrations), (category_present _ scale_volume),
      (category_present _ security_compliance), (category_present _ budget_timeline);
      vm_compute; reflexivity.
  - unfold nextQuestions. cbv zeta. rewrite getMissing_filter. unfold asked_categories.
    cbn [List.filter].
    destruct (category_present _ business_process), (category_present _ technical_specs),
      (category_present _ integrations), (category_present _ scale_volume),
      (category_present _ security_compliance), (category_present _ budget_timeline);
      vm_compute; reflexivity.
Qed.

Lemma business_intent_category (message : string) :
  intent_type (analyzeUserIntent message) = intent_business_process ->
  exists c,
    getCategoryFromKeywords (keywords (analyzeUserIntent message)) = Some c
    /\ In c [WorkflowKnowledge.e_commerce; WorkflowKnowledge.crm_sales;
             WorkflowKnowledge.marketing_automation; WorkflowKnowledge.customer_support]
    /\ (containsKeywords (JS.toLowerCase message)
          ["ecommerce"; "e-commerce"; "online store"; "shop"; "orders"; "products"] = true ->
        c = WorkflowKnowledge.e_commerce).
Proof.
  unfold analyzeUserIntent. cbv zeta.
  destruct (containsKeywords _ ["ecommerce"; _; _; _; _; _]);
    [intros _; eexists; split; [reflexivity|]; split; [simpl; auto | reflexivity]|].
  destruct (containsKeywords _ ["lead"; _; _; _; _; _]);
    [intros _; eexists; split; [reflexivity|]; split; [simpl; auto | discriminate]|].
  destruct (containsKeywords _ ["marketing"; _; _; _; _]);
    [intros _; eexists; split; [reflexivity|]; split; [simpl; auto | discriminate]|].
  destruct (containsKeywords _ ["support"; _; _; _]);
    [intros _; eexists; split; [reflexivity|]; split; [simpl; auto | discriminate]|].
  destruct (containsKeywords _ ["api"; _; _; _; _]); [discriminate|].
  destruct (containsKeywords _ ["scale"; _; _; _; _]); discriminate.
Qed.

(** X23.  In the discovery phase a message of business-process intent is
    answered from a search of the knowledge base that is filtered by one
    of the categories e-commerce, crm-sales, marketing-automation and
    customer-support.  The search finds exactly the templates of that
    category in which every space-separated word of the lower-cased
    message occurs; the reply lists the first three of them with their
    number, and is the greeting when there is none. *)
Theorem discovery_reply_spec (message : string) (w : World) :
  phase (context w) = discovery ->
  intent_type (analyzeUserIntent message) = intent_business_process ->
  exists c,
    getCategoryFromKeywords (keywords (analyzeUserIntent message)) = Some c
    /\ In c [WorkflowKnowledge.e_commerce; WorkflowKnowledge.crm_sales;
             WorkflowKnowledge.marketing_automation; WorkflowKnowledge.customer_support]
    /\ let found :=
         fst (WorkflowKnowledge.searchWorkflows message (Some (category_filter (Some c)))
                (kb w)) in
       fst (processMessage id_text message None w)
       = (if (0 <? length found)%nat
          then workflow_patterns (keywords (analyzeUserIntent message))
                                 (length found) (take 3 found)
          else greeting)
       /\ (forall t, In t found <->
             In t (WorkflowKnowledge.workflows (kb w))
             /\ WorkflowKnowledge.category t = c
             /\ forall term, In term (space_tokens message) -> term_hit t term).
Proof.
  intros Hp Hb. destruct (business_intent_category message Hb) as (c & Hc & Hin & _).
  exists c. split; [exact Hc|]. split; [exact Hin|]. cbv zeta. split.
  - unfold processMessage. cbv zeta.
    destruct (extractRequirements id_text message (random w)) as [reqs rs'].
    unfold generateResponse. cbn [context push_requirements phase]. rewrite Hp.
    unfold generateDiscoveryResponse. rewrite (bool_decide_eq_true_2 _ Hb).
    cbv zeta. cbn [kb set_phase]. rewrite Hc. fold (category_filter (Some c)).
    destruct (WorkflowKnowledge.searchWorkflows message _ (kb w)) as [found kb'].
    cbn [fst]. destruct (0 <? length found)%nat; reflexivity.
  - intros t. rewrite search_membership by (apply business_intent_message, Hb).
    unfold satisfies_filters, category_filter.
    split.
    + intros (H1 & H2 & H3). split; [exact H1|]. split; [|exact H2].
      destruct (H3 _ eq_refl) as (H4 & _). apply H4. reflexivity.
    + intros (H1 & H2 & H3). split; [exact H1|]. split; [exact H3|].
      intros f [= <-]. cbn. repeat split; try discriminate. intros c' [= <-]. exact H2.
Qed.
End Questions.

Section WorkflowTags.
Import N8nBuilder.

Lemma generated_tags (requirements : list AiAgent.ProjectRequirement)
    (config : BlueprintGen.BlueprintConfig) (rs : BlueprintGen.RandomSource) :
  generateWorkflowTags
    (fst (BlueprintGen.generateComprehensiveBlueprint requirements config rs))
  = ["automation"; "ai-engineer"]
    ++ (if String.eqb (BlueprintGen.identifyDomain requirements) "ecommerce"
        then ["ecommerce"] else [])
    ++ (if String.eqb (BlueprintGen.identifyDomain requirements) "data"
        then ["data-processing"] else []).
Proof.
  unfold generateWorkflowTags, BlueprintGen.generateComprehensiveBlueprint,
    BlueprintGen.calculateROI, BlueprintGen.Math_random.
  cbn [fst AiAgent.title]. unfold BlueprintGen.generateProjectTitle,
    BlueprintGen.analyzeRequirements. cbn [BlueprintGen.an_domain BlueprintGen.an_complexity].
  unfold BlueprintGen.identifyDomain, BlueprintGen.assessComplexity. cbv zeta.
  generalize (BlueprintGen.complexity_score requirements). intros z.
  repeat match goal with
         | |- context [JS.includes (BlueprintGen.content requirements) ?k] =>
             generalize (JS.includes (BlueprintGen.content requirements) k); intros ?
         end.
  destruct (5 <=? z), (3 <=? z), (2 <=? z);
    repeat match goal with
           | |- context [if (?b || _ || _) then _ else _] => destruct b; cbn [orb]
           | |- context [if (?b || _) then _ else _] => destruct b; cbn [orb]
           | |- context [if ?b then "ecommerce" else _] => destruct b
           | |- context [if ?b then "sales" else _] => destruct b
           | |- context [if ?b then "data" else _] => destruct b
           | |- context [if ?b then "support" else _] => destruct b
           | |- context [if ?b then "marketing" else _] => destruct b
           end; vm_compute; reflexivity.
Qed.

(** X24.  The tags of the main workflow and of the monitoring workflow are
    pairwise distinct.  The data-processing workflow carries the tag
    'data-processing' twice exactly when the title of the blueprint
    mentions data.  For a blueprint of the generator the tags are
    'automation' and 'ai-engineer', then 'ecommerce' for the ecommerce
    domain and 'data-processing' for the data domain; the tags 'crm' and
    'sales' are never given to it. *)
Theorem workflow_tags blueprint requirements options s
    (config : BlueprintGen.BlueprintConfig) (rs : BlueprintGen.RandomSource) :
  NoDup (tags (fst (buildMainWorkflow blueprint requirements options s)))
  /\ NoDup (tags (fst (buildMonitoringWorkflow blueprint options s)))
  /\ (NoDup (tags (fst (buildDataProcessingWorkflow blueprint requirements options s)))
      <-> JS.includes (JS.toLowerCase (AiAgent.title blueprint)) "data" = false)
  /\ generateWorkflowTags
       (fst (BlueprintGen.generateComprehensiveBlueprint requirements config rs))
     = ["automation"; "ai-engineer"]
       ++ (if String.eqb (BlueprintGen.identifyDomain requirements) "ecommerce"
           then ["ecommerce"] else [])
       ++ (if String.eqb (BlueprintGen.identifyDomain requirements) "data"
           then ["data-processing"] else []).
Proof.
  enough (H : NoDup (tags (fst (buildMainWorkflow blueprint requirements options s)))
              /\ NoDup (tags (fst (buildMonitoringWorkflow blueprint options s)))
              /\ (NoDup (tags (fst (buildDataProcessingWorkflow blueprint requirements
                                      options s)))
                  <-> JS.includes (JS.toLowerCase (AiAgent.title blueprint)) "data" = false)).
  { destruct H as (H1 & H2 & H3).
    split; [exact H1|]. split; [exact H2|]. split; [exact H3 | apply generated_tags]. }
  rewrite buildMainWorkflow_split.
  assert (Hm : tags (fst (finishMainWorkflow blueprint (includeErrorHandling options)
                       (fst (buildMainChain blueprint requirements (securityLevel options) s))
                       (snd (buildMainChain blueprint requirements (securityLevel options) s))))
               = generateWorkflowTags blueprint).
  { unfold finishMainWorkflow. rewrite run_bind, run_ret. reflexivity. }
  rewrite Hm.
  change (tags (fst (buildMonitoringWorkflow blueprint options s)))
    with (generateWorkflowTags blueprint ++ ["monitoring"]).
  change (tags (fst (buildDataProcessingWorkflow blueprint requirements options s)))
    with (generateWorkflowTags blueprint ++ ["data-processing"]).
  unfold generateWorkflowTags. cbv zeta.
  destruct (JS.includes _ "ecommerce"), (JS.includes _ "crm"), (JS.includes _ "data");
    cbn [app];
    (split; [apply (bool_decide_unpack _); vm_compute; reflexivity|]);
    (split; [apply (bool_decide_unpack _); vm_compute; reflexivity|]);
    (split; [intros H; try reflexivity; exfalso; revert H;
             apply (bool_decide_unpack _); vm_compute; reflexivity
            |intros H; try discriminate H;
             apply (bool_decide_unpack _); vm_compute; reflexivity]).
Qed.
End WorkflowTags.

Section ReplySample.
Import AiAgent Conversation.

Lemma discovery_reply_spec_witness :
  let w := {| context := empty_context; kb := lead_store;
              random := low_then_high |} in
  phase (context w) = discovery
  /\ intent_type (analyzeUserIntent "lead scoring") = intent_business_process
  /\ fst (processMessage (fun _ => "r") "lead scoring" None w)
     = workflow_patterns ["crm"; "sales"] 1 [lead_scoring].
Proof.
  cbv zeta.
  assert (Hb : intent_type (analyzeUserIntent "lead scoring") = intent_business_process)
    by (vm_compute; reflexivity).
  split; [reflexivity|]. split; [exact Hb|].
  destruct (discovery_reply_spec (fun _ => "r") "lead scoring"
              {| context := empty_context; kb := lead_store; random := low_then_high |}
              eq_refl Hb) as (c & Hc & _ & Hr & _).
  vm_compute in Hc. injection Hc as <-.
  rewrite Hr. vm_compute. reflexivity.
Defined.

End ReplySample.
